(** * dotagent: classification and validation core

    A shallow embedding of [src/type-detector.ts] and [src/validators.ts].

    Conventions of the embedding.
    - A JavaScript string is a [string] of 8-bit characters; [toLowerCase]
      acts on the letters [A]-[Z].
    - A JavaScript number is an exact rational ([Q]); [===] on numbers is
      [Qeq_bool], the comparisons are [Qle_bool] and its negation.  The
      code computes in IEEE doubles, so a score of the embedding can differ
      from the one of the code in the last place, and two scores that are
      equal here need not be equal there.  The properties below are those
      that do not depend on it: bounds, the values 0, 0.5 and 1, which the
      doubles give exactly, and facts about [Math.max] and [===] stated for
      any four scores.  None says which category wins when two computed
      scores are close.
    - An optional property of an object is an [option]; [None] is
      [undefined].  Truthiness of a string is non-emptiness, an array is
      always truthy.
    - A function that may throw returns a [Result]. *)

From Stdlib Require Import String Ascii List ZArith QArith Qminmax Lia Bool.
From stdpp Require Import base gmap strings list pretty.
Import ListNotations.
Open Scope string_scope.
Set Warnings "-clear-no-such-hyp".

(** ** JavaScript primitives used by the two source files *)

Module JS.

Definition empty : string := EmptyString.

(** The double-quote character, for template literals that print one. *)
Definition dquote : string := String (ascii_of_nat 34) EmptyString.

Definition code (c : ascii) : nat := nat_of_ascii c.

Definition between (lo hi : nat) (c : ascii) : bool :=
  (lo <=? code c)%nat && (code c <=? hi)%nat.

Definition isUpper : ascii -> bool := between 65 90.
Definition isLower : ascii -> bool := between 97 122.
Definition isDigit : ascii -> bool := between 48 57.
Definition isAlpha (c : ascii) : bool := isUpper c || isLower c.

(** [\s] of a regular expression, and the characters [trim] strips. *)
Definition isSpace (c : ascii) : bool :=
  between 9 13 c || (code c =? 32)%nat || (code c =? 160)%nat.

(** LineTerminator, the positions after which [^] matches under [/m]. *)
Definition isLineTerminator (c : ascii) : bool :=
  (code c =? 10)%nat || (code c =? 13)%nat.

Definition lowerChar (c : ascii) : ascii :=
  if isUpper c then ascii_of_nat (code c + 32) else c.

Fixpoint toLowerCase (s : string) : string :=
  match s with
  | EmptyString => EmptyString
  | String c t => String (lowerChar c) (toLowerCase t)
  end.

(** [s.startsWith(p)] *)
Definition startsWith (s p : string) : bool := String.prefix p s.

(** [s.includes(p)] *)
Fixpoint includes (s p : string) : bool :=
  String.prefix p s ||
  match s with
  | EmptyString => false
  | String _ t => includes t p
  end.

(** [s.trim() === ''] *)
Fixpoint trimIsEmpty (s : string) : bool :=
  match s with
  | EmptyString => true
  | String c t => isSpace c && trimIsEmpty t
  end.

(** [(s.match(new RegExp(p, 'g')) || []).length] for a pattern [p] without
    metacharacters (every keyword of the detector is one): the matches
    are found left to right and do not overlap.  [skip] counts the
    characters still covered by the last match. *)
Fixpoint countFrom (skip : nat) (s p : string) : nat :=
  match s with
  | EmptyString => 0
  | String _ t =>
      match skip with
      | S k => countFrom k t p
      | O => if String.prefix p s
             then S (countFrom (String.length p - 1) t p)
             else countFrom 0 t p
      end
  end.

Definition countMatches (s p : string) : nat := countFrom 0 s p.

(** [l.join(sep)] *)
Definition join (sep : string) (l : list string) : string := String.concat sep l.

(** [l.some(f)] *)
Definition some {A} (f : A -> bool) (l : list A) : bool := existsb f l.

(** [l.includes(x)] on an array of strings *)
Definition arrayIncludes (l : list string) (x : string) : bool :=
  existsb (String.eqb x) l.

(** [l.slice(0, n)] *)
Definition slice0 {A} (n : nat) (l : list A) : list A := firstn n l.

(** Truthiness of an optional string property. *)
Definition truthy (o : option string) : bool :=
  match o with
  | Some s => negb (String.eqb s EmptyString)
  | None => false
  end.

(** [x === true] on an optional boolean property. *)
Definition isTrue (o : option bool) : bool :=
  match o with Some true => true | _ => false end.

(** A parameter that the caller may pass as [null] or [undefined]. *)
Inductive nullable (A : Type) : Type :=
| Undefined : nullable A
| Null : nullable A
| Value : A -> nullable A.
Arguments Undefined {A}.
Arguments Null {A}.
Arguments Value {A} _.

(** [x === undefined || x === null] *)
Definition nullish {A} (x : nullable A) : bool :=
  match x with
  | Value _ => false
  | _ => true
  end.

(** Exceptions the two files can raise, and results of calls that may. *)
Inductive Error : Type :=
| ReferenceError (name : string)
| TypeError (what : string).

Inductive Result (A : Type) : Type :=
| Ok : A -> Result A
| Throw : Error -> Result A.
Arguments Ok {A} _.
Arguments Throw {A} _.

Definition bind {A B} (r : Result A) (k : A -> Result B) : Result B :=
  match r with
  | Ok a => k a
  | Throw e => Throw e
  end.

(** Evaluating an identifier that no enclosing scope declares. *)
Definition unbound {A} (name : string) : Result A := Throw (ReferenceError name).

End JS.

#[global] Instance Result_bind : MBind JS.Result := fun A B k r => JS.bind r k.
#[global] Instance Result_ret : MRet JS.Result := @JS.Ok.

(** ** Regular expressions

    The patterns of the two files use literals, character classes,
    alternation, [*], [+] and the anchors [^] and [$].  A pattern is a term
    of [RegExp.t]; [RegExp.prototype.test] is decided with derivatives.
    Anchors are not constructors: each pattern is tested with the search
    that its anchors and flags ask for. *)

Module RegExp.

Inductive t : Type :=
| Void
| Eps
| Chr (p : ascii -> bool)
| Cat (r1 r2 : t)
| Alt (r1 r2 : t)
| Star (r : t).

Fixpoint nullable (r : t) : bool :=
  match r with
  | Void => false
  | Eps => true
  | Chr _ => false
  | Cat r1 r2 => nullable r1 && nullable r2
  | Alt r1 r2 => nullable r1 || nullable r2
  | Star _ => true
  end.

Fixpoint deriv (c : ascii) (r : t) : t :=
  match r with
  | Void => Void
  | Eps => Void
  | Chr p => if p c then Eps else Void
  | Cat r1 r2 =>
      if nullable r1
      then Alt (Cat (deriv c r1) r2) (deriv c r2)
      else Cat (deriv c r1) r2
  | Alt r1 r2 => Alt (deriv c r1) (deriv c r2)
  | Star r1 => Cat (deriv c r1) (Star r1)
  end.

(** Some prefix of [s] matches [r]. *)
Fixpoint matchesPrefix (r : t) (s : string) : bool :=
  nullable r ||
  match s with
  | EmptyString => false
  | String c u => matchesPrefix (deriv c r) u
  end.

(** [s] as a whole matches [r]: a pattern written [^...$] without [/m]. *)
Fixpoint matchesWhole (r : t) (s : string) : bool :=
  match s with
  | EmptyString => nullable r
  | String c u => matchesWhole (deriv c r) u
  end.

(** [r.test(s)] for a pattern without anchors: a match may start anywhere. *)
Fixpoint test (r : t) (s : string) : bool :=
  matchesPrefix r s ||
  match s with
  | EmptyString => false
  | String _ u => test r u
  end.

(** [r.test(s)] for a pattern written [^...] with [/m]: a match starts at
    the beginning of the input or just after a line terminator. *)
Fixpoint testLines (atStart : bool) (r : t) (s : string) : bool :=
  (atStart && matchesPrefix r s) ||
  match s with
  | EmptyString => false
  | String c u => testLines (JS.isLineTerminator c) r u
  end.

Definition plus (r : t) : t := Cat r (Star r).

Definition chr (c : ascii) : t := Chr (Ascii.eqb c).

(** A letter under the [/i] flag. *)
Definition chri (c : ascii) : t := Chr (fun x => Ascii.eqb (JS.lowerChar x) (JS.lowerChar c)).

Fixpoint lit (s : string) : t :=
  match s with
  | EmptyString => Eps
  | String c u => Cat (chr c) (lit u)
  end.

Fixpoint liti (s : string) : t :=
  match s with
  | EmptyString => Eps
  | String c u => Cat (chri c) (liti u)
  end.

Fixpoint alts (l : list t) : t :=
  match l with
  | [] => Void
  | [r] => r
  | r :: l' => Alt r (alts l')
  end.

Definition space : t := Chr JS.isSpace.
Definition digit : t := Chr JS.isDigit.
Definition alpha : t := Chr JS.isAlpha.
Definition any : t := Chr (fun _ => true).

(** [[a-zA-Z0-9_-]] *)
Definition wordDash : t :=
  Chr (fun c => JS.isAlpha c || JS.isDigit c || Ascii.eqb c "_" || Ascii.eqb c "-")%char.

End RegExp.

(** ** Metadata of a configuration document ([RuleMetadata] and its
    extensions [SkillMetadata], [SubAgentMetadata], [CommandMetadata])

    The record has the properties that the two files read.  Properties
    that are declared required by an extension are optional here, because
    the validators test for their absence. *)

Module Argument.
Record t : Type := mk {
  name : string;
  type : string;
  required : option bool;
  description : option string
}.
End Argument.

Module Metadata.

(** [scope?: string | string[]] *)
Inductive Scope : Type :=
| One (s : string)
| Many (l : list string).

Record t : Type := mk {
  id : string;
  type : option string;
  alwaysApply : option bool;
  scope : option Scope;
  triggers : option (list string);
  manual : option bool;
  priority : option string;
  description : option string;
  expertise : option (list string);
  dependencies : option (list string);
  portability : option string;
  examples : option (list string);
  model : option string;
  tools : option (list string);
  isolatedContext : option bool;
  systemPrompt : option string;
  trigger : option string;
  userInvoked : option bool;
  arguments : option (list Argument.t)
}.

(** Truthiness of [metadata.scope]. *)
Definition scopeTruthy (o : option Scope) : bool :=
  match o with
  | None => false
  | Some (One s) => negb (String.eqb s EmptyString)
  | Some (Many _) => true
  end.

(** [Array.isArray(scope) ? scope : [scope]] *)
Definition scopeList (sc : Scope) : list string :=
  match sc with
  | One s => [s]
  | Many l => l
  end.

(** [const { type: _, ...metadataWithoutType } = metadata] *)
Definition withoutType (m : t) : t :=
  mk (id m) None (alwaysApply m) (scope m) (triggers m) (manual m)
     (priority m) (description m) (expertise m) (dependencies m)
     (portability m) (examples m) (model m) (tools m) (isolatedContext m)
     (systemPrompt m) (trigger m) (userInvoked m) (arguments m).

(** An object with an [id] and nothing else. *)
Definition bare (i : string) : t :=
  mk i None None None None None None None None None None None None None
     None None None None None.

End Metadata.

(** [RuleBlock]: a configuration document. *)
Module RuleBlock.
Record t : Type := mk {
  metadata : Metadata.t;
  content : string
}.
End RuleBlock.

(** ** [src/type-detector.ts] *)

Module ContentAnalysis.
Record t : Type := mk {
  skillPatterns : list string;
  subagentPatterns : list string;
  commandPatterns : list string;
  rulePatterns : list string;
  structuralFeatures : list string;
  keywordDensity : gmap string nat
}.
End ContentAnalysis.

Module MetadataAnalysis.
Record t : Type := mk {
  explicitType : option string;
  typeHints : list string;
  confidence : Q;
  conflictingSignals : list string
}.
End MetadataAnalysis.

Module AbstractionTypeInfo.
Record t : Type := mk {
  type : option string;
  confidence : Q;
  indicators : list string
}.
End AbstractionTypeInfo.

(** [Record<AbstractionType, number>]; the keys are enumerated in the order
    [skill], [subagent], [command], [rule]. *)
Module Scores.
Record t : Type := mk {
  skill : Q;
  subagent : Q;
  command : Q;
  rule : Q
}.

Definition keys : list string := ["skill"; "subagent"; "command"; "rule"].

Definition get (s : t) (k : string) : Q :=
  if String.eqb k "skill" then skill s
  else if String.eqb k "subagent" then subagent s
  else if String.eqb k "command" then command s
  else rule s.

(** [Math.max(...Object.values(scores))] *)
Definition maxValue (s : t) : Q :=
  Qmax (Qmax (Qmax (skill s) (subagent s)) (command s)) (rule s).

(** [Object.keys(scores).find(type => scores[type] === m)] *)
Definition findKey (s : t) (m : Q) : option string :=
  List.find (fun k => Qeq_bool (get s k) m) keys.
End Scores.

Module TypeDetector.
Import ContentAnalysis MetadataAnalysis.

Definition SKILL_KEYWORDS : list string :=
  [ "how to"; "pattern:"; "example:"; "best practice"; "approach";
    "when working with"; "technique"; "method"; "strategy";
    "remember"; "consider"; "note that"; "keep in mind";
    "tip:"; "guideline"; "recommendation"; "practice";
    "expertise"; "knowledge"; "understanding"; "mastery" ].

Definition SUBAGENT_KEYWORDS : list string :=
  [ "delegate to"; "hand off"; "sub-task"; "subtask";
    "separate context"; "independent"; "isolated"; "spawn";
    "claude-"; "gpt-"; "haiku"; "sonnet"; "model";
    "step 1:"; "first"; "then"; "finally"; "next";
    "procedure"; "workflow"; "process"; "pipeline" ].

Definition COMMAND_KEYWORDS : list string :=
  [ "run"; "execute"; "trigger"; "invoke"; "call";
    "command"; "cli"; "script"; "tool";
    "when user types"; "usage:"; "syntax:";
    "argument"; "parameter"; "flag"; "option" ].

Definition RULE_KEYWORDS : list string :=
  [ "always"; "every time"; "consistently"; "never";
    "you are"; "your role is"; "behave as"; "act as";
    "should"; "must"; "avoid"; "ensure"; "require";
    "global"; "universal"; "default"; "baseline" ].

(** [STRUCTURAL_PATTERNS], in the order of the object literal.  Each entry
    is the name of the pattern and its [test]. *)
Definition numberedList (s : string) : bool :=
  RegExp.testLines true
    (RegExp.Cat (RegExp.Star RegExp.space)
       (RegExp.Cat (RegExp.plus RegExp.digit)
          (RegExp.Cat (RegExp.lit ".") (RegExp.plus RegExp.space)))) s.

Definition bulletList (s : string) : bool :=
  RegExp.testLines true
    (RegExp.Cat (RegExp.Star RegExp.space)
       (RegExp.Cat (RegExp.Alt (RegExp.lit "-") (RegExp.lit "*"))
          (RegExp.plus RegExp.space))) s.

Definition slashCommand (s : string) : bool :=
  RegExp.test
    (RegExp.Cat (RegExp.lit "/")
       (RegExp.Cat RegExp.alpha (RegExp.Star RegExp.wordDash))) s.

Definition codeBlock (s : string) : bool :=
  RegExp.test
    (RegExp.Cat (RegExp.lit "```")
       (RegExp.Cat (RegExp.Star RegExp.any) (RegExp.lit "```"))) s.

Definition stepPattern (s : string) : bool :=
  RegExp.test
    (RegExp.alts
       [ RegExp.Cat (RegExp.liti "step")
           (RegExp.Cat (RegExp.plus RegExp.space) (RegExp.plus RegExp.digit));
         RegExp.liti "first"; RegExp.liti "then"; RegExp.liti "next";
         RegExp.liti "finally" ]) s.

Definition examplePattern (s : string) : bool :=
  RegExp.test
    (RegExp.alts
       [ RegExp.liti "example"; RegExp.liti "e.g."; RegExp.liti "for instance" ]) s.

Definition notePattern (s : string) : bool :=
  RegExp.test
    (RegExp.alts
       [ RegExp.liti "note:"; RegExp.liti "important:"; RegExp.liti "remember:" ]) s.

Definition procedurePattern (s : string) : bool :=
  RegExp.test
    (RegExp.alts
       [ RegExp.liti "procedure"; RegExp.liti "process"; RegExp.liti "workflow";
         RegExp.liti "pipeline" ]) s.

Definition STRUCTURAL_PATTERNS : list (string * (string -> bool)) :=
  [ ("numberedList", numberedList);
    ("bulletList", bulletList);
    ("slashCommand", slashCommand);
    ("codeBlock", codeBlock);
    ("stepPattern", stepPattern);
    ("examplePattern", examplePattern);
    ("notePattern", notePattern);
    ("procedurePattern", procedurePattern) ].

(** One [KEYWORDS.forEach] of [analyzeRuleContent]: the keywords found, in
    the order of the list, and the density table updated for each. *)
Definition scanKeywords (lowerContent : string) (keywords : list string)
    (density : gmap string nat) : list string * gmap string nat :=
  fold_left
    (fun (acc : list string * gmap string nat) keyword =>
       if JS.includes lowerContent keyword
       then ((fst acc ++ [keyword])%list,
             <[keyword := JS.countMatches lowerContent keyword]> (snd acc))
       else acc)
    keywords ([], density).

Definition analyzeRuleContent (content : string) : ContentAnalysis.t :=
  let lowerContent := JS.toLowerCase content in
  let '(skillP, d1) := scanKeywords lowerContent SKILL_KEYWORDS ∅ in
  let '(subagentP, d2) := scanKeywords lowerContent SUBAGENT_KEYWORDS d1 in
  let '(commandP, d3) := scanKeywords lowerContent COMMAND_KEYWORDS d2 in
  let '(ruleP, d4) := scanKeywords lowerContent RULE_KEYWORDS d3 in
  let features :=
    map fst (List.filter (fun e => snd e content) STRUCTURAL_PATTERNS) in
  let commandP' :=
    if slashCommand content
    then (commandP ++ ["slash command syntax"])%list else commandP in
  ContentAnalysis.mk skillP subagentP commandP' ruleP features d4.


Local Open Scope Q_scope.

(** A hint found by [analyzeMetadata]: [typeHints.push(h)] followed by
    [confidence = Math.max(confidence, c)]. *)
Definition addHint (h : string) (c : Q) (acc : list string * Q) : list string * Q :=
  ((fst acc ++ [h])%list, Qmax (snd acc) c).

Definition analyzeMetadata (metadata : Metadata.t) : MetadataAnalysis.t :=
  if JS.truthy (Metadata.type metadata) then
    MetadataAnalysis.mk
      (Metadata.type metadata)
      ["metadata.type: " +:+ default JS.empty (Metadata.type metadata)]
      1
      []
  else
    let acc0 : list string * Q := ([], 0) in
    let acc1 :=
      if match Metadata.triggers metadata with
         | Some ts => JS.some (fun trigger => JS.startsWith trigger "/") ts
         | None => false
         end
      then addHint "slash trigger in metadata" 0.8 acc0 else acc0 in
    let acc2 :=
      if JS.isTrue (Metadata.manual metadata)
      then addHint "manual invocation flag" 0.6 acc1 else acc1 in
    let acc3 :=
      if JS.isTrue (Metadata.alwaysApply metadata)
      then addHint "always apply flag suggests rule" 0.7 acc2 else acc2 in
    let acc4 :=
      if match Metadata.expertise metadata with
         | Some e => (0 <? length e)%nat
         | None => false
         end
      then addHint "expertise field suggests skill" 0.8 acc3 else acc3 in
    let acc5 :=
      match Metadata.scope metadata with
      | Some sc =>
          if Metadata.scopeTruthy (Some sc)
             && JS.some (fun scope => JS.includes scope "command" || JS.includes scope "cli")
                  (Metadata.scopeList sc)
          then addHint "command-related scope" 0.6 acc4 else acc4
      | None => acc4
      end in
    let conflicting :=
      if JS.isTrue (Metadata.alwaysApply metadata) && JS.isTrue (Metadata.manual metadata)
      then ["conflicting alwaysApply and manual flags"] else [] in
    MetadataAnalysis.mk None (fst acc5) (snd acc5) conflicting.

(** [keywordDensity[pattern] || 1] *)
Definition densityOf (keywordDensity : gmap string nat) (pattern : string) : nat :=
  match keywordDensity !! pattern with
  | Some (S n) => S n
  | _ => 1
  end.

Definition calculateContentScore (patterns : list string)
    (keywordDensity : gmap string nat) : Q :=
  if (length patterns =? 0)%nat then 0
  else
    let score := Qmin (inject_Z (Z.of_nat (length patterns)) * 0.15) 0.7 in
    let totalDensity :=
      fold_left (fun sum pattern => (sum + densityOf keywordDensity pattern)%nat)
        patterns 0%nat in
    let densityBoost := Qmin (inject_Z (Z.of_nat totalDensity) * 0.05) 0.3 in
    Qmin (score + densityBoost) 1.

Definition hasFeature (ca : ContentAnalysis.t) (name : string) : bool :=
  JS.arrayIncludes (structuralFeatures ca) name.

Definition hasHint (ma : MetadataAnalysis.t) (word : string) : bool :=
  JS.some (fun hint => JS.includes hint word) (typeHints ma).

(** [calculateTypeScores] up to the comment "Normalize scores": the base
    scores and the boosts. *)
Definition rawTypeScores (ca : ContentAnalysis.t) (ma : MetadataAnalysis.t) : Scores.t :=
  let skill0 := calculateContentScore (skillPatterns ca) (keywordDensity ca) in
  let subagent0 := calculateContentScore (subagentPatterns ca) (keywordDensity ca) in
  let command0 := calculateContentScore (commandPatterns ca) (keywordDensity ca) in
  let rule0 := calculateContentScore (rulePatterns ca) (keywordDensity ca) in
  let command1 := if hasFeature ca "slashCommand" then command0 + 0.4 else command0 in
  let subagent1 :=
    if hasFeature ca "stepPattern" || hasFeature ca "procedurePattern"
    then subagent0 + 0.3 else subagent0 in
  let skill1 :=
    if hasFeature ca "examplePattern" || hasFeature ca "notePattern"
    then skill0 + 0.2 else skill0 in
  let subagent2 := if hasFeature ca "numberedList" then subagent1 + 0.2 else subagent1 in
  let metadataBoost := MetadataAnalysis.confidence ma * 0.3 in
  let skill2 := if hasHint ma "expertise" then skill1 + metadataBoost else skill1 in
  let command2 := if hasHint ma "trigger" then command1 + metadataBoost else command1 in
  let command3 :=
    if hasHint ma "manual" then command2 + metadataBoost * 0.5 else command2 in
  let rule1 := if hasHint ma "always apply" then rule0 + metadataBoost else rule0 in
  Scores.mk skill2 subagent2 command3 rule1.

(** The rest of [calculateTypeScores]: normalisation by the maximum and
    the floor of the rule score. *)
Definition normalizeScores (scores : Scores.t) : Scores.t :=
  let maxRawScore := Scores.maxValue scores in
  let scores' :=
    if negb (Qle_bool maxRawScore 0) then
      Scores.mk
        (Qmin (Scores.skill scores / maxRawScore) 1)
        (Qmin (Scores.subagent scores / maxRawScore) 1)
        (Qmin (Scores.command scores / maxRawScore) 1)
        (Qmin (Scores.rule scores / maxRawScore) 1)
    else scores in
  Scores.mk (Scores.skill scores') (Scores.subagent scores') (Scores.command scores')
    (Qmax (Scores.rule scores') 0.3).

Definition calculateTypeScores (ca : ContentAnalysis.t) (ma : MetadataAnalysis.t) : Scores.t :=
  normalizeScores (rawTypeScores ca ma).


Definition typeIs (detectedType : option string) (k : string) : bool :=
  match detectedType with
  | Some ty => String.eqb ty k
  | None => false
  end.

Definition gatherIndicators (detectedType : option string)
    (ca : ContentAnalysis.t) (ma : MetadataAnalysis.t) : list string :=
  let fromPatterns (label : string) (l : list string) :=
    map (fun p => label +:+ p) (JS.slice0 3 l) in
  let patterns :=
    if typeIs detectedType "skill" then fromPatterns "skill pattern: " (skillPatterns ca)
    else if typeIs detectedType "subagent" then
      fromPatterns "subagent pattern: " (subagentPatterns ca)
    else if typeIs detectedType "command" then
      fromPatterns "command pattern: " (commandPatterns ca)
    else if typeIs detectedType "rule" then fromPatterns "rule pattern: " (rulePatterns ca)
    else [] in
  let relevantStructural :=
    List.filter
      (fun feature =>
         if typeIs detectedType "command" then String.eqb feature "slashCommand"
         else if typeIs detectedType "subagent" then
           JS.arrayIncludes ["stepPattern"; "procedurePattern"; "numberedList"] feature
         else if typeIs detectedType "skill" then
           JS.arrayIncludes ["examplePattern"; "notePattern"] feature
         else false)
      (structuralFeatures ca) in
  JS.slice0 5
    (patterns ++ map (fun f => "structural: " +:+ f) relevantStructural
       ++ JS.slice0 2 (typeHints ma))%list.

Definition detectAbstractionType (rule : RuleBlock.t) : AbstractionTypeInfo.t :=
  let metadataAnalysis := analyzeMetadata (RuleBlock.metadata rule) in
  if JS.truthy (explicitType metadataAnalysis)
     && negb (Qle_bool (MetadataAnalysis.confidence metadataAnalysis) 0.9)
  then
    AbstractionTypeInfo.mk
      (explicitType metadataAnalysis)
      (MetadataAnalysis.confidence metadataAnalysis)
      (("explicit type: " +:+ default JS.empty (explicitType metadataAnalysis))
         :: typeHints metadataAnalysis)
  else
    let contentAnalysis := analyzeRuleContent (RuleBlock.content rule) in
    let scores := calculateTypeScores contentAnalysis metadataAnalysis in
    let maxScore := Scores.maxValue scores in
    let detectedType := Scores.findKey scores maxScore in
    let indicators := gatherIndicators detectedType contentAnalysis metadataAnalysis in
    let finalConfidence :=
      if typeIs detectedType "rule" then Qmax maxScore 0.5 else maxScore in
    AbstractionTypeInfo.mk detectedType finalConfidence indicators.

End TypeDetector.


(** ** [src/validators.ts]: results *)

Inductive Severity : Type := SevError | SevWarning | SevInfo.

(** [ValidationError] and [ValidationWarning] have the same shape.  The
    severity is optional because two object literals of the file omit it. *)
Module Issue.
Record t : Type := mk {
  code : string;
  message : string;
  field : option string;
  severity : option Severity
}.

Definition hasCode (c : string) (e : t) : Prop := code e = c.
End Issue.

Module Suggestion.
Record t : Type := mk {
  code : string;
  message : string;
  field : option string;
  actionable : bool
}.
End Suggestion.

Module ValidationResult.
Record t : Type := mk {
  valid : bool;
  errors : list Issue.t;
  warnings : list Issue.t;
  suggestions : list Suggestion.t
}.

(** The invariant of the data model: [valid == (errors.length == 0)]. *)
Definition coherent (r : t) : Prop :=
  valid r = (length (errors r) =? 0)%nat.

(** The number of errors of [r] that carry the code [c]. *)
Definition countCode (c : string) (r : t) : nat :=
  length (List.filter (fun e => String.eqb (Issue.code e) c) (errors r)).
End ValidationResult.

Module LIMITS.
Definition SKILL_DESCRIPTION_MAX : nat := 1024.
Definition SUBAGENT_NAME_MAX : nat := 64.
End LIMITS.

(** The object literal [VALIDATION_CODES] carries both sides of a merge; the
    keys of both sides are defined here.  Every code is its own name. *)
Module VALIDATION_CODES.
Definition SKILL_MISSING_EXPERTISE := "SKILL_MISSING_EXPERTISE".
Definition SKILL_EMPTY_EXPERTISE := "SKILL_EMPTY_EXPERTISE".
Definition SKILL_INVALID_PORTABILITY := "SKILL_INVALID_PORTABILITY".
Definition SKILL_ISOLATION_PATTERN := "SKILL_ISOLATION_PATTERN".
Definition SKILL_TRIGGER_PATTERN := "SKILL_TRIGGER_PATTERN".
Definition SKILL_MISSING_KNOWLEDGE := "SKILL_MISSING_KNOWLEDGE".
Definition SUBAGENT_MISSING_ISOLATION := "SUBAGENT_MISSING_ISOLATION".
Definition SUBAGENT_FALSE_ISOLATION := "SUBAGENT_FALSE_ISOLATION".
Definition SUBAGENT_INVALID_MODEL := "SUBAGENT_INVALID_MODEL".
Definition SUBAGENT_INVALID_TOOLS := "SUBAGENT_INVALID_TOOLS".
Definition SUBAGENT_RULE_CONFLICT := "SUBAGENT_RULE_CONFLICT".
Definition SUBAGENT_MISSING_PROCEDURAL := "SUBAGENT_MISSING_PROCEDURAL".
Definition SKILL_MISSING_NAME := "SKILL_MISSING_NAME".
Definition SKILL_MISSING_DESCRIPTION := "SKILL_MISSING_DESCRIPTION".
Definition SKILL_DESCRIPTION_TOO_LONG := "SKILL_DESCRIPTION_TOO_LONG".
Definition SUBAGENT_MISSING_NAME := "SUBAGENT_MISSING_NAME".
Definition SUBAGENT_MISSING_DESCRIPTION := "SUBAGENT_MISSING_DESCRIPTION".
Definition SUBAGENT_NAME_TOO_LONG := "SUBAGENT_NAME_TOO_LONG".
Definition COMMAND_MISSING_TRIGGER := "COMMAND_MISSING_TRIGGER".
Definition COMMAND_INVALID_TRIGGER := "COMMAND_INVALID_TRIGGER".
Definition COMMAND_MISSING_USER_INVOKED := "COMMAND_MISSING_USER_INVOKED".
Definition COMMAND_FALSE_USER_INVOKED := "COMMAND_FALSE_USER_INVOKED".
Definition COMMAND_INVALID_ARGUMENTS := "COMMAND_INVALID_ARGUMENTS".
Definition COMMAND_ALWAYS_APPLY_PATTERN := "COMMAND_ALWAYS_APPLY_PATTERN".
Definition COMMAND_MISSING_INSTRUCTIONS := "COMMAND_MISSING_INSTRUCTIONS".
Definition COMMAND_TRIGGER_CONFLICT := "COMMAND_TRIGGER_CONFLICT".
Definition RULE_INVALID_SCOPE := "RULE_INVALID_SCOPE".
Definition RULE_SCOPE_CONFLICT := "RULE_SCOPE_CONFLICT".
Definition RULE_MISSING_CONTENT := "RULE_MISSING_CONTENT".
Definition ABSTRACTION_TYPE_MISMATCH := "ABSTRACTION_TYPE_MISMATCH".
Definition CIRCULAR_DEPENDENCY := "CIRCULAR_DEPENDENCY".
Definition INVALID_DEPENDENCY := "INVALID_DEPENDENCY".
Definition MISSING_REQUIRED_FIELD := "MISSING_REQUIRED_FIELD".
Definition UNKNOWN_TYPE := "UNKNOWN_TYPE".
End VALIDATION_CODES.

(** ** [src/validators.ts]: the category validators *)

Module Validators.
Import VALIDATION_CODES.

Definition VALID_MODELS : list string :=
  ["claude-3-5-sonnet"; "claude-3-haiku"; "gpt-4"; "gpt-3.5-turbo"].

Definition VALID_PORTABILITY : list string := ["cross-tool"; "claude-only"].

Definition KNOWN_TOOLS : list string :=
  ["bash"; "python"; "node"; "git"; "docker"; "typescript"; "jest"; "webpack"; "eslint"].

Definition error (code message : string) (field : option string) : Issue.t :=
  Issue.mk code message field (Some SevError).

Definition warning (code message : string) (field : option string) : Issue.t :=
  Issue.mk code message field (Some SevWarning).

(** [cond ? [x] : []]: what an [if (cond) list.push(x)] adds to a list. *)
Definition pushIf {A} (cond : bool) (x : A) : list A := if cond then [x] else [].

(** The object literal returned by every validator. *)
Definition result (errors warnings : list Issue.t) (suggestions : list Suggestion.t)
    : ValidationResult.t :=
  ValidationResult.mk (length errors =? 0)%nat errors warnings suggestions.

Definition quoted (s : string) : string := JS.dquote +:+ s +:+ JS.dquote.

Definition validateSkill (metadata : Metadata.t) (content : string) : ValidationResult.t :=
  let errors1 :=
    match Metadata.expertise metadata with
    | None =>
        [error SKILL_MISSING_EXPERTISE "Skills must have an expertise field"
           (Some "expertise")]
    | Some e =>
        pushIf (length e =? 0)%nat
          (error SKILL_EMPTY_EXPERTISE "Skills must have at least one area of expertise"
             (Some "expertise"))
    end in
  let errors2 :=
    pushIf
      (JS.truthy (Metadata.portability metadata)
       && negb (JS.arrayIncludes VALID_PORTABILITY
                  (default JS.empty (Metadata.portability metadata))))
      (error SKILL_INVALID_PORTABILITY
         ("Invalid portability value. Must be one of: " +:+ JS.join ", " VALID_PORTABILITY)
         (Some "portability")) in
  let lowerContent := JS.toLowerCase content in
  let knowledgePatterns :=
    [ "how to"; "best practice"; "pattern:"; "example:"; "technique";
      "approach"; "method"; "strategy"; "remember"; "consider";
      "tip:"; "guideline"; "recommendation" ] in
  let hasKnowledgePattern := JS.some (JS.includes lowerContent) knowledgePatterns in
  let warnings :=
    pushIf (negb hasKnowledgePattern)
      (warning SKILL_MISSING_KNOWLEDGE
         ("Skills should contain knowledge or guidance patterns (e.g., "
            +:+ quoted "how to" +:+ ", " +:+ quoted "best practice" +:+ ", "
            +:+ quoted "example" +:+ ")")
         None) in
  let isolationPatterns :=
    [ "delegate to"; "hand off"; "separate context"; "independent";
      "isolated"; "spawn"; "subprocess" ] in
  let hasIsolationPattern := JS.some (JS.includes lowerContent) isolationPatterns in
  let errors3 :=
    pushIf hasIsolationPattern
      (error SKILL_ISOLATION_PATTERN
         "Skills should not use isolation or delegation patterns. Consider using a SubAgent instead."
         None) in
  let hasTriggerPattern :=
    JS.includes lowerContent "when user types"
    || RegExp.test (RegExp.Cat (RegExp.lit "/") (RegExp.Chr JS.isLower)) lowerContent
    || JS.includes lowerContent "trigger:"
    || JS.includes lowerContent "command:" in
  let errors4 :=
    pushIf hasTriggerPattern
      (error SKILL_TRIGGER_PATTERN
         "Skills should not define triggers or commands. Consider using a Command instead."
         None) in
  let suggestions1 :=
    pushIf
      (match Metadata.expertise metadata with
       | Some e => (length e =? 1)%nat
       | None => false
       end)
      (Suggestion.mk "SKILL_CATEGORIZE_EXPERTISE"
         "Consider categorizing expertise into more specific areas for better discoverability"
         (Some "expertise") true) in
  let suggestions2 :=
    pushIf
      (match Metadata.examples metadata with
       | Some e => (length e =? 0)%nat
       | None => true
       end)
      (Suggestion.mk "SKILL_ADD_EXAMPLES"
         "Consider adding usage examples to help users understand when to apply this skill"
         (Some "examples") true) in
  let suggestions3 :=
    pushIf (negb (JS.truthy (Metadata.portability metadata)))
      (Suggestion.mk "SKILL_SPECIFY_PORTABILITY"
         "Consider specifying portability to clarify tool compatibility"
         (Some "portability") true) in
  result (errors1 ++ errors2 ++ errors3 ++ errors4)%list warnings
    (suggestions1 ++ suggestions2 ++ suggestions3)%list.

(** The objects that the identifiers [skill] and [subagent] would denote
    if a scope declared them; the file reads these properties of them. *)
Record SkillRef : Type := { skill_description : string }.
Record SubagentRef : Type := { subagent_name : string }.

(** The scope of [validators.ts] declares neither identifier. *)
Definition skill : JS.Result SkillRef := JS.unbound "skill".
Definition subagent : JS.Result SubagentRef := JS.unbound "subagent".


Definition validateSubAgent (metadata : Metadata.t) (content : string)
    : JS.Result ValidationResult.t :=
  let errors1 :=
    match Metadata.isolatedContext metadata with
    | None =>
        [error SUBAGENT_MISSING_ISOLATION "SubAgents must have isolatedContext field"
           (Some "isolatedContext")]
    | Some b =>
        pushIf (negb b)
          (error SUBAGENT_FALSE_ISOLATION "SubAgents must have isolatedContext set to true"
             (Some "isolatedContext"))
    end in
  let errors2 :=
    pushIf
      (JS.truthy (Metadata.model metadata)
       && negb (JS.arrayIncludes VALID_MODELS (default JS.empty (Metadata.model metadata))))
      (error SUBAGENT_INVALID_MODEL
         ("Invalid model. Must be one of: " +:+ JS.join ", " VALID_MODELS)
         (Some "model")) in
  let warnings1 :=
    match Metadata.tools metadata with
    | Some tools =>
        let invalidTools :=
          List.filter (fun tool => negb (JS.arrayIncludes KNOWN_TOOLS tool)) tools in
        pushIf (0 <? length invalidTools)%nat
          (warning SUBAGENT_INVALID_TOOLS
             ("Unknown tools: " +:+ JS.join ", " invalidTools
                +:+ ". Verify these are valid tool names.")
             (Some "tools"))
    | None => []
    end in
  let lowerContent := JS.toLowerCase content in
  let proceduralPatterns :=
    [ "step 1:"; "step 2:"; "first"; "then"; "next"; "finally";
      "procedure"; "workflow"; "process"; "pipeline"; "delegate";
      "hand off"; "sub-task"; "subtask" ] in
  let hasProceduralPattern := JS.some (JS.includes lowerContent) proceduralPatterns in
  let warnings2 :=
    pushIf (negb hasProceduralPattern)
      (warning SUBAGENT_MISSING_PROCEDURAL
         "SubAgents should contain procedural or task-oriented patterns" None) in
  let errors3 :=
    pushIf (JS.isTrue (Metadata.alwaysApply metadata))
      (error SUBAGENT_RULE_CONFLICT
         "SubAgents should not use alwaysApply flag. This conflicts with isolated context."
         (Some "alwaysApply")) in
  let suggestions1 :=
    if negb (JS.truthy (Metadata.model metadata)) then
      [Suggestion.mk "SUBAGENT_SPECIFY_MODEL"
         "Consider specifying a model for better performance optimization"
         (Some "model") true]
    else
      pushIf (String.eqb (default JS.empty (Metadata.model metadata)) "claude-3-haiku")
        (Suggestion.mk "SUBAGENT_HAIKU_USAGE"
           "Consider using Haiku for simple, fast tasks and Sonnet for complex reasoning"
           (Some "model") false) in
  let suggestions2 :=
    pushIf (negb (JS.truthy (Metadata.systemPrompt metadata)))
      (Suggestion.mk "SUBAGENT_ADD_SYSTEM_PROMPT"
         "Consider adding a system prompt to better define the subagent's role"
         (Some "systemPrompt") true) in
  last ←
    (if match Metadata.tools metadata with
        | Some tools => (5 <? length tools)%nat
        | None => false
        end
     then
       mret ([Suggestion.mk "SUBAGENT_TOO_MANY_TOOLS"
                "Consider reducing tool scope for better focus and performance"
                (Some "tools") true],
             [])
     else
       sk ← skill;
       mret ([],
             pushIf (LIMITS.SKILL_DESCRIPTION_MAX <? String.length (skill_description sk))%nat
               (Issue.mk SKILL_DESCRIPTION_TOO_LONG
                  ("Skill description must be at most "
                     +:+ pretty LIMITS.SKILL_DESCRIPTION_MAX +:+ " characters (got "
                     +:+ pretty (String.length (skill_description sk)) +:+ ")")
                  (Some "description") None)));
  mret (result (errors1 ++ errors2 ++ errors3 ++ snd last)%list
          (warnings1 ++ warnings2)%list
          (suggestions1 ++ suggestions2 ++ fst last)%list).

(** The three checks of one element of [metadata.arguments]. *)
Definition argumentErrors (index : nat) (arg : Argument.t) : list Issue.t :=
  let validArgTypes := ["string"; "number"; "boolean"; "file"] in
  (pushIf (String.eqb (Argument.name arg) EmptyString)
     (error COMMAND_INVALID_ARGUMENTS
        ("Argument at index " +:+ pretty index +:+ " must have a name")
        (Some ("arguments." +:+ pretty index +:+ ".name")))
   ++ pushIf (negb (JS.arrayIncludes validArgTypes (Argument.type arg)))
        (error COMMAND_INVALID_ARGUMENTS
           ("Invalid argument type " +:+ quoted (Argument.type arg)
              +:+ ". Must be one of: " +:+ JS.join ", " validArgTypes)
           (Some ("arguments." +:+ pretty index +:+ ".type")))
   ++ pushIf (match Argument.required arg with None => true | Some _ => false end)
        (error COMMAND_INVALID_ARGUMENTS "Argument required field must be boolean"
           (Some ("arguments." +:+ pretty index +:+ ".required"))))%list.

(** [metadata.arguments.forEach((arg, index) => ...)] from [index] on. *)
Fixpoint argumentsErrors (index : nat) (args : list Argument.t) : list Issue.t :=
  match args with
  | [] => []
  | arg :: rest => (argumentErrors index arg ++ argumentsErrors (S index) rest)%list
  end.


(** [/^\/[a-zA-Z][a-zA-Z0-9_-]*$/] *)
Definition triggerRegex (s : string) : bool :=
  RegExp.matchesWhole
    (RegExp.Cat (RegExp.lit "/") (RegExp.Cat RegExp.alpha (RegExp.Star RegExp.wordDash))) s.

Definition validateCommand (metadata : Metadata.t) (content : string)
    : JS.Result ValidationResult.t :=
  let trigger := default JS.empty (Metadata.trigger metadata) in
  errors1 ←
    (if negb (JS.truthy (Metadata.trigger metadata)) then
       mret [error COMMAND_MISSING_TRIGGER "Commands must have a trigger field"
               (Some "trigger")]
     else if negb (JS.startsWith trigger "/") then
       mret [error COMMAND_INVALID_TRIGGER
               ("Command triggers must start with " +:+ quoted "/") (Some "trigger")]
     else
       sa ← subagent;
       mret (pushIf (LIMITS.SUBAGENT_NAME_MAX <? String.length (subagent_name sa))%nat
               (Issue.mk SUBAGENT_NAME_TOO_LONG
                  ("SubAgent name must be at most " +:+ pretty LIMITS.SUBAGENT_NAME_MAX
                     +:+ " characters (got "
                     +:+ pretty (String.length (subagent_name sa)) +:+ ")")
                  (Some "name") None)));
  let errors2 :=
    match Metadata.userInvoked metadata with
    | None =>
        [error COMMAND_MISSING_USER_INVOKED "Commands must have userInvoked field"
           (Some "userInvoked")]
    | Some b =>
        pushIf (negb b)
          (error COMMAND_FALSE_USER_INVOKED "Commands must have userInvoked set to true"
             (Some "userInvoked"))
    end in
  let errors3 :=
    pushIf (JS.truthy (Metadata.trigger metadata) && negb (triggerRegex trigger))
      (error COMMAND_INVALID_TRIGGER
         "Command trigger must be a valid slash command (e.g., /build, /test)"
         (Some "trigger")) in
  let errors4 :=
    match Metadata.arguments metadata with
    | Some args => argumentsErrors 0 args
    | None => []
    end in
  let lowerContent := JS.toLowerCase content in
  let instructionPatterns :=
    [ "run"; "execute"; "trigger"; "invoke"; "call";
      "usage:"; "syntax:"; "when user types"; "command" ] in
  let hasInstructionPattern := JS.some (JS.includes lowerContent) instructionPatterns in
  let warnings :=
    pushIf (negb hasInstructionPattern)
      (warning COMMAND_MISSING_INSTRUCTIONS
         "Commands should contain executable instructions or usage guidance" None) in
  let alwaysPatterns := ["always apply"; "every time"; "consistently"; "baseline"; "global"] in
  let hasAlwaysPattern := JS.some (JS.includes lowerContent) alwaysPatterns in
  let errors5 :=
    pushIf (hasAlwaysPattern || JS.isTrue (Metadata.alwaysApply metadata))
      (error COMMAND_ALWAYS_APPLY_PATTERN
         "Commands should not use always-apply patterns. They are user-invoked only."
         None) in
  let suggestions1 :=
    pushIf
      (match Metadata.arguments metadata with
       | Some args => (length args =? 0)%nat
       | None => true
       end)
      (Suggestion.mk "COMMAND_ADD_ARGUMENTS"
         "Consider defining arguments structure for better usability"
         (Some "arguments") true) in
  let suggestions2 :=
    pushIf (negb (JS.includes content "usage:") && negb (JS.includes content "example:"))
      (Suggestion.mk "COMMAND_ADD_USAGE_EXAMPLE"
         "Consider adding usage examples to help users understand how to invoke the command"
         None true) in
  let suggestions3 :=
    pushIf
      (match Metadata.arguments metadata with
       | Some args =>
           JS.some (fun arg => match Argument.required arg with
                               | Some false => true
                               | _ => false
                               end) args
       | None => false
       end
       && negb (JS.includes content "optional"))
      (Suggestion.mk "COMMAND_DOCUMENT_OPTIONAL_ARGS"
         "Consider documenting optional arguments in the command description"
         None true) in
  mret (result (errors1 ++ errors2 ++ errors3 ++ errors4 ++ errors5)%list warnings
          (suggestions1 ++ suggestions2 ++ suggestions3)%list).

Definition validateRule (metadata : Metadata.t) (content : string) : ValidationResult.t :=
  let errors1 :=
    match Metadata.scope metadata with
    | Some sc =>
        if Metadata.scopeTruthy (Some sc) then
          let invalidScopes := List.filter JS.trimIsEmpty (Metadata.scopeList sc) in
          pushIf (0 <? length invalidScopes)%nat
            (error RULE_INVALID_SCOPE "Rule scopes must be non-empty strings" (Some "scope"))
        else []
    | None => []
    end in
  let errors2 :=
    pushIf (String.eqb content EmptyString || JS.trimIsEmpty content)
      (error RULE_MISSING_CONTENT "Rules must have content" None) in
  let lowerContent := JS.toLowerCase content in
  let rulePatterns :=
    [ "always"; "never"; "should"; "must"; "avoid"; "ensure";
      "you are"; "your role is"; "behave as"; "act as";
      "consistently"; "require"; "policy"; "guideline" ] in
  let hasRulePattern := JS.some (JS.includes lowerContent) rulePatterns in
  let suggestions1 :=
    pushIf (negb hasRulePattern)
      (Suggestion.mk "RULE_ADD_GUIDELINES"
         "Consider adding clear guidelines or constraints for better rule effectiveness"
         None true) in
  let suggestions2 :=
    pushIf (negb (JS.truthy (Metadata.priority metadata)))
      (Suggestion.mk "RULE_ADD_PRIORITY"
         "Consider adding priority level for better rule ordering"
         (Some "priority") true) in
  let suggestions3 :=
    pushIf (negb (JS.truthy (Metadata.description metadata)))
      (Suggestion.mk "RULE_ADD_DESCRIPTION"
         "Consider adding description for better documentation"
         (Some "description") true) in
  let suggestions4 :=
    pushIf (match Metadata.alwaysApply metadata with None => true | Some _ => false end)
      (Suggestion.mk "RULE_SPECIFY_ALWAYS_APPLY"
         "Consider explicitly setting alwaysApply to clarify rule application"
         (Some "alwaysApply") true) in
  result (errors1 ++ errors2)%list []
    (suggestions1 ++ suggestions2 ++ suggestions3 ++ suggestions4)%list.


(** ** The dispatcher *)

(** How a template literal prints a type that may be [undefined]. *)
Definition showType (ty : option string) : string := default "undefined" ty.

(** [a !== b] on two optional strings. *)
Definition differ (a b : option string) : bool :=
  match a, b with
  | Some x, Some y => negb (String.eqb x y)
  | None, None => false
  | _, _ => true
  end.

Definition missingField (message : string) : ValidationResult.t :=
  ValidationResult.mk false [error MISSING_REQUIRED_FIELD message None] [] [].

Definition routeToSpecificValidator (type : option string) (metadata : Metadata.t)
    (content : string) : JS.Result ValidationResult.t :=
  if TypeDetector.typeIs type "skill" then mret (validateSkill metadata content)
  else if TypeDetector.typeIs type "subagent" then validateSubAgent metadata content
  else if TypeDetector.typeIs type "command" then validateCommand metadata content
  else if TypeDetector.typeIs type "rule" then mret (validateRule metadata content)
  else
    mret (ValidationResult.mk false
            [error UNKNOWN_TYPE ("Unknown abstraction type: " +:+ showType type)
               (Some "type")]
            [] []).

(** [result.warnings.push(w)] *)
Definition pushWarning (r : ValidationResult.t) (w : Issue.t) : ValidationResult.t :=
  ValidationResult.mk (ValidationResult.valid r) (ValidationResult.errors r)
    (ValidationResult.warnings r ++ [w])%list (ValidationResult.suggestions r).

Definition mismatchWarning (inferred declared : option string) : Issue.t :=
  warning ABSTRACTION_TYPE_MISMATCH
    ("Content suggests " +:+ quoted (showType inferred) +:+ " but metadata specifies "
       +:+ quoted (showType declared) +:+ ". Consider reviewing the type or content.")
    (Some "type").

Definition validateAnyAbstraction (metadata : JS.nullable Metadata.t)
    (content : JS.nullable string) : JS.Result ValidationResult.t :=
  match metadata with
  | JS.Undefined | JS.Null => mret (missingField "Metadata is required for validation")
  | JS.Value metadata =>
      match content with
      | JS.Undefined | JS.Null => mret (missingField "Content is required for validation")
      | JS.Value content =>
          let detectedType :=
            if JS.truthy (Metadata.type metadata) then Metadata.type metadata
            else
              AbstractionTypeInfo.type
                (TypeDetector.detectAbstractionType (RuleBlock.mk metadata content)) in
          result ← routeToSpecificValidator detectedType metadata content;
          if JS.truthy (Metadata.type metadata) then
            let metadataWithoutType := Metadata.withoutType metadata in
            let typeInfo :=
              TypeDetector.detectAbstractionType
                (RuleBlock.mk metadataWithoutType content) in
            if differ (AbstractionTypeInfo.type typeInfo) (Metadata.type metadata)
               && negb (Qle_bool (AbstractionTypeInfo.confidence typeInfo) 0.7)
            then
              mret (pushWarning result
                      (mismatchWarning (AbstractionTypeInfo.type typeInfo)
                         (Metadata.type metadata)))
            else mret result
          else mret result
      end
  end.

(** [combineValidationResults]: the fold of [results.forEach]. *)
Definition combineStep (combined result : ValidationResult.t) : ValidationResult.t :=
  ValidationResult.mk
    (if negb (ValidationResult.valid result) then false
     else ValidationResult.valid combined)
    (ValidationResult.errors combined ++ ValidationResult.errors result)%list
    (ValidationResult.warnings combined ++ ValidationResult.warnings result)%list
    (ValidationResult.suggestions combined ++ ValidationResult.suggestions result)%list.

Definition combineValidationResults (results : list ValidationResult.t)
    : ValidationResult.t :=
  fold_left combineStep results (ValidationResult.mk true [] [] []).

End Validators.


(** ** [validateAbstractionGroup]

    A JavaScript [Map] that is iterated is an association list in insertion
    order: [set] on a present key replaces the value where it stands.  A
    [Map] or [Set] that is only queried is a [gmap] or [gset]. *)

Module OrderedMap.

Definition t (V : Type) : Type := list (string * V).

Fixpoint get {V} (k : string) (m : t V) : option V :=
  match m with
  | [] => None
  | (k', v) :: rest => if String.eqb k' k then Some v else get k rest
  end.

Fixpoint set {V} (k : string) (v : V) (m : t V) : t V :=
  match m with
  | [] => [(k, v)]
  | (k', v') :: rest =>
      if String.eqb k' k then (k, v) :: rest else (k', v') :: set k v rest
  end.

Definition keys {V} (m : t V) : list string := map fst m.

End OrderedMap.

Module Group.
Import VALIDATION_CODES.

(** What the first [forEach] builds. *)
Record Index : Type := mkIndex {
  dependencyGraph : OrderedMap.t (list string);
  commandTriggers : gmap string string;
  triggerErrors : list Issue.t
}.

Definition indexStep (ix : Index) (abstraction : RuleBlock.t) : Index :=
  let metadata := RuleBlock.metadata abstraction in
  let graph :=
    match Metadata.dependencies metadata with
    | Some deps => OrderedMap.set (Metadata.id metadata) deps (dependencyGraph ix)
    | None => dependencyGraph ix
    end in
  if TypeDetector.typeIs (Metadata.type metadata) "command"
     && JS.truthy (Metadata.trigger metadata)
  then
    let trigger := default JS.empty (Metadata.trigger metadata) in
    let existingId := commandTriggers ix !! trigger in
    if JS.truthy existingId then
      mkIndex graph (commandTriggers ix)
        (triggerErrors ix ++
           [Validators.error COMMAND_TRIGGER_CONFLICT
              ("Trigger " +:+ Validators.quoted trigger +:+ " conflicts with command "
                 +:+ Validators.quoted (default JS.empty existingId))
              (Some "trigger")])%list
    else
      mkIndex graph (<[trigger := Metadata.id metadata]> (commandTriggers ix))
        (triggerErrors ix)
  else mkIndex graph (commandTriggers ix) (triggerErrors ix).

Definition buildIndex (abstractions : list RuleBlock.t) : Index :=
  fold_left indexStep abstractions (mkIndex [] ∅ []).

(** The two sets that [hasCircularDependency] closes over. *)
Record Dfs : Type := mkDfs {
  visited : gset string;
  recursionStack : gset string
}.

(** [for (const depId of dependencies) if (hasCircularDependency(depId))
    return true], then [recursionStack.delete(nodeId); return false].
    [visit] is the recursive call. *)
Definition visitDependencies (visit : string -> Dfs -> option (bool * Dfs))
    (nodeId : string) : list string -> Dfs -> option (bool * Dfs) :=
  fix loop (dependencies : list string) (st : Dfs) : option (bool * Dfs) :=
    match dependencies with
    | [] => Some (false, mkDfs (visited st) (recursionStack st ∖ {[nodeId]}))
    | depId :: rest =>
        match visit depId st with
        | None => None
        | Some (true, st') => Some (true, st')
        | Some (false, st') => loop rest st'
        end
    end.

(** [hasCircularDependency(nodeId)].  The recursion of the source is on
    the call stack; here it is on [fuel], and [None] means that the fuel
    ran out. *)
Fixpoint hasCircularDependency (fuel : nat) (graph : OrderedMap.t (list string))
    (nodeId : string) (st : Dfs) : option (bool * Dfs) :=
  match fuel with
  | O => None
  | S fuel' =>
      if decide (nodeId ∈ recursionStack st) then Some (true, st)
      else if decide (nodeId ∈ visited st) then Some (false, st)
      else
        let st1 := mkDfs ({[nodeId]} ∪ visited st) ({[nodeId]} ∪ recursionStack st) in
        let dependencies := default [] (OrderedMap.get nodeId graph) in
        visitDependencies (hasCircularDependency fuel' graph) nodeId dependencies st1
  end.

(** [for (const [nodeId] of dependencyGraph)]: the node at which the first
    cycle is found, if any. *)
Fixpoint findCycle (fuel : nat) (graph : OrderedMap.t (list string))
    (nodes : list string) (st : Dfs) : option (option string) :=
  match nodes with
  | [] => Some None
  | nodeId :: rest =>
      match hasCircularDependency fuel graph nodeId st with
      | None => None
      | Some (true, _) => Some (Some nodeId)
      | Some (false, st') => findCycle fuel graph rest st'
      end
  end.

(** Every identifier that the traversal can meet. *)
Definition nodesOf (graph : OrderedMap.t (list string)) : list string :=
  (OrderedMap.keys graph ++ concat (map snd graph))%list.

(** The same identifiers, as a set. *)
Definition universe (graph : OrderedMap.t (list string)) : gset string :=
  list_to_set (nodesOf graph).

(** What a call of the traversal guarantees: it answers, and it only adds
    identifiers of the graph to [visited]. *)
Definition answers (graph : OrderedMap.t (list string))
    (r : option (bool * Dfs)) (st : Dfs) : Prop :=
  exists b st', r = Some (b, st')
                /\ visited st ⊆ visited st'
                /\ visited st' ⊆ universe graph.

(** A nesting depth that the traversal cannot exceed. *)
Definition enoughFuel (graph : OrderedMap.t (list string)) : nat :=
  S (length (nodesOf graph)).

Definition cycleErrors (graph : OrderedMap.t (list string)) : option (list Issue.t) :=
  match findCycle (enoughFuel graph) graph (OrderedMap.keys graph) (mkDfs ∅ ∅) with
  | None => None
  | Some None => Some []
  | Some (Some nodeId) =>
      Some [Validators.error CIRCULAR_DEPENDENCY
              ("Circular dependency detected involving " +:+ Validators.quoted nodeId)
              (Some "dependencies")]
  end.


(** The loop "Validate dependency references". *)
Definition dependencyErrors (allIds : gset string)
    (graph : OrderedMap.t (list string)) : list Issue.t :=
  flat_map
    (fun entry : string * list string =>
       let invalidDeps :=
         List.filter (fun depId => negb (bool_decide (depId ∈ allIds))) (snd entry) in
       Validators.pushIf (0 <? length invalidDeps)%nat
         (Validators.error INVALID_DEPENDENCY
            ("Invalid dependencies in " +:+ Validators.quoted (fst entry) +:+ ": "
               +:+ JS.join ", " invalidDeps)
            (Some "dependencies")))
    graph.

(** The scopes that one always-applied rule claims. *)
Definition scopesOf (metadata : Metadata.t) : list string :=
  match Metadata.scope metadata with
  | Some sc => if Metadata.scopeTruthy (Some sc) then Metadata.scopeList sc else ["global"]
  | None => ["global"]
  end.

(** [if (!m.has(scope)) m.set(scope, []); m.get(scope).push(id)] *)
Definition claim (id : string) (m : OrderedMap.t (list string)) (scope : string)
    : OrderedMap.t (list string) :=
  OrderedMap.set scope (default [] (OrderedMap.get scope m) ++ [id])%list m.

Definition scopeWarnings (abstractions : list RuleBlock.t) : list Issue.t :=
  let alwaysApplyRules :=
    List.filter
      (fun a =>
         JS.isTrue (Metadata.alwaysApply (RuleBlock.metadata a))
         && TypeDetector.typeIs (Metadata.type (RuleBlock.metadata a)) "rule")
      abstractions in
  if (1 <? length alwaysApplyRules)%nat then
    let overlappingScopes :=
      fold_left
        (fun m rule =>
           fold_left (claim (Metadata.id (RuleBlock.metadata rule))) 
             (scopesOf (RuleBlock.metadata rule)) m)
        alwaysApplyRules ([] : OrderedMap.t (list string)) in
    flat_map
      (fun entry : string * list string =>
         Validators.pushIf (1 <? length (snd entry))%nat
           (Validators.warning RULE_SCOPE_CONFLICT
              ("Multiple always-apply rules in scope " +:+ Validators.quoted (fst entry)
                 +:+ ": " +:+ JS.join ", " (snd entry) +:+ ". Consider setting priorities.")
              (Some "scope")))
      overlappingScopes
  else [].

(** [None] only if the traversal ran out of fuel, which
    [validateAbstractionGroup_returns] excludes. *)
Definition validateAbstractionGroup (abstractions : list RuleBlock.t)
    : option ValidationResult.t :=
  let ix := buildIndex abstractions in
  match cycleErrors (dependencyGraph ix) with
  | None => None
  | Some cycle =>
      let allIds : gset string :=
        list_to_set (map (fun a => Metadata.id (RuleBlock.metadata a)) abstractions) in
      Some (Validators.result
              (triggerErrors ix ++ cycle ++ dependencyErrors allIds (dependencyGraph ix))%list
              (scopeWarnings abstractions)
              [])
  end.

End Group.


(** ** The caller's objects

    The functions above take their arguments by value.  In the program the
    metadata, the documents and the batch are objects that the caller owns
    and passes by reference, and the result of a category validator is an
    object that the dispatcher updates in place.  This module places those
    objects in a store and restates the operations over references: a read
    of an argument is a [load], an object literal or a copy is an [alloc],
    and [result.warnings.push] is a [store] at the reference of the result.
    Arrays and tables that a function creates and keeps to itself stay
    values. *)

Module Store.

Definition ref : Type := positive.

Inductive object : Type :=
| Meta (m : Metadata.t)
| Block (metadata : ref) (content : string)
| Batch (items : list ref)
| Res (r : ValidationResult.t).

Abbreviation t := (gmap ref object).

(** A computation over the store that may throw. *)
Definition M (A : Type) : Type := t -> JS.Result A * t.

Definition ret {A} (a : A) : M A := fun h => (JS.Ok a, h).

Definition bind {A B} (m : M A) (k : A -> M B) : M B :=
  fun h =>
    match m h with
    | (JS.Ok a, h') => k a h'
    | (JS.Throw e, h') => (JS.Throw e, h')
    end.

Definition throw {A} (e : JS.Error) : M A := fun h => (JS.Throw e, h).

Definition lift {A} (r : JS.Result A) : M A := fun h => (r, h).

(** A new object, at a reference that the store does not use yet. *)
Definition alloc (o : object) : M ref :=
  fun h => let l := fresh (dom h) in (JS.Ok l, <[l := o]> h).

Definition load (l : ref) : M object :=
  fun h =>
    match h !! l with
    | Some o => (JS.Ok o, h)
    | None => (JS.Throw (JS.TypeError "undefined"), h)
    end.

Definition store (l : ref) (o : object) : M unit :=
  fun h => (JS.Ok tt, <[l := o]> h).

(** [keeps h0 m post]: started in any store that extends [h0], the
    computation [m] ends (returning or throwing) in a store that still
    extends [h0], and a value that it returns satisfies [post]. *)
Definition keeps (h0 : t) {A} (m : M A) (post : A -> Prop) : Prop :=
  forall h, h0 ⊆ h -> h0 ⊆ snd (m h) /\ (forall a, fst (m h) = JS.Ok a -> post a).

(** A reference that [h0] does not use. *)
Definition unused (h0 : t) (l : ref) : Prop := h0 !! l = None.

End Store.

#[global] Instance Store_bind : MBind Store.M := fun A B k m => Store.bind m k.
#[global] Instance Store_ret : MRet Store.M := @Store.ret.

Module StoreOps.
Import Store.

Definition loadMeta (l : ref) : M Metadata.t :=
  o ← load l;
  match o with
  | Meta m => mret m
  | _ => throw (JS.TypeError "metadata")
  end.

Definition loadBlock (l : ref) : M (ref * string) :=
  o ← load l;
  match o with
  | Block m c => mret (m, c)
  | _ => throw (JS.TypeError "document")
  end.

Definition loadBatch (l : ref) : M (list ref) :=
  o ← load l;
  match o with
  | Batch items => mret items
  | _ => throw (JS.TypeError "batch")
  end.

Definition loadRes (l : ref) : M ValidationResult.t :=
  o ← load l;
  match o with
  | Res r => mret r
  | _ => throw (JS.TypeError "result")
  end.

(** The document behind a reference: [rule.metadata] and [rule.content]. *)
Definition loadRule (rule : ref) : M RuleBlock.t :=
  mc ← loadBlock rule;
  m ← loadMeta (fst mc);
  mret (RuleBlock.mk m (snd mc)).

Fixpoint loadRules (items : list ref) : M (list RuleBlock.t) :=
  match items with
  | [] => mret []
  | l :: rest =>
      b ← loadRule l;
      bs ← loadRules rest;
      mret (b :: bs)
  end.

Definition analyzeMetadata (metadata : ref) : M MetadataAnalysis.t :=
  m ← loadMeta metadata;
  mret (TypeDetector.analyzeMetadata m).

Definition analyzeRuleContent (content : string) : M ContentAnalysis.t :=
  mret (TypeDetector.analyzeRuleContent content).

Definition detectAbstractionType (rule : ref) : M AbstractionTypeInfo.t :=
  b ← loadRule rule;
  mret (TypeDetector.detectAbstractionType b).

Definition validateSkill (metadata : ref) (content : string) : M ref :=
  m ← loadMeta metadata;
  alloc (Res (Validators.validateSkill m content)).

Definition validateSubAgent (metadata : ref) (content : string) : M ref :=
  m ← loadMeta metadata;
  r ← lift (Validators.validateSubAgent m content);
  alloc (Res r).

Definition validateCommand (metadata : ref) (content : string) : M ref :=
  m ← loadMeta metadata;
  r ← lift (Validators.validateCommand m content);
  alloc (Res r).

Definition validateRule (metadata : ref) (content : string) : M ref :=
  m ← loadMeta metadata;
  alloc (Res (Validators.validateRule m content)).


Definition routeToSpecificValidator (type : option string) (metadata : ref)
    (content : string) : M ref :=
  if TypeDetector.typeIs type "skill" then validateSkill metadata content
  else if TypeDetector.typeIs type "subagent" then validateSubAgent metadata content
  else if TypeDetector.typeIs type "command" then validateCommand metadata content
  else if TypeDetector.typeIs type "rule" then validateRule metadata content
  else
    alloc (Res (ValidationResult.mk false
                  [Validators.error VALIDATION_CODES.UNKNOWN_TYPE
                     ("Unknown abstraction type: " +:+ Validators.showType type)
                     (Some "type")]
                  [] [])).

Definition validateAnyAbstraction (metadata : JS.nullable ref)
    (content : JS.nullable string) : M ref :=
  match metadata with
  | JS.Undefined | JS.Null =>
      alloc (Res (Validators.missingField "Metadata is required for validation"))
  | JS.Value metadata =>
      match content with
      | JS.Undefined | JS.Null =>
          alloc (Res (Validators.missingField "Content is required for validation"))
      | JS.Value content =>
          m ← loadMeta metadata;
          detectedType ←
            (if JS.truthy (Metadata.type m) then mret (Metadata.type m)
             else
               ruleBlock ← alloc (Block metadata content);
               typeInfo ← detectAbstractionType ruleBlock;
               mret (AbstractionTypeInfo.type typeInfo));
          result ← routeToSpecificValidator detectedType metadata content;
          if JS.truthy (Metadata.type m) then
            metadataWithoutType ← alloc (Meta (Metadata.withoutType m));
            ruleBlock ← alloc (Block metadataWithoutType content);
            typeInfo ← detectAbstractionType ruleBlock;
            if Validators.differ (AbstractionTypeInfo.type typeInfo) (Metadata.type m)
               && negb (Qle_bool (AbstractionTypeInfo.confidence typeInfo) 0.7)
            then
              r ← loadRes result;
              _ ← store result
                    (Res (Validators.pushWarning r
                            (Validators.mismatchWarning (AbstractionTypeInfo.type typeInfo)
                               (Metadata.type m))));
              mret result
            else mret result
          else mret result
      end
  end.

(** The branch [None] is not reached: the group validator over values
    returns for every batch. *)
Definition validateAbstractionGroup (abstractions : ref) : M ref :=
  items ← loadBatch abstractions;
  blocks ← loadRules items;
  match Group.validateAbstractionGroup blocks with
  | Some r => alloc (Res r)
  | None => throw (JS.TypeError "fuel")
  end.

(** [holds h l b]: in the store [h] the reference [l] is a document whose
    metadata and content are those of [b]. *)
Definition holds (h : Store.t) (l : ref) (b : RuleBlock.t) : Prop :=
  exists ml, h !! l = Some (Block ml (RuleBlock.content b))
             /\ h !! ml = Some (Meta (RuleBlock.metadata b)).

(** [yields r h' v]: the outcome of the value-level function, [v], is what
    the store-level function did: it threw the same exception, or it
    returned a reference that holds the same result in [h']. *)
Definition yields (out : JS.Result ref * Store.t) (v : JS.Result ValidationResult.t) : Prop :=
  match v with
  | JS.Ok r => exists l, fst out = JS.Ok l /\ snd out !! l = Some (Res r)
  | JS.Throw e => fst out = JS.Throw e
  end.

(** A call of one of the classification or validation operations, with
    its arguments. *)
Inductive Call : Type :=
| DetectAbstractionType (rule : ref)
| AnalyzeRuleContent (content : string)
| AnalyzeMetadata (metadata : ref)
| ValidateSkill (metadata : ref) (content : string)
| ValidateSubAgent (metadata : ref) (content : string)
| ValidateCommand (metadata : ref) (content : string)
| ValidateRule (metadata : ref) (content : string)
| ValidateAnyAbstraction (metadata : JS.nullable ref) (content : JS.nullable string)
| ValidateAbstractionGroup (abstractions : ref).

(** The store when the call returns or throws. *)
Definition after (c : Call) (h : Store.t) : Store.t :=
  match c with
  | DetectAbstractionType rule => snd (detectAbstractionType rule h)
  | AnalyzeRuleContent content => snd (analyzeRuleContent content h)
  | AnalyzeMetadata metadata => snd (analyzeMetadata metadata h)
  | ValidateSkill metadata content => snd (validateSkill metadata content h)
  | ValidateSubAgent metadata content => snd (validateSubAgent metadata content h)
  | ValidateCommand metadata content => snd (validateCommand metadata content h)
  | ValidateRule metadata content => snd (validateRule metadata content h)
  | ValidateAnyAbstraction metadata content =>
      snd (validateAnyAbstraction metadata content h)
  | ValidateAbstractionGroup abstractions => snd (validateAbstractionGroup abstractions h)
  end.

End StoreOps.

(** ** The operations that return a [ValidationResult] *)

Inductive Operation : Type :=
| OpValidateSkill (metadata : Metadata.t) (content : string)
| OpValidateSubAgent (metadata : Metadata.t) (content : string)
| OpValidateCommand (metadata : Metadata.t) (content : string)
| OpValidateRule (metadata : Metadata.t) (content : string)
| OpValidateAnyAbstraction (metadata : JS.nullable Metadata.t) (content : JS.nullable string)
| OpValidateAbstractionGroup (abstractions : list RuleBlock.t)
| OpCombineValidationResults (results : list ValidationResult.t).

(** [returns op r]: the call [op] returns the result [r] (it does not throw). *)
Definition returns (op : Operation) (r : ValidationResult.t) : Prop :=
  match op with
  | OpValidateSkill m c => Validators.validateSkill m c = r
  | OpValidateSubAgent m c => Validators.validateSubAgent m c = JS.Ok r
  | OpValidateCommand m c => Validators.validateCommand m c = JS.Ok r
  | OpValidateRule m c => Validators.validateRule m c = r
  | OpValidateAnyAbstraction m c => Validators.validateAnyAbstraction m c = JS.Ok r
  | OpValidateAbstractionGroup l => Group.validateAbstractionGroup l = Some r
  | OpCombineValidationResults l => Validators.combineValidationResults l = r
  end.

(** The results that a call receives as arguments. *)
Definition resultArguments (op : Operation) : list ValidationResult.t :=
  match op with
  | OpCombineValidationResults l => l
  | _ => []
  end.

(** Metadata without a [type] and without any of the properties that
    [analyzeMetadata] reads as a hint. *)
Definition noHints (m : Metadata.t) : Prop :=
  Metadata.type m = None /\ Metadata.triggers m = None /\ Metadata.manual m = None
  /\ Metadata.alwaysApply m = None /\ Metadata.expertise m = None
  /\ Metadata.scope m = None.

(** The raw scores of a document: [calculateTypeScores] before it
    normalises. *)
Definition rawScoresOf (rule : RuleBlock.t) : Scores.t :=
  TypeDetector.rawTypeScores
    (TypeDetector.analyzeRuleContent (RuleBlock.content rule))
    (TypeDetector.analyzeMetadata (RuleBlock.metadata rule)).

(** ** [formatValidationResult] ([src/validators.ts]) *)

Module Format.

(** The line feed. *)
Definition newline : string := String (ascii_of_nat 10) EmptyString.

(** [x.field ? ` (${x.field})` : ''] *)
Definition fieldInfo (field : option string) : string :=
  if JS.truthy field then " (" +:+ default JS.empty field +:+ ")" else JS.empty.

Definition issueLine (e : Issue.t) : string :=
  "  • " +:+ Issue.message e +:+ fieldInfo (Issue.field e).

Definition suggestionLine (s : Suggestion.t) : string :=
  "  • " +:+ Suggestion.message s +:+ fieldInfo (Suggestion.field s)
    +:+ (if Suggestion.actionable s then " [actionable]" else JS.empty).

Definition formatValidationResult (result : ValidationResult.t) : string :=
  let lines1 :=
    [if ValidationResult.valid result then "✓ Validation passed"
     else "✗ Validation failed"] in
  let lines2 :=
    if (0 <? length (ValidationResult.errors result))%nat
    then ((newline +:+ "Errors:") :: map issueLine (ValidationResult.errors result))
    else [] in
  let lines3 :=
    if (0 <? length (ValidationResult.warnings result))%nat
    then ((newline +:+ "Warnings:") :: map issueLine (ValidationResult.warnings result))
    else [] in
  let lines4 :=
    if (0 <? length (ValidationResult.suggestions result))%nat
    then ((newline +:+ "Suggestions:")
            :: map suggestionLine (ValidationResult.suggestions result))
    else [] in
  JS.join newline (lines1 ++ lines2 ++ lines3 ++ lines4)%list.

End Format.

(** ** Callers in [src/wrapper/sync-manager.ts] *)

Module SyncManager.

(** [ConfigFile], with the properties that the two functions read. *)
Record ConfigFile : Type := mkConfigFile {
  filePath : string;
  metadata : Metadata.t;
  content : string;
  typeDetection : option AbstractionTypeInfo.t
}.

Record AbstractionMismatch : Type := mkMismatch {
  declaredType : option string;
  detectedType : option string;
  confidence : Q;
  reasons : list string
}.

Record FileAnalysis : Type := mkFileAnalysis {
  fa_filePath : string;
  fa_detectedType : option string;
  fa_confidence : Q;
  issues : list Issue.t;
  warnings : list Issue.t;
  suggestions : list Suggestion.t;
  abstractionMismatch : option AbstractionMismatch;
  originalFormat : option string;
  ruleCount : nat
}.

(** [error.message] of the exceptions of [JS.Error]. *)
Definition errorMessage (e : JS.Error) : string :=
  match e with
  | JS.ReferenceError name => name +:+ " is not defined"
  | JS.TypeError what => what
  end.

(** [validateConfig]: the dispatcher inside [try ... catch]. *)
Definition validateConfig (config : ConfigFile) : ValidationResult.t :=
  match Validators.validateAnyAbstraction (JS.Value (metadata config))
          (JS.Value (content config)) with
  | JS.Ok r => r
  | JS.Throw error =>
      ValidationResult.mk false
        [Issue.mk "VALIDATION_FAILED" (errorMessage error) None (Some SevError)] [] []
  end.

(** [analyzeConfigFile]; it awaits nothing, so it is the function of its
    argument. *)
Definition analyzeConfigFile (config : ConfigFile) : FileAnalysis :=
  let typeDetection' :=
    TypeDetector.detectAbstractionType (RuleBlock.mk (metadata config) (content config)) in
  let mismatch :=
    if JS.truthy (Metadata.type (metadata config))
       && Validators.differ (Metadata.type (metadata config))
            (AbstractionTypeInfo.type typeDetection')
    then Some (mkMismatch (Metadata.type (metadata config))
                 (AbstractionTypeInfo.type typeDetection')
                 (AbstractionTypeInfo.confidence typeDetection')
                 (AbstractionTypeInfo.indicators typeDetection'))
    else None in
  let validation := validateConfig config in
  mkFileAnalysis (filePath config)
    (AbstractionTypeInfo.type typeDetection')
    (AbstractionTypeInfo.confidence typeDetection')
    (ValidationResult.errors validation)
    (ValidationResult.warnings validation)
    (ValidationResult.suggestions validation)
    mismatch
    (match typeDetection config with
     | Some td => AbstractionTypeInfo.type td
     | None => None
     end)
    1.

End SyncManager.

(** ** Callers in [src/wrapper/analyzer.ts] *)

Module Analyzer.

(** [detectAbstractionMismatch(config, typeInfo)] *)
Definition detectAbstractionMismatch (config : SyncManager.ConfigFile)
    (typeInfo : AbstractionTypeInfo.t) : option SyncManager.AbstractionMismatch :=
  if JS.truthy (Metadata.type (SyncManager.metadata config))
     && Validators.differ (Metadata.type (SyncManager.metadata config))
          (AbstractionTypeInfo.type typeInfo)
     && negb (Qle_bool (AbstractionTypeInfo.confidence typeInfo) 0.7)
  then Some (SyncManager.mkMismatch (Metadata.type (SyncManager.metadata config))
               (AbstractionTypeInfo.type typeInfo)
               (AbstractionTypeInfo.confidence typeInfo)
               (AbstractionTypeInfo.indicators typeInfo))
  else None.

(** [TypeDistribution].  The object literal has six counters.  On a key
    that the object does not have, [distribution[key]++] reads [undefined],
    whose increment is [NaN], and stores it: the object gets the property
    [key] with the value [NaN], no counter changes, and a later increment of
    that key leaves it [NaN].  [notANumber] lists those properties, in the
    order of their insertion. *)
Record TypeDistribution : Type := mkDistribution {
  rules : nat;
  skills : nat;
  subagents : nat;
  commands : nat;
  mixed : nat;
  unknown : nat;
  notANumber : list string
}.

(** [distribution[key]++] *)
Definition increment (key : string) (d : TypeDistribution) : TypeDistribution :=
  if String.eqb key "rules" then
    mkDistribution (S (rules d)) (skills d) (subagents d) (commands d) (mixed d)
      (unknown d) (notANumber d)
  else if String.eqb key "skills" then
    mkDistribution (rules d) (S (skills d)) (subagents d) (commands d) (mixed d)
      (unknown d) (notANumber d)
  else if String.eqb key "subagents" then
    mkDistribution (rules d) (skills d) (S (subagents d)) (commands d) (mixed d)
      (unknown d) (notANumber d)
  else if String.eqb key "commands" then
    mkDistribution (rules d) (skills d) (subagents d) (S (commands d)) (mixed d)
      (unknown d) (notANumber d)
  else if String.eqb key "mixed" then
    mkDistribution (rules d) (skills d) (subagents d) (commands d) (S (mixed d))
      (unknown d) (notANumber d)
  else if String.eqb key "unknown" then
    mkDistribution (rules d) (skills d) (subagents d) (commands d) (mixed d)
      (S (unknown d)) (notANumber d)
  else if JS.arrayIncludes (notANumber d) key then d
  else
    mkDistribution (rules d) (skills d) (subagents d) (commands d) (mixed d)
      (unknown d) (notANumber d ++ [key])%list.

Definition countFile (d : TypeDistribution) (file : SyncManager.ConfigFile)
    : TypeDistribution :=
  let typeInfo :=
    TypeDetector.detectAbstractionType
      (RuleBlock.mk (SyncManager.metadata file) (SyncManager.content file)) in
  if negb (Qle_bool (AbstractionTypeInfo.confidence typeInfo) 0.7) then
    increment (Validators.showType (AbstractionTypeInfo.type typeInfo) +:+ "s") d
  else if negb (Qle_bool (AbstractionTypeInfo.confidence typeInfo) 0.3) then
    increment "mixed" d
  else increment "unknown" d.

(** [calculateTypeDistribution(files)] *)
Definition calculateTypeDistribution (files : list SyncManager.ConfigFile)
    : TypeDistribution :=
  fold_left countFile files (mkDistribution 0 0 0 0 0 0 []).

End Analyzer.

(** ** Notions used to state properties *)

Module Notions.

(** [edge graph a b]: the graph records [b] as a dependency of [a]. *)
Definition edge (graph : OrderedMap.t (list string)) (a b : string) : Prop :=
  exists deps, OrderedMap.get a graph = Some deps /\ In b deps.

(** Some identifier depends on itself, directly or through others. *)
Definition cyclic (graph : OrderedMap.t (list string)) : Prop :=
  exists c, tc (edge graph) c c.

(** The identifiers whose traversal is complete: visited and no longer on
    the recursion stack. *)
Definition finished (st : Group.Dfs) : gset string :=
  Group.visited st ∖ Group.recursionStack st.

(** What holds of the two sets between any two calls of
    [hasCircularDependency]: the stack is part of [visited]; the
    dependencies of a finished identifier are finished; no finished
    identifier depends on itself. *)
Definition dfsInvariant (graph : OrderedMap.t (list string)) (st : Group.Dfs) : Prop :=
  Group.recursionStack st ⊆ Group.visited st
  /\ (forall a b, a ∈ finished st -> edge graph a b -> b ∈ finished st)
  /\ (forall a, a ∈ finished st -> ~ tc (edge graph) a a).

(** What a call on [nodeId] from the state [st] gives: [true] only if
    [nodeId] leads to a cycle, and [false] with [nodeId] finished and the
    stack as it was. *)
Definition visitResult (graph : OrderedMap.t (list string)) (nodeId : string)
    (stack : gset string) (visited0 : gset string) (r : bool * Group.Dfs) : Prop :=
  if fst r then exists c, rtc (edge graph) nodeId c /\ tc (edge graph) c c
  else dfsInvariant graph (snd r)
       /\ Group.recursionStack (snd r) = stack
       /\ visited0 ⊆ Group.visited (snd r)
       /\ nodeId ∈ finished (snd r).

(** The dependencies that a batch declares for an identifier: those of the
    last document with that [id] that has a [dependencies] array. *)
Fixpoint declared (batch : list RuleBlock.t) (a : string) : option (list string) :=
  match batch with
  | [] => None
  | x :: rest =>
      match declared rest a with
      | Some deps => Some deps
      | None =>
          if String.eqb (Metadata.id (RuleBlock.metadata x)) a
          then Metadata.dependencies (RuleBlock.metadata x)
          else None
      end
  end.

(** [a] declares [b] as a dependency. *)
Definition dependsOn (batch : list RuleBlock.t) (a b : string) : Prop :=
  exists deps, declared batch a = Some deps /\ In b deps.

(** [b] is the [id] of a document of the batch. *)
Definition knownId (batch : list RuleBlock.t) (b : string) : Prop :=
  exists doc, In doc batch /\ Metadata.id (RuleBlock.metadata doc) = b.

(** A file without a declared type in which no keyword, structure or
    metadata hint scores. *)
Definition noSignal (file : SyncManager.ConfigFile) : bool :=
  negb (JS.truthy (Metadata.type (SyncManager.metadata file)))
  && Qle_bool
       (Scores.maxValue
          (rawScoresOf (RuleBlock.mk (SyncManager.metadata file)
                          (SyncManager.content file))))
       0.

(** The sum of the six counters of a distribution. *)
Definition counters (d : Analyzer.TypeDistribution) : nat :=
  Analyzer.rules d + Analyzer.skills d + Analyzer.subagents d + Analyzer.commands d
  + Analyzer.mixed d + Analyzer.unknown d.

(** A file that declares a type other than the four categories. *)
Definition foreignType (file : SyncManager.ConfigFile) : bool :=
  match Metadata.type (SyncManager.metadata file) with
  | Some ty => negb (String.eqb ty EmptyString) && negb (JS.arrayIncludes Scores.keys ty)
  | None => false
  end.

(** [`${type}s`] for the declared type of a file. *)
Definition pluralKey (file : SyncManager.ConfigFile) : string :=
  Validators.showType (Metadata.type (SyncManager.metadata file)) +:+ "s".

(** The scopes that the always-applied rules of a batch claim, one entry
    per rule and listed scope, in the order of the batch. *)
Definition claimedScopes (batch : list RuleBlock.t) : list string :=
  flat_map (fun a => Group.scopesOf (RuleBlock.metadata a))
    (List.filter
       (fun a =>
          JS.isTrue (Metadata.alwaysApply (RuleBlock.metadata a))
          && TypeDetector.typeIs (Metadata.type (RuleBlock.metadata a)) "rule")
       batch).

(** The state of the hints after each test of [analyzeMetadata]: no hint
    and confidence 0, or some hint and a confidence between 0.6 and 1. *)
Definition hintState (acc : list string * Q) : Prop :=
  (fst acc = [] /\ (snd acc == 0)%Q)
  \/ (fst acc <> [] /\ (0.6 <= snd acc)%Q /\ (snd acc <= 1)%Q).

(** A pattern that matches nothing because it must start with [Void]. *)
Fixpoint isVoid (r : RegExp.t) : bool :=
  match r with
  | RegExp.Void => true
  | RegExp.Cat r1 _ => isVoid r1
  | RegExp.Alt r1 r2 => isVoid r1 && isVoid r2
  | _ => false
  end.

(** Errors are tagged [error] and warnings [warning]. *)
Definition tagged (r : ValidationResult.t) : Prop :=
  Forall (fun e => Issue.severity e = Some SevError) (ValidationResult.errors r)
  /\ Forall (fun w => Issue.severity w = Some SevWarning) (ValidationResult.warnings r).

End Notions.

(** ** Inputs used below *)

Module Examples.

(** [{ id: 'scoped', scope: ['cli-tools'] }]: the only hint is the scope. *)
Definition scopeOnly : Metadata.t :=
  Metadata.mk "scoped" None None (Some (Metadata.Many ["cli-tools"])) None None None None
    None None None None None None None None None None None.

(** [{ id: 'subagent-always-apply', type: 'subagent', isolatedContext: true,
    alwaysApply: true }], from the test suite. *)
Definition subagentAlwaysApply : Metadata.t :=
  Metadata.mk "subagent-always-apply" (Some "subagent") (Some true) None None None None
    None None None None None None None (Some true) None None None None.

(** [{ id: 'test-subagent', type: 'subagent', isolatedContext: true }] *)
Definition minimalSubagent : Metadata.t :=
  Metadata.mk "test-subagent" (Some "subagent") None None None None None
    None None None None None None None (Some true) None None None None.

(** [{ id: i, type: 'command', trigger: t, userInvoked: true }] *)
Definition command (i t : string) : Metadata.t :=
  Metadata.mk i (Some "command") None None None None None None None None None None None
    None None None (Some t) (Some true) None.

(** [{ id: i, dependencies: deps }] *)
Definition dependent (i : string) (deps : list string) : Metadata.t :=
  Metadata.mk i None None None None None None None None (Some deps) None None None
    None None None None None None.

End Examples.

(** * Properties *)

Section ScoreFacts.
Local Open Scope Q_scope.

Lemma Qle_bool_false_lt (x y : Q) : Qle_bool x y = false -> y < x.
Proof.
  intros H. apply Qnot_le_lt. intros Hle.
  apply Qle_bool_iff in Hle. congruence.
Qed.

Lemma Qlt_Qle_bool_false (x y : Q) : y < x -> Qle_bool x y = false.
Proof.
  intros H. destruct (Qle_bool x y) eqn:E; [|reflexivity].
  apply Qle_bool_iff in E. exfalso. exact (Qlt_not_le _ _ H E).
Qed.

Lemma Qdiv_self (x : Q) : 0 < x -> x / x == 1.
Proof.
  intros H. unfold Qdiv. apply Qmult_inv_r.
  intros E. rewrite E in H. exact (Qlt_irrefl _ H).
Qed.

(** The maximum of the four scores is one of them. *)
Lemma maxValue_attained (s : Scores.t) :
  Scores.maxValue s == Scores.skill s \/ Scores.maxValue s == Scores.subagent s
  \/ Scores.maxValue s == Scores.command s \/ Scores.maxValue s == Scores.rule s.
Proof.
  unfold Scores.maxValue.
  destruct (Q.max_spec (Qmax (Qmax (Scores.skill s) (Scores.subagent s)) (Scores.command s))
              (Scores.rule s)) as [[_ E]|[_ E]]; [do 3 right; exact E|].
  destruct (Q.max_spec (Qmax (Scores.skill s) (Scores.subagent s)) (Scores.command s))
    as [[_ E1]|[_ E1]]; [do 2 right; left; rewrite E; exact E1|].
  destruct (Q.max_spec (Scores.skill s) (Scores.subagent s)) as [[_ E2]|[_ E2]].
  - right; left. rewrite E, E1. exact E2.
  - left. rewrite E, E1. exact E2.
Qed.

Lemma maxValue_ge (s : Scores.t) :
  Scores.skill s <= Scores.maxValue s /\ Scores.subagent s <= Scores.maxValue s
  /\ Scores.command s <= Scores.maxValue s /\ Scores.rule s <= Scores.maxValue s.
Proof.
  unfold Scores.maxValue. repeat split.
  - eapply Qle_trans; [|apply Q.le_max_l]. eapply Qle_trans; [|apply Q.le_max_l].
    apply Q.le_max_l.
  - eapply Qle_trans; [|apply Q.le_max_l]. eapply Qle_trans; [|apply Q.le_max_l].
    apply Q.le_max_r.
  - eapply Qle_trans; [|apply Q.le_max_l]. apply Q.le_max_r.
  - apply Q.le_max_r.
Qed.

Lemma maxValue_le (s : Scores.t) (b : Q) :
  Scores.skill s <= b -> Scores.subagent s <= b -> Scores.command s <= b ->
  Scores.rule s <= b -> Scores.maxValue s <= b.
Proof.
  intros. unfold Scores.maxValue. repeat apply Q.max_lub; assumption.
Qed.

(** The floor of step 3: the rule score of [normalizeScores] is at least 0.3. *)
Lemma normalizeScores_rule_floor (s : Scores.t) :
  0.3 <= Scores.rule (TypeDetector.normalizeScores s).
Proof. unfold TypeDetector.normalizeScores. cbn [Scores.rule]. apply Q.le_max_r. Qed.

(** When some raw score is positive, the maximum after normalisation is 1. *)
Lemma normalizeScores_max_one (s : Scores.t) :
  0 < Scores.maxValue s -> Scores.maxValue (TypeDetector.normalizeScores s) == 1.
Proof.
  intros Hpos. unfold TypeDetector.normalizeScores.
  rewrite (Qlt_Qle_bool_false _ _ Hpos). cbn [negb Scores.skill Scores.subagent
    Scores.command Scores.rule].
  set (m := Scores.maxValue s) in *.
  apply Qle_antisym.
  - apply maxValue_le; cbn [Scores.skill Scores.subagent Scores.command Scores.rule];
      try apply Q.le_min_r.
    apply Q.max_lub; [apply Q.le_min_r | discriminate].
  - assert (Hone : forall x, m == x -> 1 <= Qmin (x / m) 1).
    { intros x E. apply Q.min_glb; [|apply Qle_refl].
      rewrite <- E, (Qdiv_self m Hpos). apply Qle_refl. }
    match goal with |- _ <= Scores.maxValue ?n => pose proof (maxValue_ge n) as Hge end.
    cbn [Scores.skill Scores.subagent Scores.command Scores.rule] in Hge.
    destruct Hge as (H1 & H2 & H3 & H4).
    destruct (maxValue_attained s) as [E|[E|[E|E]]]; fold m in E.
    + eapply Qle_trans; [apply (Hone _ E)|exact H1].
    + eapply Qle_trans; [apply (Hone _ E)|exact H2].
    + eapply Qle_trans; [apply (Hone _ E)|exact H3].
    + eapply Qle_trans; [apply (Hone _ E)|]. eapply Qle_trans; [apply Q.le_max_l|exact H4].
Qed.

End ScoreFacts.

Section Classification.
Local Open Scope Q_scope.

Lemma analyzeMetadata_untyped (m : Metadata.t) :
  Metadata.type m = None ->
  MetadataAnalysis.explicitType (TypeDetector.analyzeMetadata m) = None.
Proof. intros H. unfold TypeDetector.analyzeMetadata. rewrite H. reflexivity. Qed.

(** Without an explicit type the classifier goes through the scores. *)
Lemma detectAbstractionType_untyped (rule : RuleBlock.t) :
  Metadata.type (RuleBlock.metadata rule) = None ->
  let scores := TypeDetector.normalizeScores (rawScoresOf rule) in
  let maxScore := Scores.maxValue scores in
  let detectedType := Scores.findKey scores maxScore in
  AbstractionTypeInfo.type (TypeDetector.detectAbstractionType rule) = detectedType
  /\ AbstractionTypeInfo.confidence (TypeDetector.detectAbstractionType rule)
     = if TypeDetector.typeIs detectedType "rule" then Qmax maxScore 0.5 else maxScore.
Proof.
  intros H. unfold TypeDetector.detectAbstractionType.
  rewrite (analyzeMetadata_untyped _ H). cbn [JS.truthy andb].
  split; reflexivity.
Qed.

Lemma rawScores_positive (s : Scores.t) :
  0 < Scores.skill s \/ 0 < Scores.subagent s \/ 0 < Scores.command s \/ 0 < Scores.rule s ->
  0 < Scores.maxValue s.
Proof.
  destruct (maxValue_ge s) as (H1 & H2 & H3 & H4).
  intros [H|[H|[H|H]]]; eapply Qlt_le_trans; eauto.
Qed.

End Classification.

(** C4.  For the document with empty content and metadata that carries no
    type and no hint property, [detectAbstractionType] answers [rule] with a
    confidence of at least 0.5; and for every content analysis and metadata
    analysis the rule score that [calculateTypeScores] returns is at least
    0.3, hence never 0. *)
Theorem C4_rule_fallback (m : Metadata.t) (ca : ContentAnalysis.t) (ma : MetadataAnalysis.t)
    (Hm : noHints m) :
  (AbstractionTypeInfo.type (TypeDetector.detectAbstractionType (RuleBlock.mk m JS.empty))
   = Some "rule"
   /\ (0.5 <= AbstractionTypeInfo.confidence
                (TypeDetector.detectAbstractionType (RuleBlock.mk m JS.empty)))%Q)
  /\ (0.3 <= Scores.rule (TypeDetector.calculateTypeScores ca ma))%Q
  /\ ~ (Scores.rule (TypeDetector.calculateTypeScores ca ma) == 0)%Q.
Proof.
  split; [|split].
  - destruct m; unfold noHints in Hm; cbn in Hm.
    destruct Hm as (-> & -> & -> & -> & -> & ->).
    split; [vm_compute; reflexivity|].
    vm_compute. discriminate.
  - apply normalizeScores_rule_floor.
  - intros E. pose proof (normalizeScores_rule_floor (TypeDetector.rawTypeScores ca ma)) as H.
    unfold TypeDetector.calculateTypeScores in E. rewrite E in H.
    revert H. vm_compute. intros H. apply H. reflexivity.
Qed.

Lemma C4_rule_fallback_witness :
  noHints (Metadata.bare "fallback")
  /\ AbstractionTypeInfo.type
       (TypeDetector.detectAbstractionType (RuleBlock.mk (Metadata.bare "fallback") JS.empty))
     = Some "rule".
Proof.
  split.
  - repeat split.
  - apply (C4_rule_fallback (Metadata.bare "fallback")
             (TypeDetector.analyzeRuleContent JS.empty)
             (TypeDetector.analyzeMetadata (Metadata.bare "fallback"))).
    repeat split.
Defined.

(** C10.  For a document without an explicit [metadata.type], if one of the
    four raw scores is strictly positive then [detectAbstractionType] reports
    a confidence equal to 1, whichever category wins. *)
Theorem C10_confidence_one (rule : RuleBlock.t)
    (Htype : Metadata.type (RuleBlock.metadata rule) = None)
    (Hpos : (0 < Scores.skill (rawScoresOf rule) \/ 0 < Scores.subagent (rawScoresOf rule)
             \/ 0 < Scores.command (rawScoresOf rule) \/ 0 < Scores.rule (rawScoresOf rule))%Q) :
  (AbstractionTypeInfo.confidence (TypeDetector.detectAbstractionType rule) == 1)%Q.
Proof.
  destruct (detectAbstractionType_untyped rule Htype) as [_ ->].
  pose proof (normalizeScores_max_one _ (rawScores_positive _ Hpos)) as Hone.
  destruct (TypeDetector.typeIs _ "rule"); [|exact Hone].
  apply Qle_antisym.
  - apply Q.max_lub; [rewrite Hone; apply Qle_refl | discriminate].
  - rewrite <- Hone at 1. apply Q.le_max_l.
Qed.

Lemma C10_confidence_one_witness :
  (AbstractionTypeInfo.confidence
     (TypeDetector.detectAbstractionType
        (RuleBlock.mk (Metadata.bare "howto") "How to write a test. Example: ...")) == 1)%Q.
Proof.
  apply C10_confidence_one.
  - reflexivity.
  - left. vm_compute. reflexivity.
Defined.

(** The scope hint reaches no branch of the metadata boost: with it as the
    only hint, the raw scores are those of a document without hints. *)
Lemma scope_hint_changes_no_score (ca : ContentAnalysis.t) (c : Q) (cs : list string) :
  TypeDetector.rawTypeScores ca (MetadataAnalysis.mk None ["command-related scope"] c cs)
  = TypeDetector.rawTypeScores ca (MetadataAnalysis.mk None [] 0 []).
Proof. reflexivity. Qed.

(** C8.  At metadata whose only hint is a scope entry containing [cli], the
    analyzer reports the hint with confidence 0.6, yet the raw command score
    is 0 and not 0.18: no branch of [calculateTypeScores] reads the hint.
    The document is then classified as a rule. *)
Theorem C8_scope_hint_not_boosted :
  let ma := TypeDetector.analyzeMetadata Examples.scopeOnly in
  let raw := TypeDetector.rawTypeScores (TypeDetector.analyzeRuleContent JS.empty) ma in
  MetadataAnalysis.typeHints ma = ["command-related scope"]
  /\ (MetadataAnalysis.confidence ma == 0.6)%Q
  /\ (Scores.command raw == 0)%Q
  /\ ~ (Scores.command raw == 0.6 * 0.3)%Q
  /\ AbstractionTypeInfo.type
       (TypeDetector.detectAbstractionType (RuleBlock.mk Examples.scopeOnly JS.empty))
     = Some "rule".
Proof.
  cbv zeta. repeat split; try (vm_compute; reflexivity).
  vm_compute. discriminate.
Qed.

(** The four other hints do reach their category. *)
Lemma other_hints_boost (ca : ContentAnalysis.t) (c : Q) :
  let base := TypeDetector.rawTypeScores ca (MetadataAnalysis.mk None [] 0 []) in
  let boosted h := TypeDetector.rawTypeScores ca (MetadataAnalysis.mk None [h] c []) in
  Scores.skill (boosted "expertise field suggests skill") = (Scores.skill base + c * 0.3)%Q
  /\ Scores.command (boosted "slash trigger in metadata") = (Scores.command base + c * 0.3)%Q
  /\ Scores.command (boosted "manual invocation flag")
     = (Scores.command base + c * 0.3 * 0.5)%Q
  /\ Scores.rule (boosted "always apply flag suggests rule") = (Scores.rule base + c * 0.3)%Q.
Proof. repeat split. Qed.

Section Throwing.

(** [validateSubAgent] returns only for metadata with more than five
    tools: every other call evaluates the undeclared identifier [skill]. *)
Lemma validateSubAgent_throws (metadata : Metadata.t) (content : string) :
  match Metadata.tools metadata with
  | Some tools => (5 <? length tools)%nat
  | None => false
  end = false ->
  Validators.validateSubAgent metadata content = JS.Throw (JS.ReferenceError "skill").
Proof. intros H. unfold Validators.validateSubAgent. rewrite H. reflexivity. Qed.

(** [validateCommand] evaluates the undeclared identifier [subagent] as soon
    as the trigger starts with a slash. *)
Lemma validateCommand_throws (metadata : Metadata.t) (content trigger : string) :
  Metadata.trigger metadata = Some trigger ->
  JS.startsWith trigger "/" = true ->
  Validators.validateCommand metadata content = JS.Throw (JS.ReferenceError "subagent").
Proof.
  intros Ht Hs. unfold Validators.validateCommand. rewrite Ht.
  destruct trigger as [|c t]; [discriminate Hs|].
  cbv zeta. change (default JS.empty (Some (String c t))) with (String c t).
  rewrite Hs. reflexivity.
Qed.

(** The dispatcher has no handler: what the category validator throws, the
    dispatcher throws. *)
Lemma validateAnyAbstraction_propagates (metadata : Metadata.t) (content : string)
    (e : JS.Error) :
  JS.truthy (Metadata.type metadata) = true ->
  Validators.routeToSpecificValidator (Metadata.type metadata) metadata content = JS.Throw e ->
  Validators.validateAnyAbstraction (JS.Value metadata) (JS.Value content) = JS.Throw e.
Proof.
  intros Ht Hr. unfold Validators.validateAnyAbstraction. rewrite Ht, Hr. reflexivity.
Qed.

(** When [validateSubAgent] does return, [alwaysApply: true] is reported. *)
Lemma validateSubAgent_conflict_if_returns (metadata : Metadata.t) (content : string)
    (r : ValidationResult.t) :
  Validators.validateSubAgent metadata content = JS.Ok r ->
  Metadata.alwaysApply metadata = Some true ->
  In (Validators.error VALIDATION_CODES.SUBAGENT_RULE_CONFLICT
        "SubAgents should not use alwaysApply flag. This conflicts with isolated context."
        (Some "alwaysApply"))
     (ValidationResult.errors r).
Proof.
  intros Hr Ha. unfold Validators.validateSubAgent in Hr. rewrite Ha in Hr.
  destruct (match Metadata.tools metadata with
            | Some tools => (5 <? length tools)%nat
            | None => false
            end); [|discriminate Hr].
  cbn [mbind Result_bind JS.bind mret Result_ret] in Hr.
  injection Hr as <-. unfold Validators.result. cbn [ValidationResult.errors].
  rewrite !in_app_iff. right; right. left. reflexivity.
Qed.

End Throwing.

(** C1.  The category validators do not return on inputs inside the
    contract, and the dispatcher lets the exception through: a minimal valid
    subagent makes [validateSubAgent] throw a [ReferenceError] for [skill], a
    command whose trigger starts with a slash makes [validateCommand] throw
    one for [subagent], and [validateAnyAbstraction] throws the same
    exceptions instead of returning a result. *)
Theorem C1_validators_throw :
  Validators.validateSubAgent Examples.minimalSubagent "Step 1: Process"
  = JS.Throw (JS.ReferenceError "skill")
  /\ Validators.validateCommand (Examples.command "command-1" "/build") "Execute build process"
     = JS.Throw (JS.ReferenceError "subagent")
  /\ Validators.validateAnyAbstraction (JS.Value Examples.minimalSubagent)
       (JS.Value "Step 1: Process")
     = JS.Throw (JS.ReferenceError "skill")
  /\ Validators.validateAnyAbstraction (JS.Value (Examples.command "command-1" "/build"))
       (JS.Value "Execute build process")
     = JS.Throw (JS.ReferenceError "subagent").
Proof. repeat split; vm_compute; reflexivity. Qed.

(** C3.  With [isolatedContext: true] and [alwaysApply: true] (and at most
    five tools) [validateSubAgent] returns no result for any content: it
    throws a [ReferenceError] before the [return]. *)
Theorem C3_subagent_conflict_throws (content : string) :
  Validators.validateSubAgent Examples.subagentAlwaysApply content
  = JS.Throw (JS.ReferenceError "skill").
Proof. apply validateSubAgent_throws. reflexivity. Qed.

(** C5.  [validateAnyAbstraction] called with [null] or [undefined] metadata,
    or with [null] or [undefined] content, returns (it does not throw) a
    result with [valid: false], exactly one error, of code
    [MISSING_REQUIRED_FIELD], and no warning or suggestion. *)
Theorem C5_missing_arguments (metadata : JS.nullable Metadata.t) (content : JS.nullable string)
    (H : JS.nullish metadata = true \/ JS.nullish content = true) :
  exists e : Issue.t,
    Validators.validateAnyAbstraction metadata content
    = JS.Ok (ValidationResult.mk false [e] [] [])
    /\ Issue.code e = VALIDATION_CODES.MISSING_REQUIRED_FIELD
    /\ Issue.severity e = Some SevError.
Proof.
  destruct metadata as [| |m].
  - eexists. repeat split.
  - eexists. repeat split.
  - destruct H as [H|H]; [discriminate H|].
    destruct content as [| |c]; [| |discriminate H]; eexists; repeat split.
Qed.

Lemma C5_missing_arguments_witness :
  exists e : Issue.t,
    Validators.validateAnyAbstraction (JS.Value (Metadata.bare "x")) JS.Null
    = JS.Ok (ValidationResult.mk false [e] [] [])
    /\ Issue.code e = VALIDATION_CODES.MISSING_REQUIRED_FIELD
    /\ Issue.severity e = Some SevError.
Proof.
  apply (C5_missing_arguments (JS.Value (Metadata.bare "x")) JS.Null).
  right. reflexivity.
Defined.

(** ** The traversal of [validateAbstractionGroup] returns *)

Section Traversal.
Variable graph : OrderedMap.t (list string).


Lemma size_list_to_set_le (l : list string) :
  size (list_to_set l : gset string) <= length l.
Proof.
  induction l as [|x l IH]; [rewrite list_to_set_nil, size_empty; lia|].
  rewrite list_to_set_cons, size_union_alt, size_singleton. cbn [length].
  pose proof (subseteq_size (list_to_set l ∖ {[x]}) (list_to_set l : gset string)) as H.
  specialize (H ltac:(set_solver)). lia.
Qed.

Lemma key_in_universe (k : string) :
  k ∈ OrderedMap.keys graph -> k ∈ Group.universe graph.
Proof.
  intros H. unfold Group.universe, Group.nodesOf. rewrite list_to_set_app. set_solver.
Qed.

Lemma dependency_in_universe (k d : string) (deps : list string) :
  OrderedMap.get k graph = Some deps -> d ∈ deps -> d ∈ Group.universe graph.
Proof.
  intros Hget Hd. unfold Group.universe, Group.nodesOf.
  rewrite list_to_set_app, elem_of_union, !elem_of_list_to_set. right.
  induction graph as [|[k' v] g IH]; [discriminate Hget|].
  cbn [OrderedMap.get] in Hget. cbn [map concat snd].
  rewrite elem_of_app.
  destruct (String.eqb k' k); [left; congruence | right; auto].
Qed.

(** Marking a new node shrinks what is left to visit. *)
Lemma unvisited_shrinks (n : string) (V : gset string) :
  n ∈ Group.universe graph -> n ∉ V ->
  size (Group.universe graph ∖ ({[n]} ∪ V)) < size (Group.universe graph ∖ V).
Proof.
  generalize (Group.universe graph). intros U Hn Hv. apply subset_size. set_solver.
Qed.

Lemma unvisited_mono (V V' : gset string) :
  V ⊆ V' -> size (Group.universe graph ∖ V') <= size (Group.universe graph ∖ V).
Proof.
  generalize (Group.universe graph). intros U H. apply subseteq_size. set_solver.
Qed.

Lemma visitDependencies_answers (visit : string -> Group.Dfs -> option (bool * Group.Dfs))
    (bound : nat) (nodeId : string) :
  (forall d st, d ∈ Group.universe graph -> Group.visited st ⊆ Group.universe graph ->
                size (Group.universe graph ∖ Group.visited st) < bound ->
                Group.answers graph (visit d st) st) ->
  forall deps st,
    (forall d, d ∈ deps -> d ∈ Group.universe graph) ->
    Group.visited st ⊆ Group.universe graph ->
    size (Group.universe graph ∖ Group.visited st) < bound ->
    Group.answers graph (Group.visitDependencies visit nodeId deps st) st.
Proof.
  intros Hvisit deps. induction deps as [|d deps IH]; intros st Hdeps Hsub Hsize.
  - exists false. eexists. cbn. split; [reflexivity|]. cbn. split; [done|exact Hsub].
  - cbn [Group.visitDependencies].
    destruct (Hvisit d st) as (b & st' & -> & Hinc & Hsub'); auto.
    { apply Hdeps. set_solver. }
    destruct b.
    + exists true, st'. auto.
    + destruct (IH st') as (b2 & st2 & E & Hinc2 & Hsub2); auto.
      { intros d' Hd'. apply Hdeps. set_solver. }
      { pose proof (unvisited_mono _ _ Hinc). lia. }
      exists b2, st2. split; [exact E|]. split; [set_solver|exact Hsub2].
Qed.

Lemma hasCircularDependency_answers (fuel : nat) :
  forall nodeId st,
    nodeId ∈ Group.universe graph -> Group.visited st ⊆ Group.universe graph ->
    size (Group.universe graph ∖ Group.visited st) < fuel ->
    Group.answers graph (Group.hasCircularDependency fuel graph nodeId st) st.
Proof.
  induction fuel as [|fuel IH]; intros nodeId st Hn Hsub Hsize; [lia|].
  cbn [Group.hasCircularDependency].
  destruct (decide (nodeId ∈ Group.recursionStack st)); [exists true, st; auto|].
  destruct (decide (nodeId ∈ Group.visited st)) as [|Hnv]; [exists false, st; auto|].
  cbv zeta.
  destruct (visitDependencies_answers (Group.hasCircularDependency fuel graph) fuel nodeId IH
              (default [] (OrderedMap.get nodeId graph))
              (Group.mkDfs ({[nodeId]} ∪ Group.visited st)
                 ({[nodeId]} ∪ Group.recursionStack st)))
    as (b & st' & E & Hinc & Hsub').
  - intros d Hd. destruct (OrderedMap.get nodeId graph) as [deps|] eqn:G.
    + eapply dependency_in_universe; eauto.
    + cbn in Hd. set_solver.
  - cbn. set_solver.
  - cbn. pose proof (unvisited_shrinks nodeId (Group.visited st) Hn Hnv). lia.
  - exists b, st'. split; [exact E|]. cbn in Hinc. split; [set_solver|exact Hsub'].
Qed.

Lemma findCycle_answers (fuel : nat) :
  forall nodes st,
    (forall n, n ∈ nodes -> n ∈ Group.universe graph) ->
    Group.visited st ⊆ Group.universe graph ->
    size (Group.universe graph ∖ Group.visited st) < fuel ->
    exists r, Group.findCycle fuel graph nodes st = Some r.
Proof.
  intros nodes. induction nodes as [|n nodes IH]; intros st Hnodes Hsub Hsize.
  - eexists; reflexivity.
  - cbn [Group.findCycle].
    destruct (hasCircularDependency_answers fuel n st) as (b & st' & -> & Hinc & Hsub'); auto.
    { apply Hnodes. set_solver. }
    destruct b; [eexists; reflexivity|].
    apply IH; auto.
    + intros n' Hn'. apply Hnodes. set_solver.
    + pose proof (unvisited_mono _ _ Hinc). lia.
Qed.

(** The fuel of [cycleErrors] is enough: the check for cycles returns. *)
Lemma cycleErrors_returns : exists errs, Group.cycleErrors graph = Some errs.
Proof.
  unfold Group.cycleErrors.
  destruct (findCycle_answers (Group.enoughFuel graph) (OrderedMap.keys graph)
              (Group.mkDfs ∅ ∅)) as (r & ->).
  - intros n. apply key_in_universe.
  - cbn. set_solver.
  - cbn. unfold Group.enoughFuel.
    pose proof (size_list_to_set_le (Group.nodesOf graph)).
    pose proof (subseteq_size (Group.universe graph ∖ ∅) (Group.universe graph) ltac:(set_solver)).
    unfold Group.universe in *. lia.
  - destruct r; eexists; reflexivity.
Qed.

(** At most one error comes out of the check, and its code is
    [CIRCULAR_DEPENDENCY]. *)
Lemma cycleErrors_at_most_one (errs : list Issue.t) :
  Group.cycleErrors graph = Some errs ->
  length errs <= 1
  /\ Forall (fun e => Issue.code e = VALIDATION_CODES.CIRCULAR_DEPENDENCY) errs.
Proof.
  unfold Group.cycleErrors.
  destruct (Group.findCycle _ _ _ _) as [[n|]|]; intros [= <-]; cbn; split;
    try lia; repeat constructor.
Qed.

End Traversal.

(** ** The errors of [validateAbstractionGroup] *)

Section GroupErrors.
Import VALIDATION_CODES.

Lemma filter_other_code (c c' : string) (l : list Issue.t) :
  Forall (Issue.hasCode c') l -> c' <> c ->
  List.filter (fun e => String.eqb (Issue.code e) c) l = [].
Proof.
  intros Hl Hne. induction Hl as [|e l He _ IH]; [reflexivity|].
  cbn [List.filter]. rewrite He. apply String.eqb_neq in Hne. rewrite Hne. exact IH.
Qed.

Lemma filter_same_code (c : string) (l : list Issue.t) :
  Forall (Issue.hasCode c) l -> List.filter (fun e => String.eqb (Issue.code e) c) l = l.
Proof.
  intros Hl. induction Hl as [|e l He _ IH]; [reflexivity|].
  cbn [List.filter]. rewrite He, String.eqb_refl, IH. reflexivity.
Qed.

(** The graph that one step of the first loop leaves. *)
Lemma indexStep_graph (ix : Group.Index) (a : RuleBlock.t) :
  Group.dependencyGraph (Group.indexStep ix a)
  = match Metadata.dependencies (RuleBlock.metadata a) with
    | Some deps =>
        OrderedMap.set (Metadata.id (RuleBlock.metadata a)) deps (Group.dependencyGraph ix)
    | None => Group.dependencyGraph ix
    end.
Proof.
  unfold Group.indexStep.
  destruct (TypeDetector.typeIs _ _ && JS.truthy _); [|reflexivity].
  destruct (JS.truthy (Group.commandTriggers ix !! _)); reflexivity.
Qed.

Lemma indexStep_codes (ix : Group.Index) (a : RuleBlock.t) :
  Forall (Issue.hasCode COMMAND_TRIGGER_CONFLICT) (Group.triggerErrors ix) ->
  Forall (Issue.hasCode COMMAND_TRIGGER_CONFLICT) (Group.triggerErrors (Group.indexStep ix a)).
Proof.
  intros H. unfold Group.indexStep.
  destruct (TypeDetector.typeIs _ _ && JS.truthy _); [|exact H].
  destruct (JS.truthy (Group.commandTriggers ix !! _)); [|exact H].
  cbn [Group.triggerErrors]. apply Forall_app. split; [exact H|].
  repeat constructor.
Qed.

Lemma buildIndex_codes (l : list RuleBlock.t) :
  Forall (Issue.hasCode COMMAND_TRIGGER_CONFLICT) (Group.triggerErrors (Group.buildIndex l)).
Proof.
  unfold Group.buildIndex.
  assert (G : forall ix, Forall (Issue.hasCode COMMAND_TRIGGER_CONFLICT) (Group.triggerErrors ix) ->
              Forall (Issue.hasCode COMMAND_TRIGGER_CONFLICT)
                (Group.triggerErrors (fold_left Group.indexStep l ix))).
  { induction l as [|a l IH]; intros ix H; [exact H|].
    cbn [fold_left]. apply IH, indexStep_codes, H. }
  apply G. constructor.
Qed.

Lemma dependencyErrors_codes (ids : gset string) (g : OrderedMap.t (list string)) :
  Forall (Issue.hasCode INVALID_DEPENDENCY) (Group.dependencyErrors ids g).
Proof.
  unfold Group.dependencyErrors. induction g as [|[k v] g IH]; [constructor|].
  cbn [flat_map]. apply Forall_app. split; [|exact IH].
  unfold Validators.pushIf. destruct (_ <? _)%nat; repeat constructor.
Qed.

(** [validateAbstractionGroup] returns for every batch, and its errors are
    the trigger conflicts, then the cycle report, then the dangling
    references. *)
Lemma validateAbstractionGroup_returns (l : list RuleBlock.t) :
  exists r cycle,
    Group.validateAbstractionGroup l = Some r
    /\ Group.cycleErrors (Group.dependencyGraph (Group.buildIndex l)) = Some cycle
    /\ ValidationResult.errors r
       = (Group.triggerErrors (Group.buildIndex l) ++ cycle
            ++ Group.dependencyErrors
                 (list_to_set (map (fun a => Metadata.id (RuleBlock.metadata a)) l))
                 (Group.dependencyGraph (Group.buildIndex l)))%list
    /\ ValidationResult.coherent r.
Proof.
  unfold Group.validateAbstractionGroup.
  destruct (cycleErrors_returns (Group.dependencyGraph (Group.buildIndex l))) as [cycle E].
  rewrite E. eexists. exists cycle. repeat split.
Qed.

Lemma countCode_circular (l : list RuleBlock.t) (r : ValidationResult.t)
    (cycle : list Issue.t) :
  Group.validateAbstractionGroup l = Some r ->
  Group.cycleErrors (Group.dependencyGraph (Group.buildIndex l)) = Some cycle ->
  ValidationResult.countCode CIRCULAR_DEPENDENCY r = length cycle.
Proof.
  intros Hr Hc. destruct (validateAbstractionGroup_returns l) as (r' & c' & E1 & E2 & E3 & _).
  assert (r' = r) by congruence. assert (c' = cycle) by congruence. subst.
  unfold ValidationResult.countCode. rewrite E3, !List.filter_app.
  rewrite (filter_other_code _ _ _ (buildIndex_codes l)) by discriminate.
  rewrite (filter_other_code _ _ _ (dependencyErrors_codes _ _)) by discriminate.
  rewrite (filter_same_code _ _ (proj2 (cycleErrors_at_most_one _ _ Hc))).
  rewrite app_nil_r. reflexivity.
Qed.

End GroupErrors.

Section TwoDocuments.
Import VALIDATION_CODES.

(** The graph of a batch of two documents that depend on each other. *)
Lemma mutual_graph (a b : RuleBlock.t) :
  Metadata.dependencies (RuleBlock.metadata a) = Some [Metadata.id (RuleBlock.metadata b)] ->
  Metadata.dependencies (RuleBlock.metadata b) = Some [Metadata.id (RuleBlock.metadata a)] ->
  Group.dependencyGraph (Group.buildIndex [a; b])
  = OrderedMap.set (Metadata.id (RuleBlock.metadata b)) [Metadata.id (RuleBlock.metadata a)]
      [(Metadata.id (RuleBlock.metadata a), [Metadata.id (RuleBlock.metadata b)])].
Proof.
  intros Ha Hb. unfold Group.buildIndex. cbn [fold_left].
  rewrite !indexStep_graph, Ha, Hb. reflexivity.
Qed.

Lemma hasCircularDependency_on_stack (fuel : nat) (g : OrderedMap.t (list string))
    (n : string) (st : Group.Dfs) :
  n ∈ Group.recursionStack st ->
  Group.hasCircularDependency (S fuel) g n st = Some (true, st).
Proof.
  intros H. cbn [Group.hasCircularDependency]. rewrite decide_True by exact H. reflexivity.
Qed.

Lemma hasCircularDependency_fresh (fuel : nat) (g : OrderedMap.t (list string))
    (n : string) (st : Group.Dfs) :
  n ∉ Group.recursionStack st -> n ∉ Group.visited st ->
  Group.hasCircularDependency (S fuel) g n st
  = Group.visitDependencies (Group.hasCircularDependency fuel g) n
      (default [] (OrderedMap.get n g))
      (Group.mkDfs ({[n]} ∪ Group.visited st) ({[n]} ∪ Group.recursionStack st)).
Proof.
  intros H1 H2. cbn [Group.hasCircularDependency].
  rewrite decide_False by exact H1. rewrite decide_False by exact H2. reflexivity.
Qed.

(** The check for cycles on that graph reports the first document. *)
Lemma mutual_cycle (x y : string) :
  Group.cycleErrors (OrderedMap.set y [x] [(x, [y])])
  = Some [Validators.error CIRCULAR_DEPENDENCY
            ("Circular dependency detected involving " +:+ Validators.quoted x)
            (Some "dependencies")].
Proof.
  cbn [OrderedMap.set]. destruct (String.eqb x y) eqn:E.
  - apply String.eqb_eq in E. subst y.
    unfold Group.cycleErrors, Group.enoughFuel, Group.nodesOf.
    cbn [OrderedMap.keys map fst snd concat app length Group.findCycle].
    rewrite hasCircularDependency_fresh by (cbn; set_solver).
    cbn [OrderedMap.get]. rewrite String.eqb_refl.
    cbn [default from_option id Group.visitDependencies Group.visited Group.recursionStack].
    rewrite hasCircularDependency_on_stack by (cbn; set_solver).
    reflexivity.
  - pose proof E as E'. rewrite String.eqb_sym in E'.
    unfold Group.cycleErrors, Group.enoughFuel, Group.nodesOf.
    cbn [OrderedMap.keys map fst snd concat app length Group.findCycle].
    apply String.eqb_neq in E.
    rewrite hasCircularDependency_fresh by (cbn; set_solver).
    cbn [OrderedMap.get]. rewrite String.eqb_refl.
    cbn [default from_option id Group.visitDependencies Group.visited Group.recursionStack].
    rewrite hasCircularDependency_fresh by (cbn; set_solver).
    cbn [OrderedMap.get]. rewrite String.eqb_refl.
    apply String.eqb_neq in E. rewrite E.
    cbn [default from_option id Group.visitDependencies Group.visited Group.recursionStack].
    rewrite hasCircularDependency_on_stack by (cbn; set_solver).
    reflexivity.
Qed.

End TwoDocuments.

(** C6.  For every batch [validateAbstractionGroup] returns a result with at
    most one error of code [CIRCULAR_DEPENDENCY]; and for a batch of two
    documents each of which declares the other as its only dependency that
    error is reported exactly once. *)
Theorem C6_one_cycle_error (batch : list RuleBlock.t) (a b : RuleBlock.t)
    (Ha : Metadata.dependencies (RuleBlock.metadata a)
          = Some [Metadata.id (RuleBlock.metadata b)])
    (Hb : Metadata.dependencies (RuleBlock.metadata b)
          = Some [Metadata.id (RuleBlock.metadata a)]) :
  (exists r, Group.validateAbstractionGroup batch = Some r
             /\ ValidationResult.countCode VALIDATION_CODES.CIRCULAR_DEPENDENCY r <= 1)
  /\ (exists r, Group.validateAbstractionGroup [a; b] = Some r
                /\ ValidationResult.countCode VALIDATION_CODES.CIRCULAR_DEPENDENCY r = 1).
Proof.
  split.
  - destruct (validateAbstractionGroup_returns batch) as (r & cycle & Hr & Hc & _).
    exists r. split; [exact Hr|].
    rewrite (countCode_circular _ _ _ Hr Hc).
    apply (cycleErrors_at_most_one _ _ Hc).
  - destruct (validateAbstractionGroup_returns [a; b]) as (r & cycle & Hr & Hc & _).
    exists r. split; [exact Hr|].
    rewrite (countCode_circular _ _ _ Hr Hc).
    rewrite (mutual_graph a b Ha Hb), mutual_cycle in Hc.
    injection Hc as <-. reflexivity.
Qed.

Lemma C6_one_cycle_error_witness :
  exists r,
    Group.validateAbstractionGroup
      [RuleBlock.mk (Examples.dependent "skill-1" ["skill-2"]) "How to test";
       RuleBlock.mk (Examples.dependent "skill-2" ["skill-1"]) "How to build"]
    = Some r
    /\ ValidationResult.countCode VALIDATION_CODES.CIRCULAR_DEPENDENCY r = 1.
Proof.
  apply (C6_one_cycle_error []
           (RuleBlock.mk (Examples.dependent "skill-1" ["skill-2"]) "How to test")
           (RuleBlock.mk (Examples.dependent "skill-2" ["skill-1"]) "How to build"));
    reflexivity.
Defined.

Section TriggerConflict.
Import VALIDATION_CODES.

Lemma prefix_append (p s : string) : String.prefix p (p +:+ s) = true.
Proof.
  induction p as [|c p IH]; simpl; [destruct s; reflexivity|].
  destruct (Ascii.ascii_dec c c) as [_|N]; [exact IH|contradiction].
Qed.

Lemma includes_prefix (p s : string) : JS.includes (p +:+ s) p = true.
Proof.
  destruct (p +:+ s) eqn:E; cbn [JS.includes]; rewrite <- E, prefix_append; reflexivity.
Qed.

Lemma includes_append (a s p : string) :
  JS.includes s p = true -> JS.includes (a +:+ s) p = true.
Proof.
  intros H. induction a as [|c a IH]; [exact H|].
  change (String c a +:+ s) with (String c (a +:+ s)).
  cbn [JS.includes]. rewrite IH. apply orb_true_r.
Qed.

Lemma prefix_append_r (p s b : string) :
  String.prefix p s = true -> String.prefix p (s +:+ b) = true.
Proof.
  revert s. induction p as [|c p IH]; intros s H; [destruct (s +:+ b); reflexivity|].
  destruct s as [|d s]; [discriminate H|].
  change (String d s +:+ b) with (String d (s +:+ b)).
  simpl in *. destruct (Ascii.ascii_dec c d); [auto|discriminate H].
Qed.

Lemma includes_append_r (s b p : string) :
  JS.includes s p = true -> JS.includes (s +:+ b) p = true.
Proof.
  induction s as [|c s IH]; intros H.
  - cbn [JS.includes] in H. rewrite orb_false_r in H.
    destruct p; [|discriminate H]. destruct (EmptyString +:+ b); reflexivity.
  - change (String c s +:+ b) with (String c (s +:+ b)).
    cbn [JS.includes] in *. apply orb_true_iff in H as [H|H].
    + change (String c (s +:+ b)) with (String c s +:+ b).
      rewrite (prefix_append_r _ _ _ H). reflexivity.
    + rewrite (IH H). apply orb_true_r.
Qed.

(** A quoted string names what it quotes. *)
Lemma includes_quoted (s : string) : JS.includes (Validators.quoted s) s = true.
Proof. unfold Validators.quoted. apply includes_append, includes_prefix. Qed.

(** The first loop on two commands that declare the same trigger. *)
Lemma same_trigger_errors (a b : RuleBlock.t) (t : string) :
  Metadata.type (RuleBlock.metadata a) = Some "command" ->
  Metadata.type (RuleBlock.metadata b) = Some "command" ->
  Metadata.trigger (RuleBlock.metadata a) = Some t ->
  Metadata.trigger (RuleBlock.metadata b) = Some t ->
  t <> EmptyString ->
  Metadata.id (RuleBlock.metadata a) <> EmptyString ->
  Group.triggerErrors (Group.buildIndex [a; b])
  = [Validators.error COMMAND_TRIGGER_CONFLICT
       ("Trigger " +:+ Validators.quoted t +:+ " conflicts with command "
          +:+ Validators.quoted (Metadata.id (RuleBlock.metadata a)))
       (Some "trigger")].
Proof.
  intros Hta Htb Ha Hb Ht Hid.
  apply String.eqb_neq in Ht. apply String.eqb_neq in Hid.
  unfold Group.buildIndex. cbn [fold_left].
  unfold Group.indexStep at 2. rewrite Hta, Ha.
  cbn [TypeDetector.typeIs JS.truthy Group.commandTriggers default from_option id].
  rewrite Ht, lookup_empty. cbn [String.eqb Ascii.eqb Bool.eqb andb negb JS.truthy].
  unfold Group.indexStep. rewrite Htb, Hb.
  cbn [TypeDetector.typeIs JS.truthy Group.commandTriggers default from_option id
       Group.triggerErrors].
  rewrite Ht, lookup_insert_eq. cbn [String.eqb Ascii.eqb Bool.eqb andb negb JS.truthy].
  rewrite Hid. reflexivity.
Qed.

End TriggerConflict.

(** C7 (as amended).  For a batch of two documents of type [command] that
    declare the same non-empty trigger, the first of which has a non-empty
    [id], [validateAbstractionGroup] returns exactly one error of code
    [COMMAND_TRIGGER_CONFLICT]; its message names the trigger and the id of
    the first document. *)
Theorem C7_trigger_conflict (a b : RuleBlock.t) (t : string)
    (Hta : Metadata.type (RuleBlock.metadata a) = Some "command")
    (Htb : Metadata.type (RuleBlock.metadata b) = Some "command")
    (Ha : Metadata.trigger (RuleBlock.metadata a) = Some t)
    (Hb : Metadata.trigger (RuleBlock.metadata b) = Some t)
    (Ht : t <> EmptyString)
    (Hid : Metadata.id (RuleBlock.metadata a) <> EmptyString) :
  exists r e,
    Group.validateAbstractionGroup [a; b] = Some r
    /\ List.filter
         (fun e => String.eqb (Issue.code e) VALIDATION_CODES.COMMAND_TRIGGER_CONFLICT)
         (ValidationResult.errors r) = [e]
    /\ Issue.field e = Some "trigger"
    /\ JS.includes (Issue.message e) t = true
    /\ JS.includes (Issue.message e) (Metadata.id (RuleBlock.metadata a)) = true.
Proof.
  destruct (validateAbstractionGroup_returns [a; b]) as (r & cycle & Hr & Hc & He & _).
  exists r. eexists. split; [exact Hr|].
  rewrite He, !List.filter_app.
  rewrite (filter_same_code _ _ (buildIndex_codes [a; b])).
  rewrite (filter_other_code _ _ _ (proj2 (cycleErrors_at_most_one _ _ Hc)))
    by discriminate.
  rewrite (filter_other_code _ _ _ (dependencyErrors_codes _ _)) by discriminate.
  rewrite (same_trigger_errors a b t Hta Htb Ha Hb Ht Hid).
  split; [reflexivity|]. split; [reflexivity|].
  cbn [Validators.error Issue.message]. split.
  - apply includes_append, includes_append_r, includes_quoted.
  - do 3 apply includes_append. apply includes_quoted.
Qed.

Lemma C7_trigger_conflict_witness :
  exists r e,
    Group.validateAbstractionGroup
      [RuleBlock.mk (Examples.command "command-1" "/build") "Execute build process";
       RuleBlock.mk (Examples.command "command-2" "/build") "Another build command"]
    = Some r
    /\ List.filter
         (fun e => String.eqb (Issue.code e) VALIDATION_CODES.COMMAND_TRIGGER_CONFLICT)
         (ValidationResult.errors r) = [e]
    /\ Issue.field e = Some "trigger"
    /\ JS.includes (Issue.message e) "/build" = true
    /\ JS.includes (Issue.message e) "command-1" = true.
Proof.
  apply (C7_trigger_conflict
           (RuleBlock.mk (Examples.command "command-1" "/build") "Execute build process")
           (RuleBlock.mk (Examples.command "command-2" "/build") "Another build command")
           "/build"); try reflexivity; discriminate.
Defined.

(** C7 as stated fails: for the two commands of the test suite the single
    [COMMAND_TRIGGER_CONFLICT] error names [command-1] but not [command-2]. *)
Lemma C7_second_id_not_named :
  ~ exists r e,
      Group.validateAbstractionGroup
        [RuleBlock.mk (Examples.command "command-1" "/build") "Execute build process";
         RuleBlock.mk (Examples.command "command-2" "/build") "Another build command"]
      = Some r
      /\ List.filter
           (fun e => String.eqb (Issue.code e) VALIDATION_CODES.COMMAND_TRIGGER_CONFLICT)
           (ValidationResult.errors r) = [e]
      /\ JS.includes (Issue.message e) "command-1" = true
      /\ JS.includes (Issue.message e) "command-2" = true.
Proof.
  intros (r & e & Hr & He & _ & H2).
  vm_compute in Hr. injection Hr as <-.
  vm_compute in He. injection He as <-.
  vm_compute in H2. discriminate H2.
Qed.

(** The truthiness test on [existingId] misses a first document whose [id]
    is the empty string: no conflict is reported then. *)
Lemma empty_id_hides_conflict :
  exists r,
    Group.validateAbstractionGroup
      [RuleBlock.mk (Examples.command EmptyString "/build") "Execute build process";
       RuleBlock.mk (Examples.command "command-2" "/build") "Another build command"]
    = Some r
    /\ ValidationResult.countCode VALIDATION_CODES.COMMAND_TRIGGER_CONFLICT r = 0.
Proof. eexists. split; [vm_compute; reflexivity|reflexivity]. Qed.

Section Coherence.

Lemma Ok_inj {A} (a b : A) : JS.Ok a = JS.Ok b -> a = b.
Proof. intros H. injection H. auto. Qed.

Lemma result_coherent (errors warnings : list Issue.t) (suggestions : list Suggestion.t) :
  ValidationResult.coherent (Validators.result errors warnings suggestions).
Proof. reflexivity. Qed.

Lemma validateSubAgent_coherent (m : Metadata.t) (c : string) (r : ValidationResult.t) :
  Validators.validateSubAgent m c = JS.Ok r -> ValidationResult.coherent r.
Proof.
  unfold Validators.validateSubAgent.
  destruct (match Metadata.tools m with
            | Some tools => (5 <? length tools)%nat
            | None => false
            end); [|discriminate].
  cbn [mbind Result_bind JS.bind mret Result_ret]. intros [= <-]. apply result_coherent.
Qed.

Lemma validateCommand_coherent (m : Metadata.t) (c : string) (r : ValidationResult.t) :
  Validators.validateCommand m c = JS.Ok r -> ValidationResult.coherent r.
Proof.
  unfold Validators.validateCommand. cbv zeta.
  destruct (negb (JS.truthy (Metadata.trigger m))).
  - cbn [mbind Result_bind JS.bind mret Result_ret]. intros [= <-]. apply result_coherent.
  - destruct (negb (JS.startsWith _ _)); [|discriminate].
    cbn [mbind Result_bind JS.bind mret Result_ret]. intros [= <-]. apply result_coherent.
Qed.

Lemma routeToSpecificValidator_coherent (ty : option string) (m : Metadata.t) (c : string)
    (r : ValidationResult.t) :
  Validators.routeToSpecificValidator ty m c = JS.Ok r -> ValidationResult.coherent r.
Proof.
  unfold Validators.routeToSpecificValidator.
  destruct (TypeDetector.typeIs ty "skill"); [intros [= <-]; apply result_coherent|].
  destruct (TypeDetector.typeIs ty "subagent"); [apply validateSubAgent_coherent|].
  destruct (TypeDetector.typeIs ty "command"); [apply validateCommand_coherent|].
  destruct (TypeDetector.typeIs ty "rule"); intros [= <-]; [apply result_coherent|].
  reflexivity.
Qed.

(** Appending a warning changes neither [valid] nor [errors]. *)
Lemma pushWarning_valid (r : ValidationResult.t) (w : Issue.t) :
  ValidationResult.valid (Validators.pushWarning r w) = ValidationResult.valid r
  /\ ValidationResult.errors (Validators.pushWarning r w) = ValidationResult.errors r.
Proof. split; reflexivity. Qed.

Lemma pushWarning_coherent (r : ValidationResult.t) (w : Issue.t) :
  ValidationResult.coherent r -> ValidationResult.coherent (Validators.pushWarning r w).
Proof. intros H. exact H. Qed.

Lemma validateAnyAbstraction_coherent (m : JS.nullable Metadata.t) (c : JS.nullable string)
    (r : ValidationResult.t) :
  Validators.validateAnyAbstraction m c = JS.Ok r -> ValidationResult.coherent r.
Proof.
  unfold Validators.validateAnyAbstraction.
  destruct m as [| |m]; [intros [= <-]; reflexivity..|].
  destruct c as [| |c]; [intros [= <-]; reflexivity..|].
  cbv zeta.
  destruct (Validators.routeToSpecificValidator _ m c) as [r0|e] eqn:E; [|discriminate].
  apply routeToSpecificValidator_coherent in E.
  cbn [mbind Result_bind JS.bind mret Result_ret].
  destruct (JS.truthy (Metadata.type m)); [|intros [= <-]; exact E].
  match goal with |- (if ?b then _ else _) = _ -> _ => destruct b end;
    unfold mret, Result_ret; intros H; apply Ok_inj in H; subst r;
    [apply pushWarning_coherent|]; exact E.
Qed.

(** The dispatcher returns the [valid] and the errors of the category
    validator it called: the mismatch warning goes to the warnings only. *)
Lemma validateAnyAbstraction_keeps_valid (m : Metadata.t) (c : string)
    (r : ValidationResult.t) :
  Validators.validateAnyAbstraction (JS.Value m) (JS.Value c) = JS.Ok r ->
  exists ty r0,
    Validators.routeToSpecificValidator ty m c = JS.Ok r0
    /\ ValidationResult.valid r = ValidationResult.valid r0
    /\ ValidationResult.errors r = ValidationResult.errors r0.
Proof.
  unfold Validators.validateAnyAbstraction. cbv zeta.
  generalize (TypeDetector.detectAbstractionType (RuleBlock.mk (Metadata.withoutType m) c)).
  intros ti.
  match goal with |- context [Validators.routeToSpecificValidator ?t _ _] =>
    exists t; generalize dependent t; intros ty end.
  destruct (Validators.routeToSpecificValidator ty m c) as [r0|e]; [|discriminate].
  cbn [mbind Result_bind JS.bind]. intros H. exists r0. split; [reflexivity|].
  destruct (JS.truthy (Metadata.type m)).
  - revert H. match goal with |- (if ?b then _ else _) = _ -> _ => destruct b end;
      intros H; apply Ok_inj in H; subst r; split; reflexivity.
  - apply Ok_inj in H. subst r. split; reflexivity.
Qed.

Lemma combineStep_coherent (combined result : ValidationResult.t) :
  ValidationResult.coherent combined -> ValidationResult.coherent result ->
  ValidationResult.coherent (Validators.combineStep combined result).
Proof.
  unfold ValidationResult.coherent, Validators.combineStep.
  cbn [ValidationResult.valid ValidationResult.errors].
  intros -> ->. rewrite length_app.
  destruct (length (ValidationResult.errors combined)),
    (length (ValidationResult.errors result)); reflexivity.
Qed.

Lemma combineValidationResults_coherent (results : list ValidationResult.t) :
  Forall ValidationResult.coherent results ->
  ValidationResult.coherent (Validators.combineValidationResults results).
Proof.
  unfold Validators.combineValidationResults.
  assert (G : forall acc, ValidationResult.coherent acc ->
              Forall ValidationResult.coherent results ->
              ValidationResult.coherent (fold_left Validators.combineStep results acc)).
  { induction results as [|r rs IH]; intros acc Hacc Hrs; [exact Hacc|].
    inversion Hrs; subst. cbn [fold_left]. apply IH; [|assumption].
    apply combineStep_coherent; assumption. }
  apply G. reflexivity.
Qed.

End Coherence.

(** C2.  Every result that a validation operation returns satisfies
    [valid == (errors.length == 0)].  The results handed to
    [combineValidationResults] are themselves [ValidationResult]s, for which
    the data model states the invariant: that is the hypothesis on the
    arguments.  And the warning that the dispatcher appends never changes
    [valid]: the dispatcher returns the [valid] and the errors of the
    category validator it called. *)
Theorem C2_valid_iff_no_errors (op : Operation) (r : ValidationResult.t)
    (Hret : returns op r)
    (Hargs : Forall ValidationResult.coherent (resultArguments op)) :
  ValidationResult.coherent r
  /\ (forall m c r',
        Validators.validateAnyAbstraction (JS.Value m) (JS.Value c) = JS.Ok r' ->
        exists ty r0,
          Validators.routeToSpecificValidator ty m c = JS.Ok r0
          /\ ValidationResult.valid r' = ValidationResult.valid r0
          /\ ValidationResult.errors r' = ValidationResult.errors r0)
  /\ (forall w, ValidationResult.valid (Validators.pushWarning r w)
                = ValidationResult.valid r
                /\ ValidationResult.coherent (Validators.pushWarning r w)).
Proof.
  assert (H : ValidationResult.coherent r).
  { destruct op as [m c|m c|m c|m c|m c|l|l]; cbn [returns resultArguments] in *.
    - subst r. apply result_coherent.
    - eapply validateSubAgent_coherent, Hret.
    - eapply validateCommand_coherent, Hret.
    - subst r. apply result_coherent.
    - eapply validateAnyAbstraction_coherent, Hret.
    - destruct (validateAbstractionGroup_returns l) as (r' & _ & E & _ & _ & H).
      congruence.
    - subst r. apply combineValidationResults_coherent, Hargs. }
  split; [exact H|]. split.
  - intros m c r' Hr'. exact (validateAnyAbstraction_keeps_valid m c r' Hr').
  - intros w. split; [reflexivity|]. apply pushWarning_coherent, H.
Qed.

Lemma C2_valid_iff_no_errors_witness :
  ValidationResult.coherent
    (Validators.combineValidationResults
       [Validators.validateRule (Metadata.bare "test-rule") "Always be helpful";
        Validators.missingField "Content is required for validation"]).
Proof.
  refine (proj1 (C2_valid_iff_no_errors
                   (OpCombineValidationResults
                      [Validators.validateRule (Metadata.bare "test-rule")
                         "Always be helpful";
                       Validators.missingField "Content is required for validation"])
                   _ eq_refl _)).
  cbn [resultArguments].
  constructor; [vm_compute; reflexivity|].
  constructor; [reflexivity|constructor].
Defined.

(** ** The operations leave the caller's objects alone *)

Section Frame.
Import Store.
Variable h0 : Store.t.

Lemma keeps_ret {A} (a : A) (post : A -> Prop) : post a -> keeps h0 (mret a) post.
Proof. intros Ha h Hh. split; [exact Hh|]. cbn. intros a' [= <-]. exact Ha. Qed.

Lemma keeps_throw {A} (e : JS.Error) (post : A -> Prop) : keeps h0 (throw e) post.
Proof. intros h Hh. split; [exact Hh|]. cbn. discriminate. Qed.

Lemma keeps_lift {A} (r : JS.Result A) : keeps h0 (lift r) (fun a => r = JS.Ok a).
Proof. intros h Hh. split; [exact Hh|]. cbn. auto. Qed.

Lemma keeps_bind {A B} (m : M A) (k : A -> M B) (mid : A -> Prop) (post : B -> Prop) :
  keeps h0 m mid -> (forall a, mid a -> keeps h0 (k a) post) -> keeps h0 (a ← m; k a) post.
Proof.
  intros Hm Hk h Hh. destruct (Hm h Hh) as [H1 H2].
  unfold mbind, Store_bind, bind. destruct (m h) as [[a|e] h'] eqn:E; cbn in *.
  - apply (Hk a (H2 a eq_refl) h' H1).
  - split; [exact H1|discriminate].
Qed.

Lemma keeps_weaken {A} (m : M A) (post post' : A -> Prop) :
  keeps h0 m post -> (forall a, post a -> post' a) -> keeps h0 m post'.
Proof. intros Hm Hp h Hh. destruct (Hm h Hh) as [H1 H2]. split; auto. Qed.

(** An allocation extends the store at a reference that [h0] does not use. *)
Lemma keeps_alloc (o : object) : keeps h0 (alloc o) (unused h0).
Proof.
  intros h Hh. unfold alloc. cbn.
  assert (Hfresh : h !! fresh (dom h) = None).
  { apply not_elem_of_dom, is_fresh. }
  assert (Hun : h0 !! fresh (dom h) = None).
  { destruct (h0 !! fresh (dom h)) as [o'|] eqn:E; [|reflexivity].
    pose proof (lookup_weaken _ _ _ _ E Hh) as E'.
    discriminate (eq_trans (eq_sym E') Hfresh). }
  split.
  - apply insert_subseteq_r; assumption.
  - intros a [= <-]. exact Hun.
Qed.

Lemma keeps_load (l : ref) : keeps h0 (load l) (fun _ => True).
Proof. intros h Hh. unfold load. destruct (h !! l); cbn; auto. Qed.

(** A write is harmless when it goes to a reference that [h0] does not use. *)
Lemma keeps_store (l : ref) (o : object) : unused h0 l -> keeps h0 (store l o) (fun _ => True).
Proof.
  intros Hl h Hh. unfold store. cbn. split; [|auto].
  apply insert_subseteq_r; assumption.
Qed.

Lemma keeps_loadMeta (l : ref) : keeps h0 (StoreOps.loadMeta l) (fun _ => True).
Proof.
  unfold StoreOps.loadMeta. eapply keeps_bind; [apply keeps_load|].
  intros [m|? ?|?|?] _; first [apply keeps_ret; exact I | apply keeps_throw].
Qed.

Lemma keeps_loadBlock (l : ref) : keeps h0 (StoreOps.loadBlock l) (fun _ => True).
Proof.
  unfold StoreOps.loadBlock. eapply keeps_bind; [apply keeps_load|].
  intros [m|? ?|?|?] _; first [apply keeps_ret; exact I | apply keeps_throw].
Qed.

Lemma keeps_loadBatch (l : ref) : keeps h0 (StoreOps.loadBatch l) (fun _ => True).
Proof.
  unfold StoreOps.loadBatch. eapply keeps_bind; [apply keeps_load|].
  intros [m|? ?|?|?] _; first [apply keeps_ret; exact I | apply keeps_throw].
Qed.

Lemma keeps_loadRes (l : ref) : keeps h0 (StoreOps.loadRes l) (fun _ => True).
Proof.
  unfold StoreOps.loadRes. eapply keeps_bind; [apply keeps_load|].
  intros [m|? ?|?|?] _; first [apply keeps_ret; exact I | apply keeps_throw].
Qed.

Lemma keeps_loadRule (l : ref) : keeps h0 (StoreOps.loadRule l) (fun _ => True).
Proof.
  unfold StoreOps.loadRule. eapply keeps_bind; [apply keeps_loadBlock|].
  intros mc _. eapply keeps_bind; [apply keeps_loadMeta|].
  intros m _. apply keeps_ret. exact I.
Qed.

Lemma keeps_loadRules (items : list ref) : keeps h0 (StoreOps.loadRules items) (fun _ => True).
Proof.
  induction items as [|l items IH]; cbn [StoreOps.loadRules]; [apply keeps_ret; exact I|].
  eapply keeps_bind; [apply keeps_loadRule|]. intros b _.
  eapply keeps_bind; [apply IH|]. intros bs _. apply keeps_ret. exact I.
Qed.

Lemma keeps_analyzeMetadata (metadata : ref) :
  keeps h0 (StoreOps.analyzeMetadata metadata) (fun _ => True).
Proof.
  unfold StoreOps.analyzeMetadata. eapply keeps_bind; [apply keeps_loadMeta|].
  intros m _. apply keeps_ret. exact I.
Qed.

Lemma keeps_analyzeRuleContent (content : string) :
  keeps h0 (StoreOps.analyzeRuleContent content) (fun _ => True).
Proof. apply keeps_ret. exact I. Qed.

Lemma keeps_detectAbstractionType (rule : ref) :
  keeps h0 (StoreOps.detectAbstractionType rule) (fun _ => True).
Proof.
  unfold StoreOps.detectAbstractionType. eapply keeps_bind; [apply keeps_loadRule|].
  intros b _. apply keeps_ret. exact I.
Qed.

(** A category validator reads the metadata and returns a new object. *)
Lemma keeps_validateSkill (metadata : ref) (content : string) :
  keeps h0 (StoreOps.validateSkill metadata content) (unused h0).
Proof.
  unfold StoreOps.validateSkill. eapply keeps_bind; [apply keeps_loadMeta|].
  intros m _. apply keeps_alloc.
Qed.

Lemma keeps_validateSubAgent (metadata : ref) (content : string) :
  keeps h0 (StoreOps.validateSubAgent metadata content) (unused h0).
Proof.
  unfold StoreOps.validateSubAgent. eapply keeps_bind; [apply keeps_loadMeta|].
  intros m _. eapply keeps_bind; [apply keeps_lift|].
  intros r _. apply keeps_alloc.
Qed.

Lemma keeps_validateCommand (metadata : ref) (content : string) :
  keeps h0 (StoreOps.validateCommand metadata content) (unused h0).
Proof.
  unfold StoreOps.validateCommand. eapply keeps_bind; [apply keeps_loadMeta|].
  intros m _. eapply keeps_bind; [apply keeps_lift|].
  intros r _. apply keeps_alloc.
Qed.

Lemma keeps_validateRule (metadata : ref) (content : string) :
  keeps h0 (StoreOps.validateRule metadata content) (unused h0).
Proof.
  unfold StoreOps.validateRule. eapply keeps_bind; [apply keeps_loadMeta|].
  intros m _. apply keeps_alloc.
Qed.

Lemma keeps_routeToSpecificValidator (type : option string) (metadata : ref)
    (content : string) :
  keeps h0 (StoreOps.routeToSpecificValidator type metadata content) (unused h0).
Proof.
  unfold StoreOps.routeToSpecificValidator.
  destruct (TypeDetector.typeIs type "skill"); [apply keeps_validateSkill|].
  destruct (TypeDetector.typeIs type "subagent"); [apply keeps_validateSubAgent|].
  destruct (TypeDetector.typeIs type "command"); [apply keeps_validateCommand|].
  destruct (TypeDetector.typeIs type "rule"); [apply keeps_validateRule|].
  apply keeps_alloc.
Qed.

(** The dispatcher writes to the result of the category validator, which is
    new, and reads everything else; the metadata without [type] is a new
    object. *)
Lemma keeps_validateAnyAbstraction (metadata : JS.nullable ref)
    (content : JS.nullable string) :
  keeps h0 (StoreOps.validateAnyAbstraction metadata content) (unused h0).
Proof.
  unfold StoreOps.validateAnyAbstraction.
  destruct metadata as [| |metadata]; [apply keeps_alloc..|].
  destruct content as [| |content]; [apply keeps_alloc..|].
  eapply keeps_bind; [apply keeps_loadMeta|]. intros m _.
  eapply (keeps_bind _ _ (fun _ => True)).
  { destruct (JS.truthy (Metadata.type m)); [apply keeps_ret; exact I|].
    eapply keeps_bind; [apply keeps_alloc|]. intros ruleBlock _.
    eapply keeps_bind; [apply keeps_detectAbstractionType|]. intros typeInfo _.
    apply keeps_ret. exact I. }
  intros detectedType _.
  eapply keeps_bind; [apply keeps_routeToSpecificValidator|]. intros result Hresult.
  destruct (JS.truthy (Metadata.type m)); [|apply keeps_ret; exact Hresult].
  eapply keeps_bind; [apply keeps_alloc|]. intros metadataWithoutType _.
  eapply keeps_bind; [apply keeps_alloc|]. intros ruleBlock _.
  eapply keeps_bind; [apply keeps_detectAbstractionType|]. intros typeInfo _.
  match goal with |- keeps _ (if ?b then _ else _) _ => destruct b end;
    [|apply keeps_ret; exact Hresult].
  eapply keeps_bind; [apply keeps_loadRes|]. intros r _.
  eapply keeps_bind; [apply keeps_store; exact Hresult|]. intros _ _.
  apply keeps_ret. exact Hresult.
Qed.

Lemma keeps_validateAbstractionGroup (abstractions : ref) :
  keeps h0 (StoreOps.validateAbstractionGroup abstractions) (unused h0).
Proof.
  unfold StoreOps.validateAbstractionGroup.
  eapply keeps_bind; [apply keeps_loadBatch|]. intros items _.
  eapply keeps_bind; [apply keeps_loadRules|]. intros blocks _.
  destruct (Group.validateAbstractionGroup blocks); [apply keeps_alloc|apply keeps_throw].
Qed.

End Frame.

(** C9.  No classification or validation operation changes an object of
    the caller: every object of the store before the call (the metadata, the
    documents, the batch) is in the store, unchanged, when the call returns
    or throws.  The dispatcher strips [type] on a copy. *)
Theorem C9_inputs_not_mutated (call : StoreOps.Call) (h : Store.t) :
  h ⊆ StoreOps.after call h.
Proof.
  destruct call; cbn [StoreOps.after].
  - apply (keeps_detectAbstractionType h rule h). reflexivity.
  - apply (keeps_analyzeRuleContent h content h). reflexivity.
  - apply (keeps_analyzeMetadata h metadata h). reflexivity.
  - apply (keeps_validateSkill h metadata content h). reflexivity.
  - apply (keeps_validateSubAgent h metadata content h). reflexivity.
  - apply (keeps_validateCommand h metadata content h). reflexivity.
  - apply (keeps_validateRule h metadata content h). reflexivity.
  - apply (keeps_validateAnyAbstraction h metadata content h). reflexivity.
  - apply (keeps_validateAbstractionGroup h abstractions h). reflexivity.
Qed.


(** ** The operations over references compute what the functions over
    values compute *)

Section Agreement.
Import Store.

Lemma lookup_after_alloc (h : Store.t) (l : ref) (o o' : object) :
  h !! l = Some o -> <[fresh (dom h) := o']> h !! l = Some o.
Proof.
  intros H. rewrite lookup_insert_ne; [exact H|].
  intros E. subst l. pose proof (is_fresh (dom h)) as F.
  apply F, elem_of_dom. eexists. exact H.
Qed.

Lemma loadMeta_eq (h : Store.t) (l : ref) (m : Metadata.t) :
  h !! l = Some (Meta m) -> StoreOps.loadMeta l h = (JS.Ok m, h).
Proof.
  intros H. unfold StoreOps.loadMeta, mbind, Store_bind, bind, load. rewrite H. reflexivity.
Qed.

Lemma loadRule_eq (h : Store.t) (l : ref) (b : RuleBlock.t) :
  StoreOps.holds h l b -> StoreOps.loadRule l h = (JS.Ok b, h).
Proof.
  intros (ml & H1 & H2).
  unfold StoreOps.loadRule, StoreOps.loadBlock, mbind, Store_bind, bind, load.
  rewrite H1. cbn. rewrite (loadMeta_eq _ _ _ H2). destruct b; reflexivity.
Qed.

Lemma detectAbstractionType_eq (h : Store.t) (l : ref) (b : RuleBlock.t) :
  StoreOps.holds h l b ->
  StoreOps.detectAbstractionType l h = (JS.Ok (TypeDetector.detectAbstractionType b), h).
Proof.
  intros H. unfold StoreOps.detectAbstractionType, mbind, Store_bind, bind.
  rewrite (loadRule_eq _ _ _ H). reflexivity.
Qed.

Lemma alloc_yields (h : Store.t) (r : ValidationResult.t) :
  StoreOps.yields (alloc (Res r) h) (JS.Ok r).
Proof. eexists. split; [reflexivity|]. cbn. apply lookup_insert_eq. Qed.

Lemma routeToSpecificValidator_yields (h : Store.t) (l : ref) (m : Metadata.t)
    (ty : option string) (c : string) :
  h !! l = Some (Meta m) ->
  StoreOps.yields (StoreOps.routeToSpecificValidator ty l c h)
    (Validators.routeToSpecificValidator ty m c)
  /\ forall l' o, h !! l' = Some o ->
                  snd (StoreOps.routeToSpecificValidator ty l c h) !! l' = Some o.
Proof.
  intros H. unfold StoreOps.routeToSpecificValidator, Validators.routeToSpecificValidator.
  unfold StoreOps.validateSkill, StoreOps.validateSubAgent, StoreOps.validateCommand,
    StoreOps.validateRule, mbind, Store_bind, bind.
  destruct (TypeDetector.typeIs ty "skill").
  { rewrite (loadMeta_eq _ _ _ H). split; [apply alloc_yields|].
    intros l' o Hl. apply lookup_after_alloc, Hl. }
  destruct (TypeDetector.typeIs ty "subagent").
  { rewrite (loadMeta_eq _ _ _ H). unfold lift.
    destruct (Validators.validateSubAgent m c) as [r|e];
      [split; [apply alloc_yields|intros l' o Hl; apply lookup_after_alloc, Hl]|].
    split; [reflexivity|auto]. }
  destruct (TypeDetector.typeIs ty "command").
  { rewrite (loadMeta_eq _ _ _ H). unfold lift.
    destruct (Validators.validateCommand m c) as [r|e];
      [split; [apply alloc_yields|intros l' o Hl; apply lookup_after_alloc, Hl]|].
    split; [reflexivity|auto]. }
  destruct (TypeDetector.typeIs ty "rule").
  { rewrite (loadMeta_eq _ _ _ H). split; [apply alloc_yields|].
    intros l' o Hl. apply lookup_after_alloc, Hl. }
  split; [apply alloc_yields|]. intros l' o Hl. apply lookup_after_alloc, Hl.
Qed.

Lemma holds_after_alloc (h : Store.t) (ml : ref) (m : Metadata.t) (c : string) :
  h !! ml = Some (Meta m) ->
  StoreOps.holds (<[fresh (dom h) := Block ml c]> h) (fresh (dom h)) (RuleBlock.mk m c).
Proof.
  intros H. exists ml. cbn. split; [apply lookup_insert_eq|].
  apply lookup_after_alloc, H.
Qed.

Lemma bind_eq {A B} (m : M A) (k : A -> M B) (h h' : Store.t) (a : A) :
  m h = (JS.Ok a, h') -> (m ≫= k) h = k a h'.
Proof. intros E. unfold mbind, Store_bind, bind. rewrite E. reflexivity. Qed.

Lemma bind_throw {A B} (m : M A) (k : A -> M B) (h h' : Store.t) (e : JS.Error) :
  m h = (JS.Throw e, h') -> (m ≫= k) h = (JS.Throw e, h').
Proof. intros E. unfold mbind, Store_bind, bind. rewrite E. reflexivity. Qed.

Lemma alloc_eq (h : Store.t) (o : object) :
  alloc o h = (JS.Ok (fresh (dom h)), <[fresh (dom h) := o]> h).
Proof. reflexivity. Qed.

Lemma loadRes_eq (h : Store.t) (l : ref) (r : ValidationResult.t) :
  h !! l = Some (Res r) -> StoreOps.loadRes l h = (JS.Ok r, h).
Proof.
  intros H. unfold StoreOps.loadRes, mbind, Store_bind, bind, load. rewrite H. reflexivity.
Qed.

(** What the category validator leaves: its outcome as a reference, and the
    objects that were there. *)
Lemma routeToSpecificValidator_runs (h : Store.t) (l : ref) (m : Metadata.t)
    (ty : option string) (c : string) :
  h !! l = Some (Meta m) ->
  match Validators.routeToSpecificValidator ty m c with
  | JS.Ok r =>
      exists lr h2, StoreOps.routeToSpecificValidator ty l c h = (JS.Ok lr, h2)
                    /\ h2 !! lr = Some (Res r)
  | JS.Throw e =>
      exists h2, StoreOps.routeToSpecificValidator ty l c h = (JS.Throw e, h2)
  end.
Proof.
  intros H. destruct (routeToSpecificValidator_yields h l m ty c H) as [Hy _].
  destruct (StoreOps.routeToSpecificValidator ty l c h) as [res h2].
  destruct (Validators.routeToSpecificValidator ty m c) as [r|e]; cbn in Hy.
  - destruct Hy as (lr & -> & Hlr). eauto.
  - subst res. eauto.
Qed.

Lemma Result_bind_ok {A B} (a : A) (k : A -> JS.Result B) : (JS.Ok a ≫= k) = k a.
Proof. reflexivity. Qed.

(** The dispatcher over references does what the dispatcher over values
    does on the metadata that the reference holds. *)
Lemma validateAnyAbstraction_yields (h : Store.t) (l : ref) (m : Metadata.t) (c : string) :
  h !! l = Some (Meta m) ->
  StoreOps.yields (StoreOps.validateAnyAbstraction (JS.Value l) (JS.Value c) h)
    (Validators.validateAnyAbstraction (JS.Value m) (JS.Value c)).
Proof.
  intros H. unfold StoreOps.validateAnyAbstraction, Validators.validateAnyAbstraction.
  rewrite (bind_eq _ _ _ _ _ (loadMeta_eq _ _ _ H)).
  destruct (JS.truthy (Metadata.type m)) eqn:T.
  - rewrite (bind_eq (mret (Metadata.type m)) _ h h _ eq_refl).
    pose proof (routeToSpecificValidator_runs h l m (Metadata.type m) c H) as Hr.
    destruct (Validators.routeToSpecificValidator (Metadata.type m) m c) as [r|e].
    + destruct Hr as (lr & h2 & E & Hlr). rewrite (bind_eq _ _ _ _ _ E).
      rewrite (bind_eq _ _ _ _ _ (alloc_eq _ _)).
      set (h3 := <[fresh (dom h2) := Meta (Metadata.withoutType m)]> h2).
      rewrite (bind_eq _ _ _ _ _ (alloc_eq _ _)).
      set (h4 := <[fresh (dom h3) := Block (fresh (dom h2)) c]> h3).
      assert (Hd : StoreOps.holds h4 (fresh (dom h3))
                     (RuleBlock.mk (Metadata.withoutType m) c)).
      { apply holds_after_alloc. apply lookup_insert_eq. }
      rewrite (bind_eq _ _ _ _ _ (detectAbstractionType_eq _ _ _ Hd)).
      assert (H4 : h4 !! lr = Some (Res r)).
      { apply lookup_after_alloc, lookup_after_alloc, Hlr. }
      rewrite Result_bind_ok.
      generalize (TypeDetector.detectAbstractionType
                    (RuleBlock.mk (Metadata.withoutType m) c)).
      intros ti.
      match goal with |- context [if ?b then _ else _] => destruct b end.
      * rewrite (bind_eq _ _ _ _ _ (loadRes_eq _ _ _ H4)).
        eexists. split; [reflexivity|]. cbn. apply lookup_insert_eq.
      * eexists. split; [reflexivity|]. exact H4.
    + destruct Hr as (h2 & E). rewrite (bind_throw _ _ _ _ _ E). reflexivity.
  - set (h1 := <[fresh (dom h) := Block l c]> h).
    assert (E1 : (ruleBlock ← alloc (Block l c);
                  typeInfo ← StoreOps.detectAbstractionType ruleBlock;
                  mret (AbstractionTypeInfo.type typeInfo)) h
                 = (JS.Ok (AbstractionTypeInfo.type
                             (TypeDetector.detectAbstractionType (RuleBlock.mk m c))), h1)).
    { rewrite (bind_eq _ _ _ _ _ (alloc_eq _ _)).
      rewrite (bind_eq _ _ _ _ _
                 (detectAbstractionType_eq _ _ _ (holds_after_alloc h l m c H))).
      reflexivity. }
    rewrite (bind_eq _ _ _ _ _ E1).
    assert (H1 : h1 !! l = Some (Meta m)) by apply lookup_after_alloc, H.
    pose proof (routeToSpecificValidator_runs h1 l m
                  (AbstractionTypeInfo.type
                     (TypeDetector.detectAbstractionType (RuleBlock.mk m c))) c H1) as Hr.
    destruct (Validators.routeToSpecificValidator _ m c) as [r|e].
    + destruct Hr as (lr & h2 & E & Hlr). rewrite (bind_eq _ _ _ _ _ E).
      eexists. split; [reflexivity|exact Hlr].
    + destruct Hr as (h2 & E). rewrite (bind_throw _ _ _ _ _ E). reflexivity.
Qed.

Lemma loadRules_eq (h : Store.t) (items : list ref) (blocks : list RuleBlock.t) :
  Forall2 (StoreOps.holds h) items blocks ->
  StoreOps.loadRules items h = (JS.Ok blocks, h).
Proof.
  induction 1 as [|l b items blocks Hl _ IH]; [reflexivity|].
  cbn [StoreOps.loadRules]. unfold mbind, Store_bind, bind in *.
  rewrite (loadRule_eq _ _ _ Hl), IH. reflexivity.
Qed.

(** The group validator over references returns the result of the group
    validator over values on the documents that the batch holds. *)
Lemma validateAbstractionGroup_yields (h : Store.t) (l : ref) (items : list ref)
    (blocks : list RuleBlock.t) (r : ValidationResult.t) :
  h !! l = Some (Batch items) ->
  Forall2 (StoreOps.holds h) items blocks ->
  Group.validateAbstractionGroup blocks = Some r ->
  StoreOps.yields (StoreOps.validateAbstractionGroup l h) (JS.Ok r).
Proof.
  intros Hl Hitems Hr.
  unfold StoreOps.validateAbstractionGroup, StoreOps.loadBatch, mbind, Store_bind, bind, load.
  rewrite Hl. cbn. rewrite (loadRules_eq _ _ _ Hitems), Hr. apply alloc_yields.
Qed.

End Agreement.

(** * Further properties of the classifier *)

Section ClassifierFacts.
Local Open Scope Q_scope.

Lemma findKey_unfold (s : Scores.t) (m : Q) :
  Scores.findKey s m
  = if Qeq_bool (Scores.skill s) m then Some "skill"
    else if Qeq_bool (Scores.subagent s) m then Some "subagent"
    else if Qeq_bool (Scores.command s) m then Some "command"
    else if Qeq_bool (Scores.rule s) m then Some "rule"
    else None.
Proof. reflexivity. Qed.

Lemma Qeq_bool_true (x y : Q) : x == y -> Qeq_bool x y = true.
Proof. apply Qeq_bool_iff. Qed.

Lemma Qeq_bool_false_lt (x y : Q) : x < y -> Qeq_bool x y = false.
Proof.
  intros H. destruct (Qeq_bool x y) eqn:E; [|reflexivity].
  apply Qeq_bool_iff in E. rewrite E in H. exfalso. exact (Qlt_irrefl _ H).
Qed.

(** The maximum is always the score of one of the four keys. *)
Lemma findKey_max (s : Scores.t) :
  exists k, Scores.findKey s (Scores.maxValue s) = Some k /\ In k Scores.keys.
Proof.
  rewrite findKey_unfold.
  destruct (Qeq_bool (Scores.skill s) _) eqn:E1; [eexists; split; [reflexivity|cbn; auto]|].
  destruct (Qeq_bool (Scores.subagent s) _) eqn:E2;
    [eexists; split; [reflexivity|cbn; auto]|].
  destruct (Qeq_bool (Scores.command s) _) eqn:E3;
    [eexists; split; [reflexivity|cbn; auto]|].
  destruct (Qeq_bool (Scores.rule s) _) eqn:E4;
    [eexists; split; [reflexivity|cbn; auto 6]|].
  exfalso. destruct (maxValue_attained s) as [E|[E|[E|E]]];
    symmetry in E; apply Qeq_bool_true in E; congruence.
Qed.

(** What [detectAbstractionType] does when [metadata.type] is absent or
    empty. *)
Lemma detectAbstractionType_falsy (rule : RuleBlock.t) :
  JS.truthy (Metadata.type (RuleBlock.metadata rule)) = false ->
  let scores := TypeDetector.normalizeScores (rawScoresOf rule) in
  let maxScore := Scores.maxValue scores in
  let detectedType := Scores.findKey scores maxScore in
  TypeDetector.detectAbstractionType rule
  = AbstractionTypeInfo.mk detectedType
      (if TypeDetector.typeIs detectedType "rule" then Qmax maxScore 0.5 else maxScore)
      (TypeDetector.gatherIndicators detectedType
         (TypeDetector.analyzeRuleContent (RuleBlock.content rule))
         (TypeDetector.analyzeMetadata (RuleBlock.metadata rule))).
Proof.
  intros H. unfold TypeDetector.detectAbstractionType.
  assert (E : MetadataAnalysis.explicitType
                (TypeDetector.analyzeMetadata (RuleBlock.metadata rule)) = None).
  { unfold TypeDetector.analyzeMetadata. rewrite H. reflexivity. }
  rewrite E. reflexivity.
Qed.

Lemma detect_type_falsy (rule : RuleBlock.t) :
  JS.truthy (Metadata.type (RuleBlock.metadata rule)) = false ->
  AbstractionTypeInfo.type (TypeDetector.detectAbstractionType rule)
  = Scores.findKey (TypeDetector.normalizeScores (rawScoresOf rule))
      (Scores.maxValue (TypeDetector.normalizeScores (rawScoresOf rule))).
Proof. intros H. rewrite (detectAbstractionType_falsy rule H). reflexivity. Qed.

(** What it does when [metadata.type] is a non-empty string. *)
Lemma detectAbstractionType_truthy (rule : RuleBlock.t) (ty : string) :
  Metadata.type (RuleBlock.metadata rule) = Some ty -> ty <> EmptyString ->
  TypeDetector.detectAbstractionType rule
  = AbstractionTypeInfo.mk (Some ty) 1 ["explicit type: " +:+ ty; "metadata.type: " +:+ ty].
Proof.
  intros H Hne. apply String.eqb_neq in Hne.
  unfold TypeDetector.detectAbstractionType, TypeDetector.analyzeMetadata.
  rewrite H. cbn [JS.truthy]. rewrite Hne.
  cbn [negb MetadataAnalysis.explicitType MetadataAnalysis.confidence
       MetadataAnalysis.typeHints JS.truthy].
  rewrite Hne. reflexivity.
Qed.

(** When no raw score is positive, the scores after the floor are those
    of a fallback to [rule]. *)
Lemma normalizeScores_fallback (s : Scores.t) :
  Scores.maxValue s <= 0 ->
  Scores.maxValue (TypeDetector.normalizeScores s) == 0.3
  /\ Scores.findKey (TypeDetector.normalizeScores s)
       (Scores.maxValue (TypeDetector.normalizeScores s)) = Some "rule".
Proof.
  intros Hle. destruct (maxValue_ge s) as (H1 & H2 & H3 & H4).
  assert (B : Qle_bool (Scores.maxValue s) 0 = true) by (apply Qle_bool_iff, Hle).
  unfold TypeDetector.normalizeScores. rewrite B. cbn [negb].
  set (n := Scores.mk _ _ _ _).
  assert (Hr : Scores.rule n == 0.3).
  { cbn. apply Q.max_r. eapply Qle_trans; [exact H4|].
    eapply Qle_trans; [exact Hle|discriminate]. }
  assert (Hm : Scores.maxValue n == 0.3).
  { apply Qle_antisym.
    - apply maxValue_le; cbn [n Scores.skill Scores.subagent Scores.command].
      + eapply Qle_trans; [exact H1|]. eapply Qle_trans; [exact Hle|discriminate].
      + eapply Qle_trans; [exact H2|]. eapply Qle_trans; [exact Hle|discriminate].
      + eapply Qle_trans; [exact H3|]. eapply Qle_trans; [exact Hle|discriminate].
      + rewrite Hr. apply Qle_refl.
    - rewrite <- Hr. apply (maxValue_ge n). }
  split; [exact Hm|].
  assert (Hlow : forall x, x <= Scores.maxValue s -> Qeq_bool x (Scores.maxValue n) = false).
  { intros x Hx. apply Qeq_bool_false_lt. rewrite Hm.
    eapply Qle_lt_trans; [exact Hx|]. eapply Qle_lt_trans; [exact Hle|reflexivity]. }
  rewrite findKey_unfold. cbn [n Scores.skill Scores.subagent Scores.command].
  rewrite (Hlow _ H1), (Hlow _ H2), (Hlow _ H3).
  rewrite (Qeq_bool_true (Scores.rule n) (Scores.maxValue n)); [reflexivity|].
  rewrite Hr, Hm. reflexivity.
Qed.

End ClassifierFacts.

(** X1.  Every classification has a confidence of 1 or of 0.5, and 0.5 only
    for the fallback to [rule]: an explicit type gives 1, a positive raw
    score gives 1 after normalisation, and otherwise the rule floor wins and
    is lifted to 0.5. *)
Theorem detect_confidence_one_or_half (rule : RuleBlock.t) :
  (AbstractionTypeInfo.confidence (TypeDetector.detectAbstractionType rule) == 1)%Q
  \/ ((AbstractionTypeInfo.confidence (TypeDetector.detectAbstractionType rule) == 0.5)%Q
      /\ AbstractionTypeInfo.type (TypeDetector.detectAbstractionType rule) = Some "rule").
Proof.
  destruct (JS.truthy (Metadata.type (RuleBlock.metadata rule))) eqn:T.
  - left. destruct (Metadata.type (RuleBlock.metadata rule)) as [ty|] eqn:E;
      [|discriminate T].
    rewrite (detectAbstractionType_truthy rule ty E); [reflexivity|].
    intros ->. discriminate T.
  - rewrite (detectAbstractionType_falsy rule T). cbn [AbstractionTypeInfo.confidence
      AbstractionTypeInfo.type].
    destruct (Qlt_le_dec 0 (Scores.maxValue (rawScoresOf rule))) as [Hpos|Hle].
    + left. pose proof (normalizeScores_max_one _ Hpos) as Hone.
      destruct (TypeDetector.typeIs _ "rule"); [|exact Hone].
      apply Qle_antisym.
      * apply Q.max_lub; [rewrite Hone; apply Qle_refl | discriminate].
      * rewrite <- Hone at 1. apply Q.le_max_l.
    + right. destruct (normalizeScores_fallback _ Hle) as [Hm Hk].
      rewrite Hk. cbn [TypeDetector.typeIs String.eqb Ascii.eqb Bool.eqb].
      split; [|reflexivity].
      apply Q.max_r. rewrite Hm. discriminate.
Qed.

(** X2.  The type of a classification is never [undefined]: it is the
    declared type when [metadata.type] is a non-empty string, and one of
    [skill], [subagent], [command], [rule] otherwise. *)
Theorem detect_type_defined (rule : RuleBlock.t) :
  (JS.truthy (Metadata.type (RuleBlock.metadata rule)) = true
   /\ AbstractionTypeInfo.type (TypeDetector.detectAbstractionType rule)
      = Metadata.type (RuleBlock.metadata rule))
  \/ (JS.truthy (Metadata.type (RuleBlock.metadata rule)) = false
      /\ exists k, AbstractionTypeInfo.type (TypeDetector.detectAbstractionType rule) = Some k
                   /\ In k ["skill"; "subagent"; "command"; "rule"]).
Proof.
  destruct (JS.truthy (Metadata.type (RuleBlock.metadata rule))) eqn:T.
  - left. split; [reflexivity|].
    destruct (Metadata.type (RuleBlock.metadata rule)) as [ty|] eqn:E; [|discriminate T].
    rewrite (detectAbstractionType_truthy rule ty E); [reflexivity|].
    intros ->. discriminate T.
  - right. split; [reflexivity|].
    rewrite (detectAbstractionType_falsy rule T). cbn [AbstractionTypeInfo.type].
    apply findKey_max.
Qed.

(** X3.  A classification carries at most five indicators. *)
Theorem detect_indicators_at_most_five (rule : RuleBlock.t) :
  length (AbstractionTypeInfo.indicators (TypeDetector.detectAbstractionType rule)) <= 5.
Proof.
  destruct (JS.truthy (Metadata.type (RuleBlock.metadata rule))) eqn:T.
  - destruct (Metadata.type (RuleBlock.metadata rule)) as [ty|] eqn:E; [|discriminate T].
    rewrite (detectAbstractionType_truthy rule ty E); [cbn; lia|].
    intros ->. discriminate T.
  - rewrite (detectAbstractionType_falsy rule T). cbn [AbstractionTypeInfo.indicators].
    unfold TypeDetector.gatherIndicators, JS.slice0. apply firstn_le_length.
Qed.

Section KeyOrder.
Local Open Scope Q_scope.

(** A score other than the maximum is below it. *)
Lemma below_max (x m : Q) : x <= m -> Qeq_bool x m = false -> x < m.
Proof.
  intros Hle E. apply Qle_lteq in Hle as [Hlt|Heq]; [exact Hlt|].
  apply Qeq_bool_true in Heq. congruence.
Qed.

End KeyOrder.

(** X4.  Ties go to the first key.  For any four scores, however they were
    computed, the lookup [Object.keys(scores).find(k => scores[k] === max)]
    of [detectAbstractionType] returns the first key, in the order [skill],
    [subagent], [command], [rule], whose score is the maximum: the keys
    before it are strictly below the maximum. *)
Theorem first_maximal_key_wins (s : Scores.t) :
  (Scores.findKey s (Scores.maxValue s) = Some "skill"
   /\ (Scores.skill s == Scores.maxValue s)%Q)
  \/ (Scores.findKey s (Scores.maxValue s) = Some "subagent"
      /\ (Scores.skill s < Scores.maxValue s)%Q
      /\ (Scores.subagent s == Scores.maxValue s)%Q)
  \/ (Scores.findKey s (Scores.maxValue s) = Some "command"
      /\ (Scores.skill s < Scores.maxValue s)%Q
      /\ (Scores.subagent s < Scores.maxValue s)%Q
      /\ (Scores.command s == Scores.maxValue s)%Q)
  \/ (Scores.findKey s (Scores.maxValue s) = Some "rule"
      /\ (Scores.skill s < Scores.maxValue s)%Q
      /\ (Scores.subagent s < Scores.maxValue s)%Q
      /\ (Scores.command s < Scores.maxValue s)%Q
      /\ (Scores.rule s == Scores.maxValue s)%Q).
Proof.
  destruct (maxValue_ge s) as (G1 & G2 & G3 & G4).
  pose proof (maxValue_attained s) as Hmax.
  rewrite findKey_unfold. revert G1 G2 G3 G4 Hmax.
  generalize (Scores.maxValue s). intros m G1 G2 G3 G4 Hmax.
  destruct (Qeq_bool (Scores.skill s) m) eqn:E1.
  { left. split; [reflexivity|apply Qeq_bool_iff, E1]. }
  right. pose proof (below_max _ _ G1 E1) as L1.
  destruct (Qeq_bool (Scores.subagent s) m) eqn:E2.
  { left. repeat split; [exact L1|apply Qeq_bool_iff, E2]. }
  right. pose proof (below_max _ _ G2 E2) as L2.
  destruct (Qeq_bool (Scores.command s) m) eqn:E3.
  { left. repeat split; [exact L1|exact L2|apply Qeq_bool_iff, E3]. }
  right. pose proof (below_max _ _ G3 E3) as L3.
  destruct (Qeq_bool (Scores.rule s) m) eqn:E4.
  { repeat split; [exact L1|exact L2|exact L3|apply Qeq_bool_iff, E4]. }
  exfalso. destruct Hmax as [E|[E|[E|E]]];
    symmetry in E; apply Qeq_bool_true in E; congruence.
Qed.

(** X5.  [rule] is the last key: for any four scores, the lookup returns
    [rule] only if the rule score is strictly above the three others. *)
Theorem rule_wins_only_strictly (s : Scores.t)
    (Hrule : Scores.findKey s (Scores.maxValue s) = Some "rule") :
  (Scores.skill s < Scores.rule s)%Q
  /\ (Scores.subagent s < Scores.rule s)%Q
  /\ (Scores.command s < Scores.rule s)%Q.
Proof.
  destruct (maxValue_ge s) as (G1 & G2 & G3 & _).
  revert Hrule G1 G2 G3. rewrite findKey_unfold.
  generalize (Scores.maxValue s). intros m Hrule G1 G2 G3.
  destruct (Qeq_bool (Scores.skill s) m) eqn:E1; [discriminate Hrule|].
  destruct (Qeq_bool (Scores.subagent s) m) eqn:E2; [discriminate Hrule|].
  destruct (Qeq_bool (Scores.command s) m) eqn:E3; [discriminate Hrule|].
  destruct (Qeq_bool (Scores.rule s) m) eqn:E4; [|discriminate Hrule].
  apply Qeq_bool_iff in E4.
  repeat split; rewrite E4; apply below_max; assumption.
Qed.

Lemma rule_wins_only_strictly_witness :
  (Scores.skill (Scores.mk 0.25 0 0.1 0.3) < Scores.rule (Scores.mk 0.25 0 0.1 0.3))%Q.
Proof.
  apply (rule_wins_only_strictly (Scores.mk 0.25 0 0.1 0.3)). reflexivity.
Defined.

Section ContentScore.
Local Open Scope Q_scope.

Lemma densityOf_positive (d : gmap string nat) (p : string) :
  (1 <= TypeDetector.densityOf d p)%nat.
Proof. unfold TypeDetector.densityOf. destruct (d !! p) as [[|n]|]; lia. Qed.

Lemma totalDensity_ge (d : gmap string nat) (patterns : list string) (acc : nat) :
  (acc + length patterns
   <= fold_left (fun sum pattern => (sum + TypeDetector.densityOf d pattern)%nat)
        patterns acc)%nat.
Proof.
  revert acc. induction patterns as [|p ps IH]; intros acc; cbn [fold_left length]; [lia|].
  pose proof (IH (acc + TypeDetector.densityOf d p)%nat).
  pose proof (densityOf_positive d p). lia.
Qed.

Lemma scaled_count_ge (n : nat) (c : Q) :
  (1 <= n)%nat -> 0 <= c -> c <= inject_Z (Z.of_nat n) * c.
Proof.
  intros Hn Hc. rewrite <- (Qmult_1_l c) at 1.
  apply Qmult_le_compat_r; [|exact Hc].
  change 1 with (inject_Z 1). rewrite <- Zle_Qle. lia.
Qed.

End ContentScore.

(** X6.  The content score of a category is 0 when no keyword of the
    category is found, and lies between 0.2 and 1 otherwise. *)
Theorem calculateContentScore_range (patterns : list string) (density : gmap string nat) :
  (patterns = [] /\ TypeDetector.calculateContentScore patterns density = 0%Q)
  \/ (patterns <> []
      /\ (0.2 <= TypeDetector.calculateContentScore patterns density)%Q
      /\ (TypeDetector.calculateContentScore patterns density <= 1)%Q).
Proof.
  destruct patterns as [|p ps]; [left; split; reflexivity|].
  right. split; [discriminate|].
  unfold TypeDetector.calculateContentScore.
  change (length (p :: ps) =? 0)%nat with false. cbv iota.
  split; [|apply Q.le_min_r].
  apply Q.min_glb; [|discriminate].
  apply (Qle_trans _ (0.15 + 0.05)); [discriminate|]. apply Qplus_le_compat.
  - apply Q.min_glb; [|discriminate].
    apply scaled_count_ge; [cbn; lia|discriminate].
  - apply Q.min_glb; [|discriminate].
    apply scaled_count_ge; [|discriminate].
    pose proof (totalDensity_ge density (p :: ps) 0). cbn [length] in *. lia.
Qed.

Section KeywordScan.

Lemma countFrom_includes (s p : string) :
  p <> EmptyString -> JS.includes s p = true -> 1 <= JS.countFrom 0 s p.
Proof.
  intros Hp. induction s as [|c s IH]; intros H.
  - cbn in H. destruct p; [contradiction|discriminate H].
  - cbn [JS.includes] in H. cbn [JS.countFrom].
    destruct (String.prefix p (String c s)); [lia|].
    cbn [orb] in H. apply IH, H.
Qed.

(** One scan, from any accumulator: the keywords found are appended in the
    order of the list, a keyword found gets its count, and an entry that
    already holds the count of its key keeps it. *)
Lemma scan_from (lc : string) (keywords pats : list string) (d : gmap string nat) :
  let r := fold_left
             (fun (acc : list string * gmap string nat) keyword =>
                if JS.includes lc keyword
                then ((fst acc ++ [keyword])%list,
                      <[keyword := JS.countMatches lc keyword]> (snd acc))
                else acc)
             keywords (pats, d) in
  fst r = (pats ++ List.filter (JS.includes lc) keywords)%list
  /\ (forall p, In p (List.filter (JS.includes lc) keywords) ->
                snd r !! p = Some (JS.countMatches lc p))
  /\ (forall p, d !! p = Some (JS.countMatches lc p) ->
                snd r !! p = Some (JS.countMatches lc p)).
Proof.
  revert pats d. induction keywords as [|k ks IH]; intros pats d; cbn [fold_left List.filter].
  - cbn. rewrite app_nil_r. repeat split; [contradiction|auto].
  - destruct (JS.includes lc k) eqn:E; cbn [fst snd].
    + destruct (IH (pats ++ [k])%list (<[k := JS.countMatches lc k]> d)) as (H1 & H2 & H3).
      split; [rewrite H1, <- app_assoc; reflexivity|]. split.
      * intros p [->|Hp]; [apply H3, lookup_insert_eq | apply H2, Hp].
      * intros p Hp. apply H3.
        destruct (decide (k = p)) as [->|Hne];
          [apply lookup_insert_eq | rewrite lookup_insert_ne; assumption].
    + apply IH.
Qed.

Lemma scanKeywords_found (lc : string) (keywords : list string) (d : gmap string nat) :
  fst (TypeDetector.scanKeywords lc keywords d) = List.filter (JS.includes lc) keywords
  /\ (forall p, In p (List.filter (JS.includes lc) keywords) ->
                snd (TypeDetector.scanKeywords lc keywords d) !! p
                = Some (JS.countMatches lc p))
  /\ (forall p, d !! p = Some (JS.countMatches lc p) ->
                snd (TypeDetector.scanKeywords lc keywords d) !! p
                = Some (JS.countMatches lc p)).
Proof. apply (scan_from lc keywords [] d). Qed.

Lemma keywords_not_empty :
  Forall (fun k => k <> EmptyString)
    (TypeDetector.SKILL_KEYWORDS ++ TypeDetector.SUBAGENT_KEYWORDS
       ++ TypeDetector.COMMAND_KEYWORDS ++ TypeDetector.RULE_KEYWORDS).
Proof. repeat constructor; discriminate. Qed.

(** The shape of [analyzeRuleContent], for any four keyword lists: what the
    four chained scans record. *)
Lemma scans_found (lc : string) (k1 k2 k3 k4 : list string) (slash : bool)
    (features : list string) (r : ContentAnalysis.t) (p : string) :
  r = (let '(p1, d1) := TypeDetector.scanKeywords lc k1 ∅ in
       let '(p2, d2) := TypeDetector.scanKeywords lc k2 d1 in
       let '(p3, d3) := TypeDetector.scanKeywords lc k3 d2 in
       let '(p4, d4) := TypeDetector.scanKeywords lc k4 d3 in
       ContentAnalysis.mk p1 p2
         (if slash then (p3 ++ ["slash command syntax"])%list else p3)
         p4 features d4) ->
  In p (ContentAnalysis.skillPatterns r
          ++ ContentAnalysis.subagentPatterns r
          ++ List.filter (fun k => negb (String.eqb k "slash command syntax"))
               (ContentAnalysis.commandPatterns r)
          ++ ContentAnalysis.rulePatterns r) ->
  In p (k1 ++ k2 ++ k3 ++ k4)
  /\ JS.includes lc p = true
  /\ ContentAnalysis.keywordDensity r !! p = Some (JS.countMatches lc p).
Proof.
  intros -> Hp. revert Hp.
  destruct (scanKeywords_found lc k1 ∅) as (A1 & A2 & _).
  destruct (TypeDetector.scanKeywords lc k1 ∅) as [p1 d1].
  destruct (scanKeywords_found lc k2 d1) as (B1 & B2 & B3).
  destruct (TypeDetector.scanKeywords lc k2 d1) as [p2 d2].
  destruct (scanKeywords_found lc k3 d2) as (C1 & C2 & C3).
  destruct (TypeDetector.scanKeywords lc k3 d2) as [p3 d3].
  destruct (scanKeywords_found lc k4 d3) as (D1 & D2 & D3).
  destruct (TypeDetector.scanKeywords lc k4 d3) as [p4 d4].
  cbn [fst snd ContentAnalysis.skillPatterns ContentAnalysis.subagentPatterns
       ContentAnalysis.commandPatterns ContentAnalysis.rulePatterns
       ContentAnalysis.keywordDensity] in *.
  subst p1 p2 p3 p4. intros Hp.
  rewrite !in_app_iff in Hp. rewrite !in_app_iff.
  destruct Hp as [H|[H|[H|H]]].
  - pose proof H as H'. apply filter_In in H' as [Hk Hinc]. auto 10.
  - pose proof H as H'. apply filter_In in H' as [Hk Hinc]. auto 10.
  - assert (H' : In p (List.filter (JS.includes lc) k3)).
    { apply filter_In in H as [H Hn].
      destruct slash; [|exact H].
      apply in_app_iff in H as [H|[<-|[]]]; [exact H|discriminate Hn]. }
    pose proof H' as H''. apply filter_In in H'' as [Hk Hinc]. auto 10.
  - pose proof H as H'. apply filter_In in H' as [Hk Hinc]. auto 10.
Qed.

End KeywordScan.

(** X7.  Every keyword that [analyzeRuleContent] records as a pattern is a
    keyword of the category's list that the lower-cased content contains,
    and [keywordDensity] holds for it the number of its occurrences, which
    is at least 1.  (The synthetic command pattern [slash command syntax] is
    not a keyword and has no entry of its own.) *)
Theorem analyzeRuleContent_density (content p : string)
    (Hp : In p (ContentAnalysis.skillPatterns (TypeDetector.analyzeRuleContent content)
                  ++ ContentAnalysis.subagentPatterns
                       (TypeDetector.analyzeRuleContent content)
                  ++ List.filter (fun k => negb (String.eqb k "slash command syntax"))
                       (ContentAnalysis.commandPatterns
                          (TypeDetector.analyzeRuleContent content))
                  ++ ContentAnalysis.rulePatterns
                       (TypeDetector.analyzeRuleContent content))) :
  JS.includes (JS.toLowerCase content) p = true
  /\ ContentAnalysis.keywordDensity (TypeDetector.analyzeRuleContent content) !! p
     = Some (JS.countMatches (JS.toLowerCase content) p)
  /\ 1 <= JS.countMatches (JS.toLowerCase content) p.
Proof.
  revert Hp. pose proof keywords_not_empty as Hne. revert Hne.
  unfold TypeDetector.analyzeRuleContent.
  generalize TypeDetector.SKILL_KEYWORDS, TypeDetector.SUBAGENT_KEYWORDS,
    TypeDetector.COMMAND_KEYWORDS, TypeDetector.RULE_KEYWORDS.
  intros k1 k2 k3 k4 Hne. cbv zeta. intros Hp.
  destruct (scans_found _ _ _ _ _ _ _ _ _ eq_refl Hp) as (Hk & Hinc & Hd).
  split; [exact Hinc|]. split; [exact Hd|].
  apply countFrom_includes; [|exact Hinc].
  rewrite Forall_forall in Hne. apply Hne. apply list_elem_of_In. exact Hk.
Qed.

Lemma analyzeRuleContent_density_witness :
  ContentAnalysis.keywordDensity
    (TypeDetector.analyzeRuleContent "How to test: run it, then run it again") !! "run"
  = Some (JS.countMatches (JS.toLowerCase "How to test: run it, then run it again") "run").
Proof.
  apply (analyzeRuleContent_density "How to test: run it, then run it again" "run").
  vm_compute. auto 10.
Defined.

Section MetadataHints.
Local Open Scope Q_scope.

Lemma addHint_facts (h : string) (c : Q) (acc : list string * Q) :
  0.6 <= c -> c <= 1 -> snd acc <= 1 ->
  fst (TypeDetector.addHint h c acc) <> []
  /\ 0.6 <= snd (TypeDetector.addHint h c acc)
  /\ snd (TypeDetector.addHint h c acc) <= 1.
Proof.
  intros H1 H2 H3. unfold TypeDetector.addHint. cbn [fst snd]. repeat split.
  - destruct (fst acc); discriminate.
  - eapply Qle_trans; [exact H1|apply Q.le_max_r].
  - apply Q.max_lub; assumption.
Qed.

End MetadataHints.

Section MetadataHintState.
Local Open Scope Q_scope.

Lemma hintState_step (b : bool) (h : string) (c : Q) (acc : list string * Q) :
  0.6 <= c -> c <= 1 -> Notions.hintState acc ->
  Notions.hintState (if b then TypeDetector.addHint h c acc else acc).
Proof.
  intros H1 H2 Hacc. destruct b; [|exact Hacc]. right.
  apply addHint_facts; [assumption..|].
  destruct Hacc as [[_ E]|(_ & _ & E)]; [rewrite E; discriminate|exact E].
Qed.

End MetadataHintState.

(** X8.  [analyzeMetadata] reports either no hint and confidence 0, or at
    least one hint and a confidence between 0.6 and 1. *)
Theorem analyzeMetadata_hint_confidence (metadata : Metadata.t) :
  Notions.hintState
    (MetadataAnalysis.typeHints (TypeDetector.analyzeMetadata metadata),
     MetadataAnalysis.confidence (TypeDetector.analyzeMetadata metadata)).
Proof.
  unfold TypeDetector.analyzeMetadata.
  destruct (JS.truthy (Metadata.type metadata)).
  - right. cbn. repeat split; discriminate.
  - cbv zeta. cbn [MetadataAnalysis.typeHints MetadataAnalysis.confidence].
    match goal with |- Notions.hintState (fst ?a, snd ?a) =>
      assert (H : Notions.hintState a); [|destruct a; exact H] end.
    destruct (Metadata.scope metadata) as [sc|];
      repeat (apply hintState_step; [discriminate..|]);
      left; split; reflexivity.
Qed.


(** * Further properties of the validators *)

Section CommandFacts.
Import VALIDATION_CODES.

Lemma isVoid_dead (r : RegExp.t) (c : ascii) :
  Notions.isVoid r = true ->
  RegExp.nullable r = false /\ Notions.isVoid (RegExp.deriv c r) = true.
Proof.
  induction r as [| |p|r1 IH1 r2 IH2|r1 IH1 r2 IH2|r IH]; cbn; intros H;
    try discriminate H.
  - auto.
  - destruct (IH1 H) as [N D]. rewrite N. cbn. auto.
  - apply andb_true_iff in H as [H1 H2].
    destruct (IH1 H1) as [N1 D1], (IH2 H2) as [N2 D2]. rewrite N1, N2, D1, D2. auto.
Qed.

Lemma matchesWhole_void (r : RegExp.t) (s : string) :
  Notions.isVoid r = true -> RegExp.matchesWhole r s = false.
Proof.
  revert r. induction s as [|c s IH]; intros r H; cbn [RegExp.matchesWhole].
  - apply (isVoid_dead r "a"%char H).
  - apply IH, (isVoid_dead r c H).
Qed.

(** The pattern of a trigger accepts nothing that does not start with a
    slash. *)
Lemma triggerRegex_needs_slash (t : string) :
  JS.startsWith t "/" = false -> Validators.triggerRegex t = false.
Proof.
  intros H. unfold Validators.triggerRegex. destruct t as [|c t]; [reflexivity|].
  cbn [RegExp.matchesWhole]. apply matchesWhole_void.
  destruct (Ascii.eqb_spec "/" c) as [<-|Hne]; [destruct t; discriminate H|].
  cbn [RegExp.deriv RegExp.lit RegExp.nullable RegExp.chr andb Notions.isVoid].
  apply Ascii.eqb_neq in Hne. rewrite Hne. reflexivity.
Qed.

Lemma argumentsErrors_codes (index : nat) (args : list Argument.t) :
  Forall (Issue.hasCode COMMAND_INVALID_ARGUMENTS) (Validators.argumentsErrors index args).
Proof.
  revert index. induction args as [|a args IH]; intros index; cbn; [constructor|].
  unfold Validators.argumentErrors, Validators.pushIf.
  repeat (apply Forall_app; split); try apply IH;
    match goal with |- Forall _ (if ?b then _ else _) => destruct b end;
    repeat constructor.
Qed.

End CommandFacts.

(** X9.  [validateCommand] returns a result exactly when the trigger does
    not start with a slash (a missing or empty trigger included), and a
    result that it returns is never valid: a command with a well-formed
    trigger cannot pass. *)
Theorem validateCommand_returns_iff (metadata : Metadata.t) (content : string) :
  ((exists r, Validators.validateCommand metadata content = JS.Ok r)
   <-> JS.startsWith (default JS.empty (Metadata.trigger metadata)) "/" = false)
  /\ (forall r, Validators.validateCommand metadata content = JS.Ok r ->
                ValidationResult.valid r = false).
Proof.
  unfold Validators.validateCommand. cbv zeta.
  destruct (Metadata.trigger metadata) as [[|ch t]|] eqn:E;
    cbn [JS.truthy String.eqb negb default from_option id].
  - split; [split; [reflexivity|intros _; eexists; reflexivity]|].
    intros r H. apply Ok_inj in H. subst r. reflexivity.
  - destruct (JS.startsWith (String ch t) "/") eqn:S; cbn [negb].
    + split; [split; [intros [r H]; discriminate H|discriminate]|].
      intros r H. discriminate H.
    + split; [split; [reflexivity|intros _; eexists; reflexivity]|].
      intros r H. apply Ok_inj in H. subst r. reflexivity.
  - split; [split; [reflexivity|intros _; eexists; reflexivity]|].
    intros r H. apply Ok_inj in H. subst r. reflexivity.
Qed.

(** X10.  A non-empty trigger that does not start with a slash is reported
    twice under the code [COMMAND_INVALID_TRIGGER]: once by the test of its
    first character and once by the test against the pattern. *)
Theorem validateCommand_reports_trigger_twice (metadata : Metadata.t) (content t : string)
    (Ht : Metadata.trigger metadata = Some t)
    (Hne : t <> EmptyString)
    (Hslash : JS.startsWith t "/" = false) :
  exists r, Validators.validateCommand metadata content = JS.Ok r
            /\ ValidationResult.countCode VALIDATION_CODES.COMMAND_INVALID_TRIGGER r = 2.
Proof.
  apply String.eqb_neq in Hne.
  unfold Validators.validateCommand. cbv zeta. rewrite Ht.
  cbn [JS.truthy default from_option id]. rewrite Hne, Hslash.
  rewrite (triggerRegex_needs_slash t Hslash). cbn [negb andb].
  eexists. split; [reflexivity|].
  unfold ValidationResult.countCode, Validators.result. cbn [ValidationResult.errors].
  rewrite !List.filter_app.
  rewrite (filter_other_code VALIDATION_CODES.COMMAND_INVALID_TRIGGER
             VALIDATION_CODES.COMMAND_INVALID_ARGUMENTS
             (match Metadata.arguments metadata with
              | Some args => Validators.argumentsErrors 0 args
              | None => []
              end)); [| |discriminate].
  - rewrite !length_app.
    destruct (Metadata.userInvoked metadata) as [[|]|];
      unfold Validators.pushIf;
      repeat match goal with |- context [if ?b then _ else _] => destruct b end;
      reflexivity.
  - destruct (Metadata.arguments metadata); [apply argumentsErrors_codes|constructor].
Qed.

Lemma validateCommand_reports_trigger_twice_witness :
  exists r,
    Validators.validateCommand (Examples.command "c" "build") "Run the build" = JS.Ok r
    /\ ValidationResult.countCode VALIDATION_CODES.COMMAND_INVALID_TRIGGER r = 2.
Proof.
  apply (validateCommand_reports_trigger_twice (Examples.command "c" "build")
           "Run the build" "build"); [reflexivity|discriminate|reflexivity].
Defined.

(** X11.  [validateSubAgent] returns a result exactly when the metadata lists
    more than five tools, and the result then carries the suggestion
    [SUBAGENT_TOO_MANY_TOOLS]. *)
Theorem validateSubAgent_returns_iff (metadata : Metadata.t) (content : string) :
  ((exists r, Validators.validateSubAgent metadata content = JS.Ok r)
   <-> exists tools, Metadata.tools metadata = Some tools /\ 5 < length tools)
  /\ (forall r, Validators.validateSubAgent metadata content = JS.Ok r ->
                exists s, In s (ValidationResult.suggestions r)
                          /\ Suggestion.code s = "SUBAGENT_TOO_MANY_TOOLS").
Proof.
  unfold Validators.validateSubAgent.
  destruct (Metadata.tools metadata) as [tools|] eqn:E.
  - destruct (5 <? length tools)%nat eqn:L.
    + apply Nat.ltb_lt in L. split.
      * split; [intros _; exists tools; auto|intros _; eexists; reflexivity].
      * intros r H. cbn [mbind Result_bind JS.bind mret Result_ret] in H.
        apply Ok_inj in H. subst r.
        exists (Suggestion.mk "SUBAGENT_TOO_MANY_TOOLS"
                  "Consider reducing tool scope for better focus and performance"
                  (Some "tools") true).
        split; [|reflexivity].
        unfold Validators.result. cbn [ValidationResult.suggestions fst].
        rewrite !in_app_iff. right; right. left. reflexivity.
    + apply Nat.ltb_ge in L. split.
      * split; [intros [r H]; discriminate H|].
        intros (tools' & [= <-] & Hlen). lia.
      * intros r H. discriminate H.
  - split.
    + split; [intros [r H]; discriminate H|intros (tools' & H & _); discriminate H].
    + intros r H. discriminate H.
Qed.

Section ValidityFacts.

Lemma filter_nil_iff {A} (f : A -> bool) (l : list A) :
  List.filter f l = [] <-> Forall (fun x => f x = false) l.
Proof.
  induction l as [|x l IH]; cbn; [split; constructor|].
  destruct (f x) eqn:E.
  - split; [discriminate|]. intros H. inversion H; congruence.
  - rewrite IH. split; [intros H; constructor; assumption|].
    intros H. inversion H; assumption.
Qed.

Lemma existsb_false_iff {A} (f : A -> bool) (l : list A) :
  existsb f l = false <-> Forall (fun x => f x = false) l.
Proof.
  induction l as [|x l IH]; cbn; [split; constructor|].
  rewrite orb_false_iff, IH. split.
  - intros [H1 H2]. constructor; assumption.
  - intros H. inversion H; auto.
Qed.

Lemma length_zero_app {A} (l1 l2 : list A) :
  (length (l1 ++ l2) =? 0)%nat = true <-> l1 = [] /\ l2 = [].
Proof.
  rewrite Nat.eqb_eq, length_app. destruct l1, l2; cbn; split;
    try lia; try (intros [? ?]; discriminate); auto.
Qed.

Lemma pushIf_nil {A} (b : bool) (x : A) : Validators.pushIf b x = [] <-> b = false.
Proof. destruct b; cbn; split; try discriminate; auto. Qed.

Lemma trimIsEmpty_empty (c : string) :
  String.eqb c EmptyString || JS.trimIsEmpty c = JS.trimIsEmpty c.
Proof. destruct c; reflexivity. Qed.

End ValidityFacts.

(** X12.  A rule is valid exactly when its content is not blank and its
    [scope] passes: an absent scope and the empty string pass unchecked
    (the guard [if (metadata.scope)] skips them), any other string must not
    be blank, and every entry of an array must not be blank, the empty
    string included.  No other metadata matters, and [validateRule] never
    warns. *)
Theorem validateRule_valid_iff (metadata : Metadata.t) (content : string) :
  (ValidationResult.valid (Validators.validateRule metadata content) = true
   <-> JS.trimIsEmpty content = false
       /\ match Metadata.scope metadata with
          | None => True
          | Some (Metadata.One sc) => sc = EmptyString \/ JS.trimIsEmpty sc = false
          | Some (Metadata.Many l) => Forall (fun sc => JS.trimIsEmpty sc = false) l
          end)
  /\ ValidationResult.warnings (Validators.validateRule metadata content) = [].
Proof.
  split; [|reflexivity].
  unfold Validators.validateRule, Validators.result. cbn [ValidationResult.valid].
  rewrite length_zero_app, pushIf_nil, trimIsEmpty_empty.
  assert (Hlist : forall l,
             Validators.pushIf (0 <? length (List.filter JS.trimIsEmpty l))%nat
               (Validators.error VALIDATION_CODES.RULE_INVALID_SCOPE
                  "Rule scopes must be non-empty strings" (Some "scope")) = []
             <-> Forall (fun sc => JS.trimIsEmpty sc = false) l).
  { intros l. rewrite pushIf_nil, Nat.ltb_ge, <- filter_nil_iff. split.
    - intros H. destruct (List.filter _ _); [reflexivity|cbn in H; lia].
    - intros ->. cbn. lia. }
  destruct (Metadata.scope metadata) as [[sc|l]|].
  - cbn [Metadata.scopeTruthy Metadata.scopeList].
    destruct (String.eqb_spec sc EmptyString) as [->|Hne]; cbn [negb].
    + tauto.
    + rewrite Hlist, Forall_cons_iff, Forall_nil. tauto.
  - cbn [Metadata.scopeTruthy Metadata.scopeList]. rewrite Hlist. tauto.
  - tauto.
Qed.

(** X13.  A skill is valid exactly when it declares a non-empty
    [expertise], its [portability] is absent, empty or one of the two
    allowed values, and its lower-cased content contains none of the
    isolation phrases, none of the trigger phrases and no slash followed by
    a letter. *)
Theorem validateSkill_valid_iff (metadata : Metadata.t) (content : string) :
  ValidationResult.valid (Validators.validateSkill metadata content) = true
  <-> (exists e, Metadata.expertise metadata = Some e /\ e <> [])
      /\ (JS.truthy (Metadata.portability metadata) = false
          \/ In (default JS.empty (Metadata.portability metadata))
               Validators.VALID_PORTABILITY)
      /\ Forall (fun p => JS.includes (JS.toLowerCase content) p = false)
           [ "delegate to"; "hand off"; "separate context"; "independent";
             "isolated"; "spawn"; "subprocess";
             "when user types"; "trigger:"; "command:" ]
      /\ RegExp.test (RegExp.Cat (RegExp.lit "/") (RegExp.Chr JS.isLower))
           (JS.toLowerCase content) = false.
Proof.
  unfold Validators.validateSkill, Validators.result. cbn [ValidationResult.valid].
  set (lc := JS.toLowerCase content).
  rewrite length_zero_app, !app_nil, !pushIf_nil.
  unfold JS.some. rewrite existsb_false_iff, !orb_false_iff.
  rewrite !Forall_cons_iff, Forall_nil.
  assert (Hexp : match Metadata.expertise metadata with
                 | Some e => Validators.pushIf (length e =? 0)%nat
                               (Validators.error VALIDATION_CODES.SKILL_EMPTY_EXPERTISE
                                  "Skills must have at least one area of expertise"
                                  (Some "expertise"))
                 | None => [Validators.error VALIDATION_CODES.SKILL_MISSING_EXPERTISE
                              "Skills must have an expertise field" (Some "expertise")]
                 end = []
                 <-> exists e, Metadata.expertise metadata = Some e /\ e <> []).
  { destruct (Metadata.expertise metadata) as [[|x e]|]; cbn; split;
      try discriminate; try (intros (e' & [= <-] & H); congruence);
      try (intros (e' & H & _); discriminate H).
    intros _. eexists. split; [reflexivity|discriminate]. }
  assert (Hport : JS.truthy (Metadata.portability metadata)
                  && negb (JS.arrayIncludes Validators.VALID_PORTABILITY
                             (default JS.empty (Metadata.portability metadata))) = false
                  <-> JS.truthy (Metadata.portability metadata) = false
                      \/ In (default JS.empty (Metadata.portability metadata))
                           Validators.VALID_PORTABILITY).
  { rewrite andb_false_iff, negb_false_iff. unfold JS.arrayIncludes.
    rewrite existsb_exists. split; (intros [H|H]; [left; exact H|right]).
    - destruct H as (x & Hx & E). apply String.eqb_eq in E. subst x. exact Hx.
    - eexists. split; [exact H|apply String.eqb_refl]. }
  rewrite Hexp, Hport. tauto.
Qed.

(** X14.  A declared type outside the four categories gives one error,
    [UNKNOWN_TYPE], naming the type; the result is invalid, has no
    suggestion and at most one warning (the mismatch warning). *)
Theorem dispatcher_unknown_type (metadata : Metadata.t) (content ty : string)
    (Hty : Metadata.type metadata = Some ty)
    (Hne : ty <> EmptyString)
    (Hk : ~ In ty ["skill"; "subagent"; "command"; "rule"]) :
  exists r,
    Validators.validateAnyAbstraction (JS.Value metadata) (JS.Value content) = JS.Ok r
    /\ ValidationResult.valid r = false
    /\ ValidationResult.errors r
       = [Validators.error VALIDATION_CODES.UNKNOWN_TYPE
            ("Unknown abstraction type: " +:+ ty) (Some "type")]
    /\ ValidationResult.suggestions r = []
    /\ length (ValidationResult.warnings r) <= 1.
Proof.
  assert (Hno : forall k, In k ["skill"; "subagent"; "command"; "rule"] ->
                          String.eqb ty k = false).
  { intros k Hin. apply String.eqb_neq. intros ->. exact (Hk Hin). }
  apply String.eqb_neq in Hne.
  unfold Validators.validateAnyAbstraction. rewrite Hty. cbn [JS.truthy]. rewrite Hne.
  cbn [negb]. unfold Validators.routeToSpecificValidator. cbn [TypeDetector.typeIs].
  rewrite !Hno by (cbn; auto 6).
  cbn [mbind Result_bind JS.bind mret Result_ret].
  match goal with |- context [if ?b then _ else _] => destruct b end;
    eexists; (split; [reflexivity|]); cbn; repeat split; lia.
Qed.

Lemma dispatcher_unknown_type_witness :
  exists r,
    Validators.validateAnyAbstraction
      (JS.Value (Metadata.mk "unknown" (Some "unknown-type") None None None None None None
                   None None None None None None None None None None None))
      (JS.Value "content") = JS.Ok r
    /\ ValidationResult.valid r = false.
Proof.
  destruct (dispatcher_unknown_type
              (Metadata.mk "unknown" (Some "unknown-type") None None None None None None
                 None None None None None None None None None None None)
              "content" "unknown-type") as (r & H1 & H2 & _).
  - reflexivity.
  - discriminate.
  - cbn. intros [H|[H|[H|[H|[]]]]]; discriminate H.
  - exists r. split; assumption.
Defined.

(** X15.  The dispatcher returns what one category validator returns, with
    the same [valid], errors and suggestions; the only thing it may add is
    one [ABSTRACTION_TYPE_MISMATCH] warning at the end of the warnings, and
    only when the metadata declares a type. *)
Theorem dispatcher_adds_only_warning (metadata : Metadata.t) (content : string)
    (r : ValidationResult.t)
    (H : Validators.validateAnyAbstraction (JS.Value metadata) (JS.Value content) = JS.Ok r) :
  exists ty r0,
    Validators.routeToSpecificValidator ty metadata content = JS.Ok r0
    /\ ValidationResult.valid r = ValidationResult.valid r0
    /\ ValidationResult.errors r = ValidationResult.errors r0
    /\ ValidationResult.suggestions r = ValidationResult.suggestions r0
    /\ (ValidationResult.warnings r = ValidationResult.warnings r0
        \/ exists w, ValidationResult.warnings r = (ValidationResult.warnings r0 ++ [w])%list
                     /\ Issue.code w = VALIDATION_CODES.ABSTRACTION_TYPE_MISMATCH
                     /\ JS.truthy (Metadata.type metadata) = true).
Proof.
  revert H. unfold Validators.validateAnyAbstraction. cbv zeta.
  generalize (TypeDetector.detectAbstractionType
                (RuleBlock.mk (Metadata.withoutType metadata) content)).
  intros ti.
  match goal with |- context [Validators.routeToSpecificValidator ?t _ _] =>
    exists t; revert H; generalize t; intros ty end.
  destruct (Validators.routeToSpecificValidator ty metadata content) as [r0|e];
    intros H; [|discriminate H].
  rewrite Result_bind_ok in H. exists r0. split; [reflexivity|].
  destruct (JS.truthy (Metadata.type metadata)).
  - revert H. match goal with |- (if ?b then _ else _) = _ -> _ => destruct b end;
      intros H; apply Ok_inj in H; subst r.
    + unfold Validators.pushWarning.
      cbn [ValidationResult.valid ValidationResult.errors ValidationResult.warnings
           ValidationResult.suggestions].
      repeat split. right. eexists. repeat split.
    + auto 6.
  - apply Ok_inj in H. subst r. auto 6.
Qed.

Lemma dispatcher_adds_only_warning_witness :
  exists ty r0,
    Validators.routeToSpecificValidator ty (Metadata.bare "test-rule") "Always be helpful"
    = JS.Ok r0
    /\ ValidationResult.errors r0 = [].
Proof.
  destruct (dispatcher_adds_only_warning (Metadata.bare "test-rule") "Always be helpful"
              (Validators.validateRule (Metadata.bare "test-rule") "Always be helpful"))
    as (ty & r0 & H1 & _ & H3 & _).
  - vm_compute. reflexivity.
  - exists ty, r0. split; [exact H1|]. rewrite <- H3. reflexivity.
Defined.

Section Combine.

Lemma combine_from (results : list ValidationResult.t) (acc : ValidationResult.t) :
  let r := fold_left Validators.combineStep results acc in
  ValidationResult.valid r
  = forallb ValidationResult.valid results && ValidationResult.valid acc
  /\ ValidationResult.errors r
     = (ValidationResult.errors acc ++ concat (map ValidationResult.errors results))%list
  /\ ValidationResult.warnings r
     = (ValidationResult.warnings acc ++ concat (map ValidationResult.warnings results))%list
  /\ ValidationResult.suggestions r
     = (ValidationResult.suggestions acc
          ++ concat (map ValidationResult.suggestions results))%list.
Proof.
  revert acc. induction results as [|x xs IH]; intros acc; cbn [fold_left].
  - cbn. rewrite !app_nil_r. auto.
  - destruct (IH (Validators.combineStep acc x)) as (H1 & H2 & H3 & H4).
    cbn zeta. rewrite H1, H2, H3, H4. cbn [map concat forallb].
    unfold Validators.combineStep. cbn [ValidationResult.valid ValidationResult.errors
      ValidationResult.warnings ValidationResult.suggestions].
    rewrite <- !app_assoc. repeat split.
    destruct (ValidationResult.valid x), (forallb ValidationResult.valid xs),
      (ValidationResult.valid acc); reflexivity.
Qed.

End Combine.

(** X16.  [combineValidationResults] is valid exactly when every result is,
    and its errors, warnings and suggestions are those of the results, in
    order. *)
Theorem combineValidationResults_spec (results : list ValidationResult.t) :
  ValidationResult.valid (Validators.combineValidationResults results)
  = forallb ValidationResult.valid results
  /\ ValidationResult.errors (Validators.combineValidationResults results)
     = concat (map ValidationResult.errors results)
  /\ ValidationResult.warnings (Validators.combineValidationResults results)
     = concat (map ValidationResult.warnings results)
  /\ ValidationResult.suggestions (Validators.combineValidationResults results)
     = concat (map ValidationResult.suggestions results).
Proof.
  unfold Validators.combineValidationResults.
  destruct (combine_from results (ValidationResult.mk true [] [] [])) as (H1 & H2 & H3 & H4).
  cbn zeta in *. rewrite H1, H2, H3, H4. cbn. rewrite andb_true_r. auto.
Qed.


(** * The check for circular dependencies *)

Section CycleDetection.
Variable graph : OrderedMap.t (list string).

Lemma finished_closed (st : Group.Dfs) (a b : string) :
  Notions.dfsInvariant graph st ->
  a ∈ Notions.finished st -> rtc (Notions.edge graph) a b -> b ∈ Notions.finished st.
Proof.
  intros (_ & Hclosed & _) Ha Hab. induction Hab as [|x y z Hxy _ IH]; [exact Ha|].
  apply IH. exact (Hclosed x y Ha Hxy).
Qed.

Lemma tc_first_step (a b : string) :
  tc (Notions.edge graph) a b ->
  exists x, Notions.edge graph a x /\ rtc (Notions.edge graph) x b.
Proof.
  intros H. destruct H as [x y H|x y z H1 H2].
  - exists y. split; [exact H|apply rtc_refl].
  - exists y. split; [exact H1|apply tc_rtc, H2].
Qed.

Lemma get_in_keys (k : string) (deps : list string) :
  OrderedMap.get k graph = Some deps -> In k (OrderedMap.keys graph).
Proof.
  induction graph as [|[k' v] g IH]; [discriminate|].
  cbn [OrderedMap.get OrderedMap.keys map fst].
  destruct (String.eqb k' k) eqn:E; [|right; apply IH; assumption].
  left. apply String.eqb_eq, E.
Qed.

(** The loop over the dependencies of [nodeId], once [nodeId] is on the
    stack: the dependencies already passed are finished. *)
Lemma visitDependencies_sound (visit : string -> Group.Dfs -> option (bool * Group.Dfs))
    (nodeId : string) (stack0 : gset string) :
  (forall d st r,
     Notions.dfsInvariant graph st ->
     (forall s, s ∈ Group.recursionStack st -> tc (Notions.edge graph) s d) ->
     visit d st = Some r ->
     Notions.visitResult graph d (Group.recursionStack st) (Group.visited st) r) ->
  nodeId ∉ stack0 ->
  forall deps st r,
    Notions.dfsInvariant graph st ->
    Group.recursionStack st = {[nodeId]} ∪ stack0 ->
    (forall s, s ∈ stack0 -> tc (Notions.edge graph) s nodeId) ->
    (forall d, In d deps -> Notions.edge graph nodeId d) ->
    (forall d, Notions.edge graph nodeId d -> In d deps \/ d ∈ Notions.finished st) ->
    Group.visitDependencies visit nodeId deps st = Some r ->
    Notions.visitResult graph nodeId stack0 (Group.visited st) r.
Proof.
  intros Hvisit Hfresh deps.
  induction deps as [|d deps IH]; intros st r Hinv Hstack Hchain Hdeps Hdone Hr.
  - cbn [Group.visitDependencies] in Hr. injection Hr as <-.
    unfold Notions.visitResult. cbn [fst snd].
    pose proof Hinv as (Hsub & Hclosed & Hacyclic).
    assert (Hn : nodeId ∉ Notions.finished st).
    { unfold Notions.finished. rewrite Hstack. set_solver. }
    assert (Hfin : forall a,
               a ∈ Notions.finished
                     (Group.mkDfs (Group.visited st) (Group.recursionStack st ∖ {[nodeId]}))
               <-> a = nodeId \/ a ∈ Notions.finished st).
    { intros a. unfold Notions.finished. cbn [Group.visited Group.recursionStack].
      rewrite Hstack in *. destruct (decide (a = nodeId)); set_solver. }
    assert (Hnext : forall b, Notions.edge graph nodeId b -> b ∈ Notions.finished st).
    { intros b Hb. destruct (Hdone b Hb) as [[]|Hb']. exact Hb'. }
    split; [|split; [|split]].
    + split; [|split].
      * cbn [Group.visited Group.recursionStack]. set_solver.
      * intros a b Ha Hab. apply Hfin. right. apply Hfin in Ha as [->|Ha].
        -- apply Hnext, Hab.
        -- exact (Hclosed a b Ha Hab).
      * intros a Ha Hcyc. apply Hfin in Ha as [->|Ha]; [|exact (Hacyclic a Ha Hcyc)].
        destruct (tc_first_step _ _ Hcyc) as (b & Hb & Hback).
        exact (Hn (finished_closed st b nodeId Hinv (Hnext b Hb) Hback)).
    + cbn [Group.recursionStack]. rewrite Hstack. set_solver.
    + cbn [Group.visited]. set_solver.
    + apply Hfin. left. reflexivity.
  - cbn [Group.visitDependencies] in Hr.
    destruct (visit d st) as [[b st1]|] eqn:E; [|discriminate Hr].
    assert (Hd : Notions.edge graph nodeId d) by (apply Hdeps; left; reflexivity).
    pose proof (Hvisit d st (b, st1) Hinv) as Hpost.
    specialize (Hpost ltac:(intros s Hs; rewrite Hstack in Hs;
                            apply elem_of_union in Hs as [Hs|Hs];
                            [apply elem_of_singleton in Hs; subst s; apply tc_once, Hd
                            |eapply tc_r; [apply Hchain, Hs|exact Hd]]) E).
    unfold Notions.visitResult in Hpost. cbn [fst snd] in Hpost.
    destruct b.
    + injection Hr as <-. unfold Notions.visitResult. cbn [fst].
      destruct Hpost as (c & Hdc & Hcc). exists c. split; [|exact Hcc].
      eapply rtc_l; [exact Hd|exact Hdc].
    + destruct Hpost as (Hinv1 & Hstack1 & Hvis1 & Hfin1).
      pose proof (IH st1 r Hinv1) as Hrest.
      specialize (Hrest ltac:(rewrite Hstack1; exact Hstack) Hchain
                        ltac:(intros d' Hd'; apply Hdeps; right; exact Hd')).
      assert (Hmono : forall x, x ∈ Notions.finished st -> x ∈ Notions.finished st1).
      { intros x. unfold Notions.finished. rewrite Hstack1. set_solver. }
      specialize (Hrest ltac:(intros d' Hd'; destruct (Hdone d' Hd') as [[<-|Hin]|Hf];
                              [right; exact Hfin1|left; exact Hin|right; apply Hmono, Hf])
                        Hr).
      revert Hrest. unfold Notions.visitResult. destruct (fst r); [auto|].
      intros (H1 & H2 & H3 & H4).
      split; [exact H1|]. split; [exact H2|]. split; [|exact H4].
      etrans; [exact Hvis1|exact H3].
Qed.

(** A call of [hasCircularDependency] made while every identifier on the
    stack leads to [nodeId]. *)
Lemma hasCircularDependency_sound (fuel : nat) :
  forall nodeId st r,
    Notions.dfsInvariant graph st ->
    (forall s, s ∈ Group.recursionStack st -> tc (Notions.edge graph) s nodeId) ->
    Group.hasCircularDependency fuel graph nodeId st = Some r ->
    Notions.visitResult graph nodeId (Group.recursionStack st) (Group.visited st) r.
Proof.
  induction fuel as [|fuel IH]; intros nodeId st r Hinv Hchain Hr; [discriminate Hr|].
  cbn [Group.hasCircularDependency] in Hr.
  destruct (decide (nodeId ∈ Group.recursionStack st)) as [Hs|Hs].
  { injection Hr as <-. exists nodeId. split; [apply rtc_refl|apply Hchain, Hs]. }
  destruct (decide (nodeId ∈ Group.visited st)) as [Hv|Hv].
  { injection Hr as <-. unfold Notions.visitResult. cbn [fst snd].
    repeat split; try apply Hinv; [set_solver|].
    unfold Notions.finished. set_solver. }
  cbv zeta in Hr.
  pose proof Hinv as (Hsub & Hclosed & Hacyclic).
  assert (Hsame : Notions.finished
                    (Group.mkDfs ({[nodeId]} ∪ Group.visited st)
                       ({[nodeId]} ∪ Group.recursionStack st))
                  = Notions.finished st).
  { unfold Notions.finished. cbn [Group.visited Group.recursionStack]. set_solver. }
  pose proof (visitDependencies_sound (Group.hasCircularDependency fuel graph) nodeId
                (Group.recursionStack st) IH Hs
                (default [] (OrderedMap.get nodeId graph))
                (Group.mkDfs ({[nodeId]} ∪ Group.visited st)
                   ({[nodeId]} ∪ Group.recursionStack st)) r) as Hloop.
  assert (Hpost : Notions.visitResult graph nodeId (Group.recursionStack st)
                    ({[nodeId]} ∪ Group.visited st) r).
  { apply Hloop; clear Hloop.
    - split; [|split].
      + cbn [Group.visited Group.recursionStack]. set_solver.
      + intros a b. rewrite Hsame. apply Hclosed.
      + intros a. rewrite Hsame. apply Hacyclic.
    - reflexivity.
    - exact Hchain.
    - intros d Hd. destruct (OrderedMap.get nodeId graph) as [deps|] eqn:G; [|destruct Hd].
      exists deps. split; [exact G|exact Hd].
    - intros d (deps & G & Hd). left. rewrite G. exact Hd.
    - exact Hr. }
  revert Hpost. unfold Notions.visitResult. destruct (fst r); [auto|].
  intros (H1 & H2 & H3 & H4).
  split; [exact H1|]. split; [exact H2|]. split; [|exact H4].
  etrans; [|exact H3]. apply union_subseteq_r.
Qed.

(** The loop over the identifiers of the graph. *)
Lemma findCycle_sound (fuel : nat) :
  forall nodes st r,
    Notions.dfsInvariant graph st -> Group.recursionStack st = ∅ ->
    Group.findCycle fuel graph nodes st = Some r ->
    match r with
    | Some nodeId =>
        In nodeId nodes
        /\ exists c, rtc (Notions.edge graph) nodeId c /\ tc (Notions.edge graph) c c
    | None =>
        exists st', Notions.dfsInvariant graph st' /\ Group.recursionStack st' = ∅
                    /\ Group.visited st ⊆ Group.visited st'
                    /\ forall n, In n nodes -> n ∈ Group.visited st'
    end.
Proof.
  intros nodes. induction nodes as [|n nodes IH]; intros st r Hinv Hempty Hr.
  - injection Hr as <-. exists st. split; [exact Hinv|]. split; [exact Hempty|].
    split; [done|]. intros n [].
  - cbn [Group.findCycle] in Hr.
    destruct (Group.hasCircularDependency fuel graph n st) as [[b st1]|] eqn:E;
      [|discriminate Hr].
    pose proof (hasCircularDependency_sound fuel n st (b, st1) Hinv) as Hpost.
    specialize (Hpost ltac:(intros s Hs; rewrite Hempty in Hs; set_solver) E).
    unfold Notions.visitResult in Hpost. cbn [fst snd] in Hpost. destruct b.
    + injection Hr as <-. split; [left; reflexivity|exact Hpost].
    + destruct Hpost as (Hinv1 & Hstack1 & Hvis1 & Hfin1).
      rewrite Hempty in Hstack1.
      specialize (IH st1 r Hinv1 Hstack1 Hr). destruct r as [m|].
      * destruct IH as [Hin Hc]. split; [right; exact Hin|exact Hc].
      * destruct IH as (st' & Hinv' & Hstack' & Hvis' & Hall).
        exists st'. split; [exact Hinv'|]. split; [exact Hstack'|].
        split; [set_solver|].
        intros x [<-|Hx]; [|apply Hall, Hx].
        unfold Notions.finished in Hfin1. set_solver.
Qed.

(** The check as a whole: no report exactly when no identifier depends on
    itself; and the identifier of a report is a key of the graph from which
    a cycle can be reached. *)
Lemma cycleErrors_sound :
  (Group.cycleErrors graph = Some [] /\ ~ Notions.cyclic graph)
  \/ (exists nodeId c,
        Group.cycleErrors graph
        = Some [Validators.error VALIDATION_CODES.CIRCULAR_DEPENDENCY
                  ("Circular dependency detected involving "
                     +:+ Validators.quoted nodeId)
                  (Some "dependencies")]
        /\ In nodeId (OrderedMap.keys graph)
        /\ rtc (Notions.edge graph) nodeId c
        /\ tc (Notions.edge graph) c c).
Proof.
  destruct (cycleErrors_returns graph) as [errs Herrs].
  revert Herrs. unfold Group.cycleErrors.
  destruct (Group.findCycle (Group.enoughFuel graph) graph (OrderedMap.keys graph)
              (Group.mkDfs ∅ ∅)) as [r|] eqn:E; [|discriminate].
  intros _.
  pose proof (findCycle_sound (Group.enoughFuel graph) (OrderedMap.keys graph)
                (Group.mkDfs ∅ ∅) r) as H.
  specialize (H ltac:(unfold Notions.dfsInvariant, Notions.finished; cbn; set_solver)
                eq_refl E).
  destruct r as [n|].
  - right. destruct H as (Hin & c & Hnc & Hcc). exists n, c. auto.
  - left. split; [reflexivity|].
    destruct H as (st' & Hinv & Hstack & _ & Hall). intros (c & Hc).
    destruct (tc_first_step _ _ Hc) as (b & (deps & G & _) & _).
    pose proof (Hall c (get_in_keys c deps G)) as Hv.
    destruct Hinv as (_ & _ & Hacyclic). apply (Hacyclic c); [|exact Hc].
    unfold Notions.finished. rewrite Hstack. set_solver.
Qed.

End CycleDetection.

(** X17.  The check for circular dependencies is exact.  It reports nothing
    precisely when no identifier of the graph depends on itself, directly or
    through others; and when it reports, the identifier in the message is a
    key of the graph from which a cycle can be reached. *)
Theorem cycle_check_exact (graph : OrderedMap.t (list string)) :
  (Group.cycleErrors graph = Some [] <-> ~ Notions.cyclic graph)
  /\ (forall e errs, Group.cycleErrors graph = Some (e :: errs) ->
        errs = []
        /\ exists nodeId c,
             Issue.message e
             = "Circular dependency detected involving " +:+ Validators.quoted nodeId
             /\ In nodeId (OrderedMap.keys graph)
             /\ rtc (Notions.edge graph) nodeId c
             /\ tc (Notions.edge graph) c c).
Proof.
  destruct (cycleErrors_sound graph) as [[E Hno]|(n & c & E & Hin & Hnc & Hcc)].
  - split.
    + split; [intros _; exact Hno|intros _; exact E].
    + intros e errs H. rewrite E in H. discriminate H.
  - split.
    + split.
      * intros H. rewrite E in H. discriminate H.
      * intros Hno. exfalso. apply Hno. exists c. exact Hcc.
    + intros e errs H. rewrite E in H. injection H as <- <-.
      split; [reflexivity|]. exists n, c. repeat split; assumption.
Qed.

(** * The dependency graph of a batch *)

Section DependencyGraph.
Import VALIDATION_CODES.

Lemma get_set {V} (k a : string) (v : V) (m : OrderedMap.t V) :
  OrderedMap.get a (OrderedMap.set k v m)
  = if String.eqb k a then Some v else OrderedMap.get a m.
Proof.
  induction m as [|[k' v'] m IH]; [reflexivity|].
  cbn [OrderedMap.set]. destruct (String.eqb k' k) eqn:E.
  - apply String.eqb_eq in E. subst k'. cbn [OrderedMap.get].
    destruct (String.eqb k a); reflexivity.
  - cbn [OrderedMap.get]. rewrite IH.
    destruct (String.eqb k a) eqn:Ea; [|reflexivity].
    apply String.eqb_eq in Ea. subst a. rewrite E. reflexivity.
Qed.

Lemma keys_set {V} (k x : string) (v : V) (m : OrderedMap.t V) :
  In x (OrderedMap.keys (OrderedMap.set k v m)) -> x = k \/ In x (OrderedMap.keys m).
Proof.
  induction m as [|[k' v'] m IH].
  - cbn. intros [H|[]]. left. congruence.
  - cbn [OrderedMap.set]. destruct (String.eqb k' k) eqn:E.
    + apply String.eqb_eq in E. subst k'. cbn. tauto.
    + cbn [OrderedMap.keys map fst]. intros [H|H]; [right; left; exact H|].
      destruct (IH H) as [->|Hx]; [left; reflexivity|right; right; exact Hx].
Qed.

(** [Map.prototype.set] never makes a second entry for a key. *)
Lemma set_NoDup {V} (k : string) (v : V) (m : OrderedMap.t V) :
  List.NoDup (OrderedMap.keys m) -> List.NoDup (OrderedMap.keys (OrderedMap.set k v m)).
Proof.
  induction m as [|[k' v'] m IH]; intros H.
  - cbn. constructor; [intros []|constructor].
  - cbn [OrderedMap.keys map fst] in H. apply List.NoDup_cons_iff in H as [Hk H].
    cbn [OrderedMap.set]. destruct (String.eqb k' k) eqn:E.
    + apply String.eqb_eq in E. subst k'. cbn [OrderedMap.keys map fst].
      constructor; assumption.
    + apply String.eqb_neq in E. cbn [OrderedMap.keys map fst].
      constructor; [|apply IH, H].
      intros Hin. destruct (keys_set k k' v m Hin) as [->|Hx]; [apply E; reflexivity|].
      exact (Hk Hx).
Qed.

Lemma get_entry {V} (a : string) (v : V) (m : OrderedMap.t V) :
  OrderedMap.get a m = Some v -> In (a, v) m.
Proof.
  induction m as [|[k' v'] m IH]; [discriminate|].
  cbn [OrderedMap.get]. destruct (String.eqb k' a) eqn:E.
  - apply String.eqb_eq in E. intros [= ->]. left. congruence.
  - intros H. right. apply IH, H.
Qed.

Lemma entry_get {V} (a : string) (v : V) (m : OrderedMap.t V) :
  List.NoDup (OrderedMap.keys m) -> In (a, v) m -> OrderedMap.get a m = Some v.
Proof.
  induction m as [|[k' v'] m IH]; [intros _ []|].
  cbn [OrderedMap.keys map fst]. intros Hnd Hin.
  apply List.NoDup_cons_iff in Hnd as [Hk Hnd]. cbn [OrderedMap.get].
  destruct Hin as [[= -> ->]|Hin].
  - rewrite String.eqb_refl. reflexivity.
  - destruct (String.eqb k' a) eqn:E; [|apply IH; assumption].
    apply String.eqb_eq in E. subst k'. exfalso. apply Hk.
    change (In (fst (a, v)) (map fst m)). apply in_map, Hin.
Qed.

(** What the first loop leaves in the graph. *)
Lemma graph_of_fold (batch : list RuleBlock.t) :
  forall ix a,
    OrderedMap.get a (Group.dependencyGraph (fold_left Group.indexStep batch ix))
    = match Notions.declared batch a with
      | Some deps => Some deps
      | None => OrderedMap.get a (Group.dependencyGraph ix)
      end.
Proof.
  induction batch as [|x rest IH]; intros ix a; [reflexivity|].
  cbn [fold_left Notions.declared]. rewrite IH.
  destruct (Notions.declared rest a) as [deps|]; [reflexivity|].
  rewrite indexStep_graph.
  destruct (Metadata.dependencies (RuleBlock.metadata x)) as [deps|].
  - rewrite get_set.
    destruct (String.eqb (Metadata.id (RuleBlock.metadata x)) a); reflexivity.
  - destruct (String.eqb (Metadata.id (RuleBlock.metadata x)) a); reflexivity.
Qed.

Lemma graph_declared (batch : list RuleBlock.t) (a : string) :
  OrderedMap.get a (Group.dependencyGraph (Group.buildIndex batch))
  = Notions.declared batch a.
Proof.
  unfold Group.buildIndex. rewrite graph_of_fold.
  destruct (Notions.declared batch a); reflexivity.
Qed.

Lemma graph_NoDup (batch : list RuleBlock.t) :
  List.NoDup (OrderedMap.keys (Group.dependencyGraph (Group.buildIndex batch))).
Proof.
  unfold Group.buildIndex.
  assert (G : forall ix, List.NoDup (OrderedMap.keys (Group.dependencyGraph ix)) ->
              List.NoDup (OrderedMap.keys
                            (Group.dependencyGraph (fold_left Group.indexStep batch ix)))).
  { induction batch as [|x rest IH]; intros ix H; [exact H|].
    cbn [fold_left]. apply IH. rewrite indexStep_graph.
    destruct (Metadata.dependencies (RuleBlock.metadata x)); [apply set_NoDup, H|exact H]. }
  apply G. constructor.
Qed.

Lemma edge_dependsOn (batch : list RuleBlock.t) (a b : string) :
  Notions.edge (Group.dependencyGraph (Group.buildIndex batch)) a b
  <-> Notions.dependsOn batch a b.
Proof.
  unfold Notions.edge, Notions.dependsOn.
  split; intros (deps & H & Hb); exists deps; (split; [|exact Hb]).
  - rewrite <- graph_declared. exact H.
  - rewrite graph_declared. exact H.
Qed.

Lemma tc_mono {A} (R1 R2 : relation A) (x y : A) :
  (forall a b, R1 a b -> R2 a b) -> tc R1 x y -> tc R2 x y.
Proof.
  intros Hsub H. induction H as [x y H|x y z H _ IH].
  - apply tc_once, Hsub, H.
  - eapply tc_l; [apply Hsub, H|exact IH].
Qed.

Lemma cyclic_dependsOn (batch : list RuleBlock.t) :
  Notions.cyclic (Group.dependencyGraph (Group.buildIndex batch))
  <-> exists c, tc (Notions.dependsOn batch) c c.
Proof.
  unfold Notions.cyclic. split; intros (c & H); exists c; revert H; apply tc_mono;
    intros a b; apply edge_dependsOn.
Qed.

Lemma countCode_split (c : string) (l : list RuleBlock.t) (r : ValidationResult.t)
    (cycle : list Issue.t) :
  Group.validateAbstractionGroup l = Some r ->
  Group.cycleErrors (Group.dependencyGraph (Group.buildIndex l)) = Some cycle ->
  ValidationResult.countCode c r
  = length (List.filter (fun e => String.eqb (Issue.code e) c)
              (Group.triggerErrors (Group.buildIndex l)))
    + length (List.filter (fun e => String.eqb (Issue.code e) c) cycle)
    + length (List.filter (fun e => String.eqb (Issue.code e) c)
                (Group.dependencyErrors
                   (list_to_set (map (fun a => Metadata.id (RuleBlock.metadata a)) l))
                   (Group.dependencyGraph (Group.buildIndex l)))).
Proof.
  intros Hr Hc. destruct (validateAbstractionGroup_returns l) as (r' & c' & E1 & E2 & E3 & _).
  assert (r' = r) by congruence. assert (c' = cycle) by congruence. subst.
  unfold ValidationResult.countCode. rewrite E3, !List.filter_app, !length_app. lia.
Qed.

(** No dangling reference is reported exactly when every dependency of
    every entry of the graph is among the identifiers. *)
Lemma dependencyErrors_nil (ids : gset string) (g : OrderedMap.t (list string)) :
  Group.dependencyErrors ids g = []
  <-> forall k deps d, In (k, deps) g -> In d deps -> d ∈ ids.
Proof.
  unfold Group.dependencyErrors. induction g as [|[k v] g IH].
  - cbn. split; [intros _ k deps d []|reflexivity].
  - cbn [flat_map fst snd]. rewrite app_nil, IH, pushIf_nil, Nat.ltb_ge.
    split.
    + intros [H1 H2] k' deps d [[= <- <-]|Hin] Hd; [|exact (H2 k' deps d Hin Hd)].
      destruct (decide (d ∈ ids)) as [Hy|Hn]; [exact Hy|exfalso].
      assert (Hf : In d (List.filter (fun depId => negb (bool_decide (depId ∈ ids))) v)).
      { apply filter_In. split; [exact Hd|].
        rewrite bool_decide_eq_false_2 by exact Hn. reflexivity. }
      destruct (List.filter _ v); [destruct Hf|cbn in H1; lia].
    + intros H. split.
      * assert (E : List.filter (fun depId => negb (bool_decide (depId ∈ ids))) v = []).
        { apply filter_nil_iff, Forall_forall. intros d Hd.
          apply list_elem_of_In in Hd.
          rewrite bool_decide_eq_true_2; [reflexivity|].
          apply (H k v d); [left; reflexivity|exact Hd]. }
        rewrite E. cbn. lia.
      * intros k' deps d Hin Hd. apply (H k' deps d); [right; exact Hin|exact Hd].
Qed.

End DependencyGraph.

(** X18.  A batch gets the error [CIRCULAR_DEPENDENCY] exactly when some
    identifier depends on itself through the declared dependencies, where
    the dependencies of an identifier are those of the last document that
    declares any under that [id]; otherwise the batch gets none. *)
Theorem group_cycle_iff (batch : list RuleBlock.t) :
  exists r,
    Group.validateAbstractionGroup batch = Some r
    /\ (ValidationResult.countCode VALIDATION_CODES.CIRCULAR_DEPENDENCY r = 1
        <-> exists c, tc (Notions.dependsOn batch) c c)
    /\ (ValidationResult.countCode VALIDATION_CODES.CIRCULAR_DEPENDENCY r = 0
        <-> ~ exists c, tc (Notions.dependsOn batch) c c).
Proof.
  destruct (validateAbstractionGroup_returns batch) as (r & cycle & Hr & Hc & _).
  exists r. split; [exact Hr|].
  rewrite (countCode_circular _ _ _ Hr Hc), <- cyclic_dependsOn.
  destruct (cycleErrors_sound (Group.dependencyGraph (Group.buildIndex batch)))
    as [[E Hno]|(n & c & E & _ & _ & Hcc)];
    rewrite E in Hc; injection Hc as <-; cbn [length].
  - split; split; try discriminate; try tauto.
  - assert (Hcyc : Notions.cyclic (Group.dependencyGraph (Group.buildIndex batch)))
      by (exists c; exact Hcc).
    split; split; try discriminate; try tauto.
Qed.

(** X19.  A batch gets no [INVALID_DEPENDENCY] error exactly when every
    dependency that the graph records is the [id] of a document of the
    batch.  The graph records, for each [id], the dependencies of the last
    document that declares any under that [id]: the dependencies of an
    earlier document with the same [id] are replaced and are not checked. *)
Theorem group_dangling_iff (batch : list RuleBlock.t) :
  exists r,
    Group.validateAbstractionGroup batch = Some r
    /\ (ValidationResult.countCode VALIDATION_CODES.INVALID_DEPENDENCY r = 0
        <-> forall a b, Notions.dependsOn batch a b -> Notions.knownId batch b).
Proof.
  destruct (validateAbstractionGroup_returns batch) as (r & cycle & Hr & Hc & _).
  exists r. split; [exact Hr|].
  rewrite (countCode_split _ _ _ _ Hr Hc).
  rewrite (filter_other_code _ _ _ (buildIndex_codes batch)) by discriminate.
  rewrite (filter_other_code _ _ _ (proj2 (cycleErrors_at_most_one _ _ Hc))) by discriminate.
  rewrite (filter_same_code _ _ (dependencyErrors_codes _ _)).
  cbn [length Nat.add]. rewrite length_zero_iff_nil, dependencyErrors_nil.
  assert (Hid : forall b,
             b ∈ (list_to_set (map (fun a => Metadata.id (RuleBlock.metadata a)) batch)
                  : gset string)
             <-> Notions.knownId batch b).
  { intros b. rewrite elem_of_list_to_set, list_elem_of_In, in_map_iff.
    unfold Notions.knownId. split; intros (x & H1 & H2); exists x; auto. }
  split.
  - intros H a b (deps & Hd & Hb). apply Hid.
    apply (H a deps b); [|exact Hb].
    apply get_entry. rewrite graph_declared. exact Hd.
  - intros H k deps d Hin Hd. apply Hid, (H k). exists deps. split; [|exact Hd].
    rewrite <- graph_declared. apply entry_get; [apply graph_NoDup|exact Hin].
Qed.

(** * The callers in [sync-manager.ts] and [analyzer.ts] *)

Section Callers.
Local Open Scope Q_scope.

(** The two confidences that a classification can have, by the signals of
    the document. *)
Lemma confidence_by_signal (file : SyncManager.ConfigFile) :
  let typeInfo :=
    TypeDetector.detectAbstractionType
      (RuleBlock.mk (SyncManager.metadata file) (SyncManager.content file)) in
  (Notions.noSignal file = false /\ AbstractionTypeInfo.confidence typeInfo == 1)
  \/ (Notions.noSignal file = true /\ AbstractionTypeInfo.confidence typeInfo == 0.5).
Proof.
  cbv zeta. unfold Notions.noSignal.
  set (rule := RuleBlock.mk (SyncManager.metadata file) (SyncManager.content file)).
  change (SyncManager.metadata file) with (RuleBlock.metadata rule).
  destruct (JS.truthy (Metadata.type (RuleBlock.metadata rule))) eqn:T; cbn [negb andb].
  - left. split; [reflexivity|].
    destruct (Metadata.type (RuleBlock.metadata rule)) as [ty|] eqn:E; [|discriminate T].
    rewrite (detectAbstractionType_truthy rule ty E); [reflexivity|].
    intros ->. discriminate T.
  - rewrite (detectAbstractionType_falsy rule T).
    cbn [AbstractionTypeInfo.confidence].
    generalize (rawScoresOf rule). intros raw.
    destruct (Qle_bool (Scores.maxValue raw) 0) eqn:L.
    + right. split; [reflexivity|]. apply Qle_bool_iff in L.
      destruct (normalizeScores_fallback _ L) as [Hm Hk].
      rewrite Hk. cbn [TypeDetector.typeIs String.eqb Ascii.eqb Bool.eqb].
      apply Q.max_r. rewrite Hm. discriminate.
    + left. split; [reflexivity|]. apply Qle_bool_false_lt in L.
      pose proof (normalizeScores_max_one _ L) as Hone.
      destruct (TypeDetector.typeIs _ "rule"); [|exact Hone].
      apply Qle_antisym.
      * apply Q.max_lub; [rewrite Hone; apply Qle_refl | discriminate].
      * rewrite <- Hone at 1. apply Q.le_max_l.
Qed.

Lemma above_threshold (c t : Q) : c == 1 -> t < 1 -> Qle_bool c t = false.
Proof. intros H Ht. apply Qlt_Qle_bool_false. rewrite H. exact Ht. Qed.

Lemma half_thresholds (c : Q) :
  c == 0.5 -> Qle_bool c 0.7 = true /\ Qle_bool c 0.3 = false.
Proof.
  intros H. split.
  - apply Qle_bool_iff. rewrite H. discriminate.
  - apply Qlt_Qle_bool_false. rewrite H. reflexivity.
Qed.

End Callers.

Section Distribution.

Lemma append_s_inj (a b : string) : a +:+ "s" = b +:+ "s" -> a = b.
Proof.
  revert b. induction a as [|x a IH]; intros [|y b] H; cbn in H.
  - reflexivity.
  - injection H as _ H. destruct b; discriminate H.
  - injection H as _ H. destruct a; discriminate H.
  - injection H as -> H. f_equal. apply IH, H.
Qed.

(** A key that ends in [s] is neither [mixed] nor [unknown]. *)
Lemma plural_key (ty : string) :
  String.eqb (ty +:+ "s") "mixed" = false /\ String.eqb (ty +:+ "s") "unknown" = false.
Proof.
  split; apply String.eqb_neq; intros H;
    repeat (destruct ty as [|? ty]; cbn in H; [discriminate H|injection H as _ H]);
    destruct ty; discriminate H.
Qed.

(** The plural of a category is a counter. *)
Lemma increment_category (ty : string) (d : Analyzer.TypeDistribution) :
  In ty Scores.keys ->
  Notions.counters (Analyzer.increment (ty +:+ "s") d) = S (Notions.counters d)
  /\ Analyzer.unknown (Analyzer.increment (ty +:+ "s") d) = Analyzer.unknown d
  /\ Analyzer.mixed (Analyzer.increment (ty +:+ "s") d) = Analyzer.mixed d
  /\ Analyzer.notANumber (Analyzer.increment (ty +:+ "s") d) = Analyzer.notANumber d.
Proof.
  intros [<-|[<-|[<-|[<-|[]]]]]; unfold Notions.counters, Analyzer.increment; simpl;
    repeat split; first [reflexivity | lia].
Qed.

(** The plural of anything else is not: no counter moves, and the object
    gets the property once. *)
Lemma increment_foreign (ty : string) (d : Analyzer.TypeDistribution) :
  ~ In ty Scores.keys ->
  Notions.counters (Analyzer.increment (ty +:+ "s") d) = Notions.counters d
  /\ Analyzer.unknown (Analyzer.increment (ty +:+ "s") d) = Analyzer.unknown d
  /\ Analyzer.mixed (Analyzer.increment (ty +:+ "s") d) = Analyzer.mixed d
  /\ (forall k, In k (Analyzer.notANumber (Analyzer.increment (ty +:+ "s") d))
                <-> k = ty +:+ "s" \/ In k (Analyzer.notANumber d)).
Proof.
  intros Hty. destruct (plural_key ty) as [Hm Hu].
  assert (Hno : forall c, In c Scores.keys -> String.eqb (ty +:+ "s") (c +:+ "s") = false).
  { intros c Hc. apply String.eqb_neq. intros E. apply append_s_inj in E.
    subst c. exact (Hty Hc). }
  assert (H1 : String.eqb (ty +:+ "s") "rules" = false)
    by (apply (Hno "rule"); cbn; auto 6).
  assert (H2 : String.eqb (ty +:+ "s") "skills" = false)
    by (apply (Hno "skill"); cbn; auto 6).
  assert (H3 : String.eqb (ty +:+ "s") "subagents" = false)
    by (apply (Hno "subagent"); cbn; auto 6).
  assert (H4 : String.eqb (ty +:+ "s") "commands" = false)
    by (apply (Hno "command"); cbn; auto 6).
  unfold Analyzer.increment. rewrite H1, H2, H3, H4, Hm, Hu. unfold JS.arrayIncludes.
  destruct (existsb (String.eqb (ty +:+ "s")) (Analyzer.notANumber d)) eqn:E.
  - repeat split; try tauto. intros [->|H]; [|exact H].
    apply existsb_exists in E as (x & Hx & Ex). apply String.eqb_eq in Ex.
    subst x. exact Hx.
  - unfold Notions.counters.
    cbn [Analyzer.rules Analyzer.skills Analyzer.subagents Analyzer.commands
         Analyzer.mixed Analyzer.unknown Analyzer.notANumber].
    repeat split; try rewrite in_app_iff; cbn [In]; intuition.
Qed.

(** The type that the classifier returns, by what the file declares. *)
Lemma type_by_declaration (file : SyncManager.ConfigFile) :
  let typeInfo :=
    TypeDetector.detectAbstractionType
      (RuleBlock.mk (SyncManager.metadata file) (SyncManager.content file)) in
  (Notions.foreignType file = true
   /\ Validators.showType (AbstractionTypeInfo.type typeInfo) +:+ "s"
      = Notions.pluralKey file
   /\ exists ty, AbstractionTypeInfo.type typeInfo = Some ty /\ ~ In ty Scores.keys)
  \/ (Notions.foreignType file = false
      /\ exists ty, AbstractionTypeInfo.type typeInfo = Some ty /\ In ty Scores.keys).
Proof.
  cbv zeta. unfold Notions.foreignType, Notions.pluralKey.
  set (rule := RuleBlock.mk (SyncManager.metadata file) (SyncManager.content file)).
  change (SyncManager.metadata file) with (RuleBlock.metadata rule).
  destruct (JS.truthy (Metadata.type (RuleBlock.metadata rule))) eqn:T.
  - destruct (Metadata.type (RuleBlock.metadata rule)) as [ty|] eqn:E; [|discriminate T].
    assert (Hne : ty <> EmptyString) by (intros ->; discriminate T).
    rewrite (detectAbstractionType_truthy rule ty E Hne).
    cbn [AbstractionTypeInfo.type]. apply String.eqb_neq in Hne. rewrite Hne.
    cbn [negb andb]. unfold JS.arrayIncludes.
    destruct (existsb (String.eqb ty) Scores.keys) eqn:X; cbn [negb].
    + right. split; [reflexivity|]. exists ty. split; [reflexivity|].
      apply existsb_exists in X as (x & Hx & Ex). apply String.eqb_eq in Ex.
      subst x. exact Hx.
    + left. split; [reflexivity|]. split; [reflexivity|].
      exists ty. split; [reflexivity|]. intros Hin.
      assert (existsb (String.eqb ty) Scores.keys = true); [|congruence].
      apply existsb_exists. exists ty. split; [exact Hin|apply String.eqb_refl].
  - right. split.
    + destruct (Metadata.type (RuleBlock.metadata rule)) as [ty|]; [|reflexivity].
      destruct ty; [reflexivity|discriminate T].
    + rewrite (detect_type_falsy rule T). apply findKey_max.
Qed.

Lemma countFile_counts (d : Analyzer.TypeDistribution) (file : SyncManager.ConfigFile) :
  Notions.counters (Analyzer.countFile d file)
  = (if Notions.foreignType file then 0 else 1) + Notions.counters d
  /\ Analyzer.unknown (Analyzer.countFile d file) = Analyzer.unknown d
  /\ Analyzer.mixed (Analyzer.countFile d file)
     = (if Notions.noSignal file then 1 else 0) + Analyzer.mixed d
  /\ (forall k, In k (Analyzer.notANumber (Analyzer.countFile d file))
                <-> (Notions.foreignType file = true /\ k = Notions.pluralKey file)
                    \/ In k (Analyzer.notANumber d)).
Proof.
  unfold Analyzer.countFile. cbv zeta.
  pose proof (confidence_by_signal file) as Hc.
  pose proof (type_by_declaration file) as Ht.
  assert (Hs : Notions.noSignal file = true -> Notions.foreignType file = false).
  { unfold Notions.noSignal, Notions.foreignType.
    destruct (Metadata.type (SyncManager.metadata file)) as [[|x ty]|];
      cbn [JS.truthy String.eqb negb andb]; [reflexivity|discriminate|reflexivity]. }
  revert Hc Ht. cbv zeta.
  generalize (TypeDetector.detectAbstractionType
                (RuleBlock.mk (SyncManager.metadata file) (SyncManager.content file))).
  intros ti [[Hn Hc]|[Hn Hc]] Ht; rewrite Hn.
  - rewrite (above_threshold _ 0.7 Hc) by reflexivity. cbn [negb].
    destruct Ht as [(Hf & Hk & ty & Hty & Hout)|(Hf & ty & Hty & Hin)]; rewrite Hf.
    + rewrite <- Hk, Hty. cbn [Validators.showType default from_option id].
      destruct (increment_foreign ty d Hout) as (I1 & I2 & I3 & I4).
      rewrite I1, I2, I3. repeat split; try reflexivity;
        rewrite I4; intuition congruence.
    + rewrite Hty. cbn [Validators.showType default from_option id].
      destruct (increment_category ty d Hin) as (I1 & I2 & I3 & I4).
      rewrite I1, I2, I3, I4. repeat split; try reflexivity; try tauto.
      intros [[H _]|H]; [discriminate H|exact H].
  - rewrite (Hs Hn). destruct (half_thresholds _ Hc) as [-> ->]. cbn [negb].
    unfold Notions.counters. cbn. repeat split; try lia; try tauto.
    intros [[H _]|H]; [discriminate H|exact H].
Qed.

Lemma distribution_from (files : list SyncManager.ConfigFile) :
  forall d,
    Notions.counters (fold_left Analyzer.countFile files d)
    = length (List.filter (fun f => negb (Notions.foreignType f)) files)
      + Notions.counters d
    /\ Analyzer.unknown (fold_left Analyzer.countFile files d) = Analyzer.unknown d
    /\ Analyzer.mixed (fold_left Analyzer.countFile files d)
       = length (List.filter Notions.noSignal files) + Analyzer.mixed d
    /\ (forall k, In k (Analyzer.notANumber (fold_left Analyzer.countFile files d))
                  <-> (exists f, In f files /\ Notions.foreignType f = true
                                 /\ k = Notions.pluralKey f)
                      \/ In k (Analyzer.notANumber d)).
Proof.
  induction files as [|f files IH]; intros d.
  - cbn. repeat split; auto. intros [(f & [] & _)|H]. exact H.
  - cbn [fold_left List.filter].
    destruct (IH (Analyzer.countFile d f)) as (H1 & H2 & H3 & H4).
    destruct (countFile_counts d f) as (C1 & C2 & C3 & C4).
    rewrite H1, H2, H3, C1, C2, C3.
    split; [destruct (Notions.foreignType f); cbn [negb length]; lia|].
    split; [reflexivity|].
    split; [destruct (Notions.noSignal f); cbn [length]; lia|].
    intros k. rewrite H4, C4. split.
    + intros [(g & Hg & Hf & Hk)|[[Hf Hk]|Hd]].
      * left. exists g. split; [right; exact Hg|auto].
      * left. exists f. split; [left; reflexivity|auto].
      * right. exact Hd.
    + intros [(g & [<-|Hg] & Hf & Hk)|Hd].
      * right. left. auto.
      * left. exists g. auto.
      * right. right. exact Hd.
Qed.

End Distribution.

(** X20.  What [calculateTypeDistribution] of the analyzer counts.  A file
    that declares a type other than the four categories is counted by none
    of the six counters: the increment of its plural key leaves a [NaN]
    property of that name.  Every other file is counted by exactly one
    counter.  [unknown] is never incremented, and [mixed] counts exactly the
    files without a declared type and without any scoring signal, which the
    classifier calls rules with confidence 0.5. *)
Theorem distribution_counts (files : list SyncManager.ConfigFile) :
  Analyzer.unknown (Analyzer.calculateTypeDistribution files) = 0
  /\ Analyzer.mixed (Analyzer.calculateTypeDistribution files)
     = length (List.filter Notions.noSignal files)
  /\ Notions.counters (Analyzer.calculateTypeDistribution files)
     = length (List.filter (fun f => negb (Notions.foreignType f)) files)
  /\ (forall k, In k (Analyzer.notANumber (Analyzer.calculateTypeDistribution files))
                <-> exists f, In f files /\ Notions.foreignType f = true
                              /\ k = Notions.pluralKey f).
Proof.
  unfold Analyzer.calculateTypeDistribution.
  destruct (distribution_from files (Analyzer.mkDistribution 0 0 0 0 0 0 []))
    as (H1 & H2 & H3 & H4).
  rewrite H1, H2, H3. unfold Notions.counters.
  cbn [Analyzer.unknown Analyzer.mixed Analyzer.rules Analyzer.skills
       Analyzer.subagents Analyzer.commands].
  split; [lia|]. split; [lia|]. split; [lia|].
  intros k. rewrite H4. cbn [Analyzer.notANumber In]. tauto.
Qed.

Section Mismatch.

Lemma differ_same (a : option string) : Validators.differ a a = false.
Proof. destruct a as [x|]; [|reflexivity]. cbn. rewrite String.eqb_refl. reflexivity. Qed.

(** With a declared type the classifier returns that type. *)
Lemma declared_type_detected (m : Metadata.t) (c : string) :
  JS.truthy (Metadata.type m) = true ->
  AbstractionTypeInfo.type (TypeDetector.detectAbstractionType (RuleBlock.mk m c))
  = Metadata.type m.
Proof.
  intros T. destruct (Metadata.type m) as [ty|] eqn:E; [|discriminate T].
  rewrite (detectAbstractionType_truthy (RuleBlock.mk m c) ty E); [reflexivity|].
  intros ->. discriminate T.
Qed.

Lemma never_differs (m : Metadata.t) (c : string) :
  JS.truthy (Metadata.type m)
  && Validators.differ (Metadata.type m)
       (AbstractionTypeInfo.type (TypeDetector.detectAbstractionType (RuleBlock.mk m c)))
  = false.
Proof.
  destruct (JS.truthy (Metadata.type m)) eqn:T; [|reflexivity].
  rewrite (declared_type_detected m c T). apply differ_same.
Qed.

End Mismatch.

(** X21.  Neither caller ever reports an abstraction mismatch: the type
    they compare the declared type with comes from a classification of the
    same metadata, which returns the declared type whenever there is one. *)
Theorem mismatch_never_reported (config : SyncManager.ConfigFile) :
  Analyzer.detectAbstractionMismatch config
    (TypeDetector.detectAbstractionType
       (RuleBlock.mk (SyncManager.metadata config) (SyncManager.content config)))
  = None
  /\ SyncManager.abstractionMismatch (SyncManager.analyzeConfigFile config) = None.
Proof.
  pose proof (never_differs (SyncManager.metadata config) (SyncManager.content config))
    as H.
  unfold Analyzer.detectAbstractionMismatch, SyncManager.analyzeConfigFile.
  cbv zeta. cbn [SyncManager.abstractionMismatch].
  revert H.
  generalize (TypeDetector.detectAbstractionType
                (RuleBlock.mk (SyncManager.metadata config) (SyncManager.content config))).
  intros ti H. rewrite H. split; reflexivity.
Qed.

Section ConfigValidation.

Lemma validateConfig_throw (config : SyncManager.ConfigFile) (e : JS.Error) :
  Validators.validateAnyAbstraction (JS.Value (SyncManager.metadata config))
    (JS.Value (SyncManager.content config)) = JS.Throw e ->
  SyncManager.validateConfig config
  = ValidationResult.mk false
      [Issue.mk "VALIDATION_FAILED" (SyncManager.errorMessage e) None (Some SevError)]
      [] [].
Proof. intros H. unfold SyncManager.validateConfig. rewrite H. reflexivity. Qed.

End ConfigValidation.

(** X22.  For a file declared as a subagent with at most five tools,
    [validateConfig] reports nothing about the subagent: its result is the
    single error [VALIDATION_FAILED] with the message of the exception,
    [skill is not defined]. *)
Theorem validateConfig_subagent (config : SyncManager.ConfigFile)
    (Hty : Metadata.type (SyncManager.metadata config) = Some "subagent")
    (Htools : match Metadata.tools (SyncManager.metadata config) with
              | Some tools => length tools <= 5
              | None => True
              end) :
  SyncManager.validateConfig config
  = ValidationResult.mk false
      [Issue.mk "VALIDATION_FAILED" "skill is not defined" None (Some SevError)] [] [].
Proof.
  apply (validateConfig_throw config (JS.ReferenceError "skill")).
  apply validateAnyAbstraction_propagates; [rewrite Hty; reflexivity|].
  rewrite Hty. unfold Validators.routeToSpecificValidator.
  cbn [TypeDetector.typeIs String.eqb Ascii.eqb Bool.eqb].
  apply validateSubAgent_throws.
  destruct (Metadata.tools (SyncManager.metadata config)) as [tools|]; [|reflexivity].
  apply Nat.ltb_ge, Htools.
Qed.

Lemma validateConfig_subagent_witness :
  SyncManager.validateConfig
    (SyncManager.mkConfigFile "agent.md" Examples.minimalSubagent "Step 1: Process" None)
  = ValidationResult.mk false
      [Issue.mk "VALIDATION_FAILED" "skill is not defined" None (Some SevError)] [] [].
Proof.
  apply (validateConfig_subagent
           (SyncManager.mkConfigFile "agent.md" Examples.minimalSubagent
              "Step 1: Process" None)); [reflexivity|exact I].
Defined.

(** X23.  For a file declared as a command whose trigger starts with a
    slash, [validateConfig] returns the single error [VALIDATION_FAILED]
    with the message [subagent is not defined]. *)
Theorem validateConfig_command (config : SyncManager.ConfigFile) (t : string)
    (Hty : Metadata.type (SyncManager.metadata config) = Some "command")
    (Ht : Metadata.trigger (SyncManager.metadata config) = Some t)
    (Hslash : JS.startsWith t "/" = true) :
  SyncManager.validateConfig config
  = ValidationResult.mk false
      [Issue.mk "VALIDATION_FAILED" "subagent is not defined" None (Some SevError)] [] [].
Proof.
  apply (validateConfig_throw config (JS.ReferenceError "subagent")).
  apply validateAnyAbstraction_propagates; [rewrite Hty; reflexivity|].
  rewrite Hty. unfold Validators.routeToSpecificValidator.
  cbn [TypeDetector.typeIs String.eqb Ascii.eqb Bool.eqb].
  exact (validateCommand_throws _ _ t Ht Hslash).
Qed.

Lemma validateConfig_command_witness :
  SyncManager.validateConfig
    (SyncManager.mkConfigFile "build.md" (Examples.command "command-1" "/build")
       "Execute build process" None)
  = ValidationResult.mk false
      [Issue.mk "VALIDATION_FAILED" "subagent is not defined" None (Some SevError)] [] [].
Proof.
  apply (validateConfig_command
           (SyncManager.mkConfigFile "build.md" (Examples.command "command-1" "/build")
              "Execute build process" None) "/build"); reflexivity.
Defined.

(** X24.  The result of [validateConfig] always satisfies
    [valid == (errors.length == 0)], the exceptional path included; so a
    file analysis of the sync manager has no issue exactly when the file is
    valid. *)
Theorem validateConfig_coherent (config : SyncManager.ConfigFile) :
  ValidationResult.coherent (SyncManager.validateConfig config)
  /\ (SyncManager.issues (SyncManager.analyzeConfigFile config) = []
      <-> ValidationResult.valid (SyncManager.validateConfig config) = true).
Proof.
  assert (H : ValidationResult.coherent (SyncManager.validateConfig config)).
  { unfold SyncManager.validateConfig.
    destruct (Validators.validateAnyAbstraction _ _) as [r|e] eqn:E; [|reflexivity].
    exact (validateAnyAbstraction_coherent _ _ _ E). }
  split; [exact H|].
  unfold SyncManager.analyzeConfigFile. cbv zeta. cbn [SyncManager.issues].
  revert H. generalize (SyncManager.validateConfig config). intros r H.
  unfold ValidationResult.coherent in H. rewrite H, Nat.eqb_eq.
  symmetry. apply length_zero_iff_nil.
Qed.

(** * Severity tags *)

Section Tags.
Import VALIDATION_CODES.

Lemma tagged_flat_map {A} (P : Issue.t -> Prop) (f : A -> list Issue.t) (l : list A) :
  (forall x, Forall P (f x)) -> Forall P (flat_map f l).
Proof.
  intros H. induction l as [|x l IH]; [constructor|].
  cbn [flat_map]. apply Forall_app. split; [apply H|exact IH].
Qed.

Lemma argumentsErrors_tagged (index : nat) (args : list Argument.t) :
  Forall (fun e => Issue.severity e = Some SevError) (Validators.argumentsErrors index args).
Proof.
  revert index. induction args as [|a args IH]; intros index; cbn; [constructor|].
  unfold Validators.argumentErrors, Validators.pushIf.
  repeat (apply Forall_app; split); try apply IH;
    match goal with |- Forall _ (if ?b then _ else _) => destruct b end;
    repeat constructor.
Qed.

Lemma validateSkill_tagged (m : Metadata.t) (c : string) :
  Notions.tagged (Validators.validateSkill m c).
Proof.
  unfold Validators.validateSkill, Validators.result, Notions.tagged, Validators.pushIf.
  cbn [ValidationResult.errors ValidationResult.warnings].
  split; repeat (apply Forall_app; split);
    repeat match goal with
           | |- Forall _ (if ?b then _ else _) => destruct b
           | |- Forall _ (match ?x with Some _ => _ | None => _ end) => destruct x
           end;
    repeat constructor.
Qed.

Lemma validateRule_tagged (m : Metadata.t) (c : string) :
  Notions.tagged (Validators.validateRule m c).
Proof.
  unfold Validators.validateRule, Validators.result, Notions.tagged, Validators.pushIf.
  cbn [ValidationResult.errors ValidationResult.warnings].
  split; repeat (apply Forall_app; split);
    repeat match goal with
           | |- Forall _ (if ?b then _ else _) => destruct b
           | |- Forall _ (match ?x with Some _ => _ | None => _ end) => destruct x
           end;
    repeat constructor.
Qed.

Lemma validateSubAgent_tagged (m : Metadata.t) (c : string) (r : ValidationResult.t) :
  Validators.validateSubAgent m c = JS.Ok r -> Notions.tagged r.
Proof.
  unfold Validators.validateSubAgent.
  destruct (match Metadata.tools m with
            | Some tools => (5 <? length tools)%nat
            | None => false
            end); [|discriminate].
  cbn [mbind Result_bind JS.bind mret Result_ret]. intros H. apply Ok_inj in H. subst r.
  unfold Validators.result, Notions.tagged, Validators.pushIf.
  cbn [ValidationResult.errors ValidationResult.warnings fst snd].
  split; repeat (apply Forall_app; split);
    repeat match goal with
           | |- Forall _ (if ?b then _ else _) => destruct b
           | |- Forall _ (match ?x with Some _ => _ | None => _ end) => destruct x
           end;
    repeat constructor.
Qed.

Lemma validateCommand_tagged (m : Metadata.t) (c : string) (r : ValidationResult.t) :
  Validators.validateCommand m c = JS.Ok r -> Notions.tagged r.
Proof.
  assert (Hargs : Forall (fun e => Issue.severity e = Some SevError)
                    match Metadata.arguments m with
                    | Some args => Validators.argumentsErrors 0 args
                    | None => []
                    end).
  { destruct (Metadata.arguments m); [apply argumentsErrors_tagged|constructor]. }
  unfold Validators.validateCommand. cbv zeta.
  revert Hargs.
  generalize (match Metadata.arguments m with
              | Some args => Validators.argumentsErrors 0 args
              | None => []
              end).
  intros argErrors Hargs.
  assert (Hrest : forall errors1,
             Forall (fun e => Issue.severity e = Some SevError) errors1 ->
             forall warnings suggestions errors2 b3 b5 e3 e5,
               Forall (fun e => Issue.severity e = Some SevError) errors2 ->
               Issue.severity e3 = Some SevError -> Issue.severity e5 = Some SevError ->
               Forall (fun w => Issue.severity w = Some SevWarning) warnings ->
               Notions.tagged
                 (Validators.result
                    (errors1 ++ errors2 ++ Validators.pushIf b3 e3 ++ argErrors
                       ++ Validators.pushIf b5 e5)%list warnings suggestions)).
  { intros errors1 H1 warnings suggestions errors2 b3 b5 e3 e5 H2 H3 H5 Hw.
    split; [|exact Hw]. cbn [Validators.result ValidationResult.errors].
    repeat (apply Forall_app; split); try assumption;
      unfold Validators.pushIf;
      match goal with |- Forall _ (if ?b then _ else _) => destruct b end;
      repeat constructor; assumption. }
  assert (H2 : Forall (fun e => Issue.severity e = Some SevError)
                 match Metadata.userInvoked m with
                 | Some b =>
                     Validators.pushIf (negb b)
                       (Validators.error COMMAND_FALSE_USER_INVOKED
                          "Commands must have userInvoked set to true"
                          (Some "userInvoked"))
                 | None =>
                     [Validators.error COMMAND_MISSING_USER_INVOKED
                        "Commands must have userInvoked field" (Some "userInvoked")]
                 end).
  { destruct (Metadata.userInvoked m) as [[|]|]; repeat constructor. }
  assert (Hw : forall b, Forall (fun w => Issue.severity w = Some SevWarning)
                           (Validators.pushIf b
                              (Validators.warning COMMAND_MISSING_INSTRUCTIONS
                                 "Commands should contain executable instructions or usage guidance"
                                 None))).
  { intros [|]; repeat constructor. }
  destruct (negb (JS.truthy (Metadata.trigger m))).
  - cbn [mbind Result_bind JS.bind mret Result_ret]. intros H. apply Ok_inj in H. subst r.
    apply Hrest;
      first [assumption | apply Hw | reflexivity | solve [repeat constructor]].
  - destruct (negb (JS.startsWith _ _)); [|discriminate].
    cbn [mbind Result_bind JS.bind mret Result_ret]. intros H. apply Ok_inj in H. subst r.
    apply Hrest;
      first [assumption | apply Hw | reflexivity | solve [repeat constructor]].
Qed.

Lemma routeToSpecificValidator_tagged (ty : option string) (m : Metadata.t) (c : string)
    (r : ValidationResult.t) :
  Validators.routeToSpecificValidator ty m c = JS.Ok r -> Notions.tagged r.
Proof.
  unfold Validators.routeToSpecificValidator.
  destruct (TypeDetector.typeIs ty "skill").
  { intros H. apply Ok_inj in H. subst r. apply validateSkill_tagged. }
  destruct (TypeDetector.typeIs ty "subagent"); [apply validateSubAgent_tagged|].
  destruct (TypeDetector.typeIs ty "command"); [apply validateCommand_tagged|].
  destruct (TypeDetector.typeIs ty "rule"); intros H; apply Ok_inj in H; subst r.
  - apply validateRule_tagged.
  - split; repeat constructor.
Qed.

Lemma pushWarning_tagged (r : ValidationResult.t) (inferred declared : option string) :
  Notions.tagged r ->
  Notions.tagged (Validators.pushWarning r (Validators.mismatchWarning inferred declared)).
Proof.
  intros [He Hw]. split; [exact He|].
  cbn [Validators.pushWarning ValidationResult.warnings].
  apply Forall_app. split; [exact Hw|repeat constructor].
Qed.

Lemma triggerErrors_tagged (l : list RuleBlock.t) :
  Forall (fun e => Issue.severity e = Some SevError)
    (Group.triggerErrors (Group.buildIndex l)).
Proof.
  unfold Group.buildIndex.
  assert (G : forall ix,
             Forall (fun e => Issue.severity e = Some SevError) (Group.triggerErrors ix) ->
             Forall (fun e => Issue.severity e = Some SevError)
               (Group.triggerErrors (fold_left Group.indexStep l ix))).
  { induction l as [|a l IH]; intros ix H; [exact H|].
    cbn [fold_left]. apply IH. unfold Group.indexStep.
    destruct (TypeDetector.typeIs _ _ && JS.truthy _); [|exact H].
    destruct (JS.truthy (Group.commandTriggers ix !! _)); [|exact H].
    cbn [Group.triggerErrors]. apply Forall_app. split; [exact H|repeat constructor]. }
  apply G. constructor.
Qed.

Lemma scopeWarnings_tagged (l : list RuleBlock.t) :
  Forall (fun w => Issue.severity w = Some SevWarning) (Group.scopeWarnings l).
Proof.
  unfold Group.scopeWarnings. cbv zeta.
  destruct (1 <? length _)%nat; [|constructor].
  apply tagged_flat_map. intros entry. unfold Validators.pushIf.
  destruct (1 <? length (snd entry))%nat; repeat constructor.
Qed.

End Tags.

(** X25.  Every issue of a result that the dispatcher returns carries the
    severity of its list: errors are tagged [error] and warnings [warning].
    (The two pushes of the source that set no severity are in the branches
    that cannot complete.) *)
Theorem dispatcher_result_tagged (m : JS.nullable Metadata.t) (c : JS.nullable string)
    (r : ValidationResult.t)
    (H : Validators.validateAnyAbstraction m c = JS.Ok r) :
  Notions.tagged r.
Proof.
  revert H. unfold Validators.validateAnyAbstraction.
  destruct m as [| |m]; try (intros H; apply Ok_inj in H; subst r; split; repeat constructor).
  destruct c as [| |c]; try (intros H; apply Ok_inj in H; subst r; split; repeat constructor).
  cbv zeta.
  generalize (TypeDetector.detectAbstractionType (RuleBlock.mk (Metadata.withoutType m) c)).
  intros ti.
  match goal with |- context [Validators.routeToSpecificValidator ?t _ _] =>
    generalize t; intros ty end.
  destruct (Validators.routeToSpecificValidator ty m c) as [r0|e] eqn:E;
    [|intros H; discriminate H].
  apply routeToSpecificValidator_tagged in E.
  rewrite Result_bind_ok.
  destruct (JS.truthy (Metadata.type m)).
  - match goal with |- (if ?b then _ else _) = _ -> _ => destruct b end;
      intros H; apply Ok_inj in H; subst r; [apply pushWarning_tagged, E|exact E].
  - intros H. apply Ok_inj in H. subst r. exact E.
Qed.

Lemma dispatcher_result_tagged_witness :
  Notions.tagged (Validators.validateRule (Metadata.bare "test-rule") "   ").
Proof.
  apply (dispatcher_result_tagged (JS.Value (Metadata.bare "test-rule")) (JS.Value "   ")).
  vm_compute. reflexivity.
Defined.

(** X26.  Every issue of the result of [validateAbstractionGroup] carries
    the severity of its list, and the result has no suggestion. *)
Theorem group_result_tagged (batch : list RuleBlock.t) :
  exists r,
    Group.validateAbstractionGroup batch = Some r
    /\ Notions.tagged r
    /\ ValidationResult.suggestions r = [].
Proof.
  unfold Group.validateAbstractionGroup. cbv zeta.
  pose proof (cycleErrors_sound (Group.dependencyGraph (Group.buildIndex batch))) as Hc.
  destruct Hc as [[-> _]|(n & c & -> & _)];
    eexists; (split; [reflexivity|]); (split; [|reflexivity]);
    (split; [|apply scopeWarnings_tagged]);
    cbn [Validators.result ValidationResult.errors];
    repeat (apply Forall_app; split);
    try apply triggerErrors_tagged; repeat constructor;
    apply tagged_flat_map; intros entry; unfold Validators.pushIf;
    match goal with |- Forall _ (if ?b then _ else _) => destruct b end;
    repeat constructor.
Qed.

(** * [formatValidationResult] *)

Section Formatting.

Lemma prefix_refl (s : string) : String.prefix s s = true.
Proof. induction s as [|ch s IH]; [reflexivity|]. cbn. rewrite IH.
  destruct (Ascii.ascii_dec ch ch); [reflexivity|contradiction]. Qed.

Lemma includes_refl (s : string) : JS.includes s s = true.
Proof. destruct s; cbn [JS.includes]; [reflexivity|]. rewrite prefix_refl. reflexivity. Qed.

Lemma join_cons (sep x : string) (l : list string) :
  JS.join sep (x :: l)
  = match l with [] => x | _ :: _ => x +:+ sep +:+ JS.join sep l end.
Proof. destruct l; reflexivity. Qed.

Lemma prefix_join (sep x : string) (l : list string) :
  String.prefix x (JS.join sep (x :: l)) = true.
Proof.
  rewrite join_cons. destruct l; [apply prefix_refl|apply prefix_append].
Qed.

(** What a line contains, the joined lines contain. *)
Lemma includes_join (sep p x : string) (l : list string) :
  In x l -> JS.includes x p = true -> JS.includes (JS.join sep l) p = true.
Proof.
  intros Hin Hp. induction l as [|y l IH]; [destruct Hin|].
  rewrite join_cons. destruct Hin as [->|Hin].
  - destruct l; [exact Hp|apply includes_append_r, Hp].
  - destruct l as [|z l]; [destruct Hin|].
    apply includes_append, includes_append, IH, Hin.
Qed.

Lemma issueLine_message (e : Issue.t) :
  JS.includes (Format.issueLine e) (Issue.message e) = true.
Proof. unfold Format.issueLine. apply includes_append, includes_prefix. Qed.

Lemma suggestionLine_message (sg : Suggestion.t) :
  JS.includes (Format.suggestionLine sg) (Suggestion.message sg) = true.
Proof.
  unfold Format.suggestionLine. apply includes_append.
  generalize (Format.fieldInfo (Suggestion.field sg)
                +:+ (if Suggestion.actionable sg then " [actionable]" else JS.empty)).
  intros rest. apply includes_prefix.
Qed.

Lemma section_lines {A} (header : string) (line : A -> string) (l : list A) (x : A) :
  In x l ->
  In (line x) (if (0 <? length l)%nat then header :: map line l else []).
Proof.
  intros H. destruct l as [|y l]; [destruct H|].
  cbn [length Nat.ltb Nat.leb]. right. apply in_map, H.
Qed.

End Formatting.

(** X27.  The text of [formatValidationResult] starts with the line that
    says whether the result is valid, and contains the message of every
    error, warning and suggestion of the result. *)
Theorem formatValidationResult_complete (r : ValidationResult.t) :
  String.prefix
    (if ValidationResult.valid r then "✓ Validation passed" else "✗ Validation failed")
    (Format.formatValidationResult r) = true
  /\ (forall e, In e (ValidationResult.errors r) ->
                JS.includes (Format.formatValidationResult r) (Issue.message e) = true)
  /\ (forall w, In w (ValidationResult.warnings r) ->
                JS.includes (Format.formatValidationResult r) (Issue.message w) = true)
  /\ (forall sg, In sg (ValidationResult.suggestions r) ->
                 JS.includes (Format.formatValidationResult r) (Suggestion.message sg)
                 = true).
Proof.
  unfold Format.formatValidationResult. cbv zeta. split; [|split; [|split]].
  - cbn [app]. apply prefix_join.
  - intros e He. apply (includes_join _ _ (Format.issueLine e));
      [|apply issueLine_message].
    rewrite !in_app_iff. right. left. apply section_lines, He.
  - intros w Hw. apply (includes_join _ _ (Format.issueLine w));
      [|apply issueLine_message].
    rewrite !in_app_iff. right. right. left. apply section_lines, Hw.
  - intros sg Hs. apply (includes_join _ _ (Format.suggestionLine sg));
      [|apply suggestionLine_message].
    rewrite !in_app_iff. right. right. right. apply section_lines, Hs.
Qed.

(** * Scope conflicts *)

Section ScopeConflicts.
Import VALIDATION_CODES.

(** The scopes claimed so far, by the number of claims of one scope. *)
Lemma claims_count (rules : list RuleBlock.t) :
  forall (m : OrderedMap.t (list string)) (s : string),
    length (default [] (OrderedMap.get s
              (fold_left
                 (fun m rule =>
                    fold_left (Group.claim (Metadata.id (RuleBlock.metadata rule)))
                      (Group.scopesOf (RuleBlock.metadata rule)) m)
                 rules m)))
    = length (default [] (OrderedMap.get s m))
      + count_occ string_dec
          (flat_map (fun a => Group.scopesOf (RuleBlock.metadata a)) rules) s.
Proof.
  assert (Hone : forall ident scopes (m : OrderedMap.t (list string)) s,
             length (default [] (OrderedMap.get s (fold_left (Group.claim ident) scopes m)))
             = length (default [] (OrderedMap.get s m)) + count_occ string_dec scopes s).
  { intros ident scopes. induction scopes as [|x scopes IH]; intros m s.
    - cbn. lia.
    - cbn [fold_left]. rewrite IH. unfold Group.claim. rewrite get_set.
      cbn [count_occ]. destruct (string_dec x s) as [->|Hne].
      + rewrite String.eqb_refl. cbn [default from_option id].
        rewrite length_app. cbn [length]. lia.
      + apply String.eqb_neq in Hne. rewrite Hne. lia. }
  induction rules as [|r rules IH]; intros m s.
  - cbn. lia.
  - cbn [fold_left flat_map]. rewrite IH, Hone, count_occ_app. lia.
Qed.

Lemma claims_NoDup (rules : list RuleBlock.t) :
  forall m : OrderedMap.t (list string),
    List.NoDup (OrderedMap.keys m) ->
    List.NoDup
      (OrderedMap.keys
         (fold_left
            (fun m rule =>
               fold_left (Group.claim (Metadata.id (RuleBlock.metadata rule)))
                 (Group.scopesOf (RuleBlock.metadata rule)) m)
            rules m)).
Proof.
  assert (Hone : forall ident scopes (m : OrderedMap.t (list string)),
             List.NoDup (OrderedMap.keys m) ->
             List.NoDup (OrderedMap.keys (fold_left (Group.claim ident) scopes m))).
  { intros ident scopes. induction scopes as [|x scopes IH]; intros m H; [exact H|].
    cbn [fold_left]. apply IH. unfold Group.claim. apply set_NoDup, H. }
  induction rules as [|r rules IH]; intros m H; [exact H|].
  cbn [fold_left]. apply IH, Hone, H.
Qed.

(** No entry of a map holds more than one identifier exactly when no scope
    was claimed twice. *)
Lemma conflicts_nil (m : OrderedMap.t (list string)) :
  List.NoDup (OrderedMap.keys m) ->
  flat_map
    (fun entry : string * list string =>
       Validators.pushIf (1 <? length (snd entry))%nat
         (Validators.warning RULE_SCOPE_CONFLICT
            ("Multiple always-apply rules in scope " +:+ Validators.quoted (fst entry)
               +:+ ": " +:+ JS.join ", " (snd entry) +:+ ". Consider setting priorities.")
            (Some "scope")))
    m = []
  <-> forall s, length (default [] (OrderedMap.get s m)) <= 1.
Proof.
  intros Hnd. split.
  - intros H s. destruct (OrderedMap.get s m) as [ids|] eqn:G; [|cbn; lia].
    cbn [default from_option id]. apply get_entry in G.
    induction m as [|[k v] m IH]; [destruct G|].
    cbn [flat_map fst snd] in H. apply app_nil in H as [H1 H2].
    apply pushIf_nil, Nat.ltb_ge in H1.
    destruct G as [[= <- <-]|G]; [exact H1|].
    cbn [OrderedMap.keys map fst] in Hnd. apply List.NoDup_cons_iff in Hnd as [_ Hnd].
    exact (IH Hnd H2 G).
  - intros H. induction m as [|[k v] m IH]; [reflexivity|].
    cbn [flat_map fst snd]. apply app_nil. split.
    + apply pushIf_nil, Nat.ltb_ge.
      pose proof (H k) as Hk. cbn [OrderedMap.get] in Hk.
      rewrite String.eqb_refl in Hk. exact Hk.
    + cbn [OrderedMap.keys map fst] in Hnd.
      apply List.NoDup_cons_iff in Hnd as [Hk Hnd]. apply IH; [exact Hnd|].
      intros s. destruct (OrderedMap.get s m) as [ids|] eqn:G; [|cbn; lia].
      pose proof (H s) as Hs. cbn [OrderedMap.get] in Hs.
      destruct (String.eqb k s) eqn:E; [|rewrite G in Hs; exact Hs].
      apply String.eqb_eq in E. subst s. exfalso. apply Hk.
      exact (get_in_keys m k ids G).
Qed.

End ScopeConflicts.

(** X28.  [validateAbstractionGroup] warns about scopes exactly when the
    batch has more than one always-applied rule and some scope is claimed
    more than once.  A rule claims each scope it lists, once per listing; it
    claims [global] when its scope is missing or is the empty string; and it
    claims nothing when its scope is the empty array.  All the warnings
    have the code [RULE_SCOPE_CONFLICT]. *)
Theorem group_scope_warnings (batch : list RuleBlock.t) :
  exists r,
    Group.validateAbstractionGroup batch = Some r
    /\ (ValidationResult.warnings r = []
        <-> length
              (List.filter
                 (fun a =>
                    JS.isTrue (Metadata.alwaysApply (RuleBlock.metadata a))
                    && TypeDetector.typeIs (Metadata.type (RuleBlock.metadata a)) "rule")
                 batch) <= 1
            \/ List.NoDup (Notions.claimedScopes batch))
    /\ Forall (Issue.hasCode VALIDATION_CODES.RULE_SCOPE_CONFLICT)
         (ValidationResult.warnings r).
Proof.
  unfold Group.validateAbstractionGroup. cbv zeta.
  destruct (cycleErrors_returns (Group.dependencyGraph (Group.buildIndex batch)))
    as [cycle ->].
  eexists. split; [reflexivity|].
  cbn [Validators.result ValidationResult.warnings].
  unfold Group.scopeWarnings, Notions.claimedScopes. cbv zeta.
  generalize (List.filter
                (fun a =>
                   JS.isTrue (Metadata.alwaysApply (RuleBlock.metadata a))
                   && TypeDetector.typeIs (Metadata.type (RuleBlock.metadata a)) "rule")
                batch).
  intros rules. split.
  - destruct (1 <? length rules)%nat eqn:L.
    + apply Nat.ltb_lt in L.
      rewrite conflicts_nil by (apply claims_NoDup; constructor).
      rewrite (NoDup_count_occ string_dec).
      split.
      * intros H. right. intros s. specialize (H s).
        rewrite claims_count in H. cbn in H. exact H.
      * intros [H|H]; [lia|]. intros s. rewrite claims_count. cbn. apply H.
    + apply Nat.ltb_ge in L. split; [intros _; left; exact L|reflexivity].
  - destruct (1 <? length rules)%nat; [|constructor].
    apply tagged_flat_map. intros entry. unfold Validators.pushIf.
    destruct (1 <? length (snd entry))%nat; repeat constructor.
Qed.
